(** * Floor-plan engine: geometry, validation and statistics

    A shallow embedding of the pure engine of the floor-plan editor
    ([utils/floor-plan.utils.ts], [utils/validation.ts],
    [utils/statistics.ts], [types/floor-plan.ts], [types/estimate-config.ts])
    together with the properties stated about it.

    Numbers.  The engine computes on JavaScript numbers, which are IEEE 754
    binary64 values.  Two readings of the code are given.

    - [Geometry], [Validation], [Statistics]: the arithmetic is exact, on
      rationals [Q]: [+], [-], [*], [/] are the field operations, [===] is
      [Qeq_bool], [Math.max]/[Math.min] are [Qmax]/[Qmin], [Math.ceil] is
      [Qceiling].  This reading is used for the properties that do not
      depend on rounding: the shape of the results, which defaults are
      used, signs and orderings.

    - [Validation64], [Statistics64]: the arithmetic is binary64
      ([Binary64], on the [spec_float] of the standard library): every sum,
      difference, product and quotient is rounded to the nearest binary64
      value, ties to even, and overflows to an infinity; NaN and the two
      zeros behave as in JavaScript.  The numbers of a plan or of a
      configuration are given as rationals (the decimal numbers of the JSON
      document) and read as the nearest binary64 value.  This reading is
      used where the outcome depends on rounding: the tests against the
      1-unit tolerance and the brick count.

    On plans written in whole numbers the two readings of the validation
    engine report the same issues (last section).

    Optional fields ([x?: T]) are [option T]; [a ?? b] is [orElse a b];
    [defaults?.wall?.height] is a chain of [option] binds.

    Strings are byte strings; [toLowerCase] lowers the letters A-Z. *)

From Stdlib Require Import QArith Qround Qminmax Qabs Qpower Lqa.
From Stdlib Require Import ZArith Lia Bool List String Ascii.
From Stdlib Require Import DecimalString SpecFloat.
Import ListNotations.

Local Open Scope Q_scope.

(* ------------------------------------------------------------------ *)
(** ** JavaScript primitives *)

Module JS.

(** [a ?? b] *)
Definition orElse {A : Type} (a : option A) (b : A) : A :=
  match a with Some v => v | None => b end.

(** [a ?? b] where [b] may itself be absent *)
Definition orElseOpt {A : Type} (a b : option A) : option A :=
  match a with Some v => Some v | None => b end.

(** [o?.f] where [f] is an optional field *)
Definition optChain {A B : Type} (o : option A) (f : A -> option B) : option B :=
  match o with Some v => f v | None => None end.

(** [a < b], [a > b], [a <= b] on numbers *)
Definition ltb (a b : Q) : bool := negb (Qle_bool b a).
Definition gtb (a b : Q) : bool := ltb b a.
Definition leb (a b : Q) : bool := Qle_bool a b.

(** [Math.ceil], [Math.round], [Math.abs] *)
Definition ceil (x : Q) : Q := inject_Z (Qceiling x).
Definition roundZ (x : Q) : Z := Qfloor (x + (1 # 2)).
Definition round (x : Q) : Q := inject_Z (roundZ x).
Definition abs (x : Q) : Q := Qabs x.

(** [b !== false] on an optional boolean *)
Definition notFalse (b : option bool) : bool :=
  match b with Some false => false | _ => true end.

(** The double-quote character, used inside messages *)
Definition dq : string := String (ascii_of_nat 34) EmptyString.

(** [s.toLowerCase()] *)
Definition lowerAscii (c : ascii) : ascii :=
  let n := nat_of_ascii c in
  if (Nat.leb 65 n && Nat.leb n 90)%bool then ascii_of_nat (n + 32) else c.

Fixpoint toLowerCase (s : string) : string :=
  match s with
  | EmptyString => EmptyString
  | String c s' => String (lowerAscii c) (toLowerCase s')
  end.

(** [s.includes(sub)] *)
Fixpoint includes (s sub : string) : bool :=
  if String.prefix sub s then true
  else match s with
       | EmptyString => false
       | String _ s' => includes s' sub
       end.

(** Decimal rendering of an integral number inside a template literal *)
Definition showInt (z : Z) : string := NilZero.string_of_int (Z.to_int z).

(** [for (i = 0; i < xs.length; i++) for (j = i + 1; j < xs.length; j++)
      issues.push(...body(xs[i], xs[j]))] *)
Fixpoint forPairs {A B : Type} (body : A -> A -> list B) (xs : list A) : list B :=
  match xs with
  | [] => []
  | x :: rest => flat_map (body x) rest ++ forPairs body rest
  end.

(** [xs.reduce((sum, v) => sum + f(v), 0)] *)
Definition sumBy {A : Type} (f : A -> Q) (xs : list A) : Q :=
  fold_left (fun sum v => sum + f v) xs 0.

End JS.

(* ------------------------------------------------------------------ *)
(** ** Binary64 numbers *)

Module Binary64.

(** IEEE 754 binary64: 53 bits of precision, infinities at exponent 1024.
    A value is a [spec_float]: a signed zero, a signed infinity, NaN, or
    [S754_finite s m e] for (-1)^s x m x 2^e. *)
Definition prec : Z := 53.
Definition emax : Z := 1024.
Definition double : Type := spec_float.

(** [a + b], [a - b], [a * b], [a / b]: the exact result rounded to the
    nearest binary64 value, ties to even *)
Definition add : double -> double -> double := SFadd prec emax.
Definition sub : double -> double -> double := SFsub prec emax.
Definition mul : double -> double -> double := SFmul prec emax.
Definition div : double -> double -> double := SFdiv prec emax.

(** The binary64 value nearest to a rational: what a decimal number of the
    source text or of a JSON document denotes *)
Definition ofQ (q : Q) : double :=
  match Qnum q with
  | Z0 => S754_zero false
  | Zpos n => div (S754_finite false n 0) (S754_finite false (Qden q) 0)
  | Zneg n => div (S754_finite true n 0) (S754_finite false (Qden q) 0)
  end.

Definition zero : double := S754_zero false.
Definition one : double := ofQ 1.

Definition isNaN (x : double) : bool :=
  match x with S754_nan => true | _ => false end.

(** Neither an infinity nor NaN *)
Definition isFinite (x : double) : bool :=
  match x with
  | S754_zero _ | S754_finite _ _ _ => true
  | _ => false
  end.


(** The rational a finite value stands for (0 for the others) *)
Definition toQ (x : double) : Q :=
  match x with
  | S754_finite sx mx ex => inject_Z (cond_Zopp sx (Zpos mx)) * 2 ^ ex
  | _ => 0
  end.

(** The order of the values; there is none when either side is NaN, and the
    two zeros are equal *)
Definition compare (x y : double) : option comparison :=
  match x, y with
  | S754_nan, _ | _, S754_nan => None
  | S754_infinity sx, S754_infinity sy =>
      Some (match sx, sy with
            | true, true | false, false => Eq
            | true, false => Lt
            | false, true => Gt
            end)
  | S754_infinity s, _ => Some (if s then Lt else Gt)
  | _, S754_infinity s => Some (if s then Gt else Lt)
  | _, _ => Some (toQ x ?= toQ y)
  end.

(** [x < y], [x > y], [x <= y], [x === y]: false when either side is NaN *)
Definition ltb (x y : double) : bool :=
  match compare x y with Some Lt => true | _ => false end.
Definition gtb (x y : double) : bool := ltb y x.
Definition leb (x y : double) : bool :=
  match compare x y with Some (Lt | Eq) => true | _ => false end.
Definition eqb (x y : double) : bool :=
  match compare x y with Some Eq => true | _ => false end.

(** [Math.abs] *)
Definition abs : double -> double := SFabs.

(** [Math.max(x, y)]: NaN when either is NaN; +0 is larger than -0 *)
Definition max (x y : double) : double :=
  match compare x y with
  | None => S754_nan
  | Some Lt => y
  | Some Gt => x
  | Some Eq => match x with S754_zero true => y | _ => x end
  end.

(** [Math.min(x, y)]: NaN when either is NaN; -0 is smaller than +0 *)
Definition min (x y : double) : double :=
  match compare x y with
  | None => S754_nan
  | Some Lt => x
  | Some Gt => y
  | Some Eq => match x with S754_zero false => y | _ => x end
  end.

(** [Math.ceil]: the least whole number not below [x]; a negative [x] above
    -1 gives -0; zeros, infinities and NaN are returned as they are *)
Definition ceil (x : double) : double :=
  match x with
  | S754_finite s _ _ =>
      match Qceiling (toQ x) with
      | Z0 => S754_zero s
      | n => binary_normalize prec emax n 0 false
      end
  | _ => x
  end.

End Binary64.

Declare Scope double_scope.
Delimit Scope double_scope with double.
Infix "+" := Binary64.add : double_scope.
Infix "-" := Binary64.sub : double_scope.
Infix "*" := Binary64.mul : double_scope.
Infix "/" := Binary64.div : double_scope.

(** A number of the plan or of the configuration, as the engine reads it *)
Definition num (q : Q) : Binary64.double := Binary64.ofQ q.

(** An optional number ([x?: number]) *)
Definition optNum (o : option Q) : option Binary64.double := option_map num o.

(* ------------------------------------------------------------------ *)
(** ** Data model ([types/floor-plan.ts]) *)

Inductive Unit := cm | mm | m.

Inductive WallSide := north | east | south | west.

Inductive OpeningType := door | window.

Record Position := mkPosition { pos_x : Q; pos_y : Q }.

Record Opening := mkOpening {
  op_type : OpeningType;
  op_offset : Q;
  op_width : option Q;
  op_height : option Q;
  op_fromFloor : option Q;
  op_to : option string
}.

Record Wall := mkWall {
  wall_length : option Q;
  wall_height : option Q;
  wall_thickness : option Q;
  wall_exists : option bool;
  wall_openings : option (list Opening)
}.

Record Walls := mkWalls {
  w_north : Wall;
  w_east : Wall;
  w_south : Wall;
  w_west : Wall
}.

Record Room := mkRoom {
  room_id : string;
  room_name : option string;
  room_position : Position;
  room_walls : Walls
}.

Record Floor := mkFloor {
  floor_id : string;
  floor_rooms : list Room
}.

Record WallDefaults := mkWallDefaults {
  wd_height : option Q;
  wd_thickness : option Q
}.

Record DoorDefaults := mkDoorDefaults {
  dd_width : option Q;
  dd_height : option Q
}.

Record WindowDefaults := mkWindowDefaults {
  wnd_width : option Q;
  wnd_height : option Q;
  wnd_fromFloor : option Q
}.

Record Defaults := mkDefaults {
  d_wall : option WallDefaults;
  d_door : option DoorDefaults;
  d_window : option WindowDefaults
}.

Record FloorPlan := mkFloorPlan {
  fp_version : string;
  fp_unit : Unit;
  fp_scale : option Q;
  fp_defaults : option Defaults;
  fp_floor : Floor
}.

(** [room.walls[side]] *)
Definition wallAt (ws : Walls) (side : WallSide) : Wall :=
  match side with
  | north => w_north ws
  | east => w_east ws
  | south => w_south ws
  | west => w_west ws
  end.

Definition sideName (side : WallSide) : string :=
  match side with
  | north => "north"
  | east => "east"
  | south => "south"
  | west => "west"
  end%string.

(** [defaults?.wall?.height] and friends *)
Definition defWallHeight (d : option Defaults) : option Q :=
  JS.optChain (JS.optChain d d_wall) wd_height.
Definition defWallThickness (d : option Defaults) : option Q :=
  JS.optChain (JS.optChain d d_wall) wd_thickness.
Definition defDoorWidth (d : option Defaults) : option Q :=
  JS.optChain (JS.optChain d d_door) dd_width.
Definition defDoorHeight (d : option Defaults) : option Q :=
  JS.optChain (JS.optChain d d_door) dd_height.
Definition defWindowWidth (d : option Defaults) : option Q :=
  JS.optChain (JS.optChain d d_window) wnd_width.
Definition defWindowHeight (d : option Defaults) : option Q :=
  JS.optChain (JS.optChain d d_window) wnd_height.
Definition defWindowFromFloor (d : option Defaults) : option Q :=
  JS.optChain (JS.optChain d d_window) wnd_fromFloor.

(** The effective room dimensions, computed the same way by all three
    passes: [Math.max(north.length ?? 0, south.length ?? 0)] and
    [Math.max(east.length ?? 0, west.length ?? 0)]. *)
Definition roomWidth (room : Room) : Q :=
  Qmax (JS.orElse (wall_length (w_north (room_walls room))) 0)
       (JS.orElse (wall_length (w_south (room_walls room))) 0).

Definition roomHeight (room : Room) : Q :=
  Qmax (JS.orElse (wall_length (w_east (room_walls room))) 0)
       (JS.orElse (wall_length (w_west (room_walls room))) 0).

(* ------------------------------------------------------------------ *)
(** ** Geometry calculator ([utils/floor-plan.utils.ts]) *)

Module Geometry.

Record OpeningGeometry := mkOpeningGeometry {
  og_type : OpeningType;
  og_x : Q;
  og_y : Q;
  og_width : Q;
  og_height : Q;
  og_fromFloor : Q;
  og_to : option string;
  og_direction : WallSide
}.

Record WallGeometry := mkWallGeometry {
  wg_x1 : Q;
  wg_y1 : Q;
  wg_x2 : Q;
  wg_y2 : Q;
  wg_length : Q;
  wg_thickness : Q;
  wg_exists : bool;
  wg_openings : list OpeningGeometry
}.

Record WallsGeometry := mkWallsGeometry {
  g_north : WallGeometry;
  g_east : WallGeometry;
  g_south : WallGeometry;
  g_west : WallGeometry
}.

Record RoomGeometry := mkRoomGeometry {
  rg_id : string;
  rg_name : string;
  rg_x : Q;
  rg_y : Q;
  rg_width : Q;
  rg_height : Q;
  rg_walls : WallsGeometry
}.

Record FloorGeometry := mkFloorGeometry {
  fg_width : Q;
  fg_height : Q;
  fg_rooms : list RoomGeometry
}.

Definition DEFAULT_WALL_height : Q := 280.
Definition DEFAULT_WALL_thickness : Q := 15.
Definition DEFAULT_DOOR : DoorDefaults := mkDoorDefaults (Some 80) (Some 210).
Definition DEFAULT_WINDOW : WindowDefaults :=
  mkWindowDefaults (Some 120) (Some 120) (Some 100).

Record ResolvedWall := mkResolvedWall {
  rw_length : Q;
  rw_height : Q;
  rw_thickness : Q;
  rw_exists : bool;
  rw_openings : list Opening
}.

Record ResolvedOpening := mkResolvedOpening {
  ro_type : OpeningType;
  ro_offset : Q;
  ro_width : Q;
  ro_height : Q;
  ro_fromFloor : Q;
  ro_to : option string
}.

Definition resolveWall (wall : Wall) (defaults : option Defaults) : ResolvedWall :=
  {| rw_length := JS.orElse (wall_length wall) 0;
     rw_height := JS.orElse (JS.orElseOpt (wall_height wall) (defWallHeight defaults))
                            DEFAULT_WALL_height;
     rw_thickness := JS.orElse (JS.orElseOpt (wall_thickness wall) (defWallThickness defaults))
                               DEFAULT_WALL_thickness;
     rw_exists := JS.orElse (wall_exists wall) true;
     rw_openings := JS.orElse (wall_openings wall) [] |}.

Definition resolveOpening (opening : Opening) (defaults : option Defaults) : ResolvedOpening :=
  match op_type opening with
  | window =>
      let typeDefaults := JS.orElse (JS.optChain defaults d_window) DEFAULT_WINDOW in
      {| ro_type := op_type opening;
         ro_offset := op_offset opening;
         ro_width := JS.orElse (JS.orElseOpt (op_width opening) (wnd_width typeDefaults)) 120;
         ro_height := JS.orElse (JS.orElseOpt (op_height opening) (wnd_height typeDefaults)) 120;
         ro_fromFloor := JS.orElse (op_fromFloor opening)
                           (JS.orElse (defWindowFromFloor defaults) 100);
         ro_to := op_to opening |}
  | door =>
      let typeDefaults := JS.orElse (JS.optChain defaults d_door) DEFAULT_DOOR in
      {| ro_type := op_type opening;
         ro_offset := op_offset opening;
         ro_width := JS.orElse (JS.orElseOpt (op_width opening) (dd_width typeDefaults)) 80;
         ro_height := JS.orElse (JS.orElseOpt (op_height opening) (dd_height typeDefaults)) 210;
         ro_fromFloor := JS.orElse (op_fromFloor opening) 0;
         ro_to := op_to opening |}
  end.

(** Position of one opening on the wall [side] of [room] *)
Definition openingGeometry (room : Room) (side : WallSide)
    (defaults : option Defaults) (scale : Q) (opening : Opening) : OpeningGeometry :=
  let resolvedOpening := resolveOpening opening defaults in
  let x := pos_x (room_position room) in
  let y := pos_y (room_position room) in
  let '(ox, oy) :=
    match side with
    | north => ((x + ro_offset resolvedOpening) * scale, y * scale)
    | south => ((x + ro_offset resolvedOpening) * scale, (y + roomHeight room) * scale)
    | east => ((x + roomWidth room) * scale, (y + ro_offset resolvedOpening) * scale)
    | west => (x * scale, (y + ro_offset resolvedOpening) * scale)
    end in
  {| og_type := ro_type resolvedOpening;
     og_x := ox;
     og_y := oy;
     og_width := ro_width resolvedOpening * scale;
     og_height := ro_height resolvedOpening * scale;
     og_fromFloor := ro_fromFloor resolvedOpening * scale;
     og_to := ro_to resolvedOpening;
     og_direction := side |}.

Definition calculateWallGeometry (room : Room) (side : WallSide)
    (defaults : option Defaults) (scale : Q) : WallGeometry :=
  let wall := wallAt (room_walls room) side in
  let resolved := resolveWall wall defaults in
  let x := pos_x (room_position room) in
  let y := pos_y (room_position room) in
  let '(x1, y1, x2, y2) :=
    match side with
    | north => (x * scale, y * scale, (x + roomWidth room) * scale, y * scale)
    | south => (x * scale, (y + roomHeight room) * scale,
                (x + roomWidth room) * scale, (y + roomHeight room) * scale)
    | east => ((x + roomWidth room) * scale, y * scale,
               (x + roomWidth room) * scale, (y + roomHeight room) * scale)
    | west => (x * scale, y * scale, x * scale, (y + roomHeight room) * scale)
    end in
  {| wg_x1 := x1;
     wg_y1 := y1;
     wg_x2 := x2;
     wg_y2 := y2;
     wg_length := rw_length resolved * scale;
     wg_thickness := rw_thickness resolved * scale;
     wg_exists := rw_exists resolved;
     wg_openings := map (openingGeometry room side defaults scale) (rw_openings resolved) |}.

(** [walls[side]] on a [Record<WallSide, WallGeometry>] *)
Definition wallGeometryAt (ws : WallsGeometry) (side : WallSide) : WallGeometry :=
  match side with
  | north => g_north ws
  | east => g_east ws
  | south => g_south ws
  | west => g_west ws
  end.

Definition calculateRoomGeometry (room : Room) (defaults : option Defaults)
    (scale : Q) : RoomGeometry :=
  {| rg_id := room_id room;
     rg_name := JS.orElse (room_name room) (room_id room);
     rg_x := pos_x (room_position room) * scale;
     rg_y := pos_y (room_position room) * scale;
     rg_width := roomWidth room * scale;
     rg_height := roomHeight room * scale;
     rg_walls :=
       {| g_north := calculateWallGeometry room north defaults scale;
          g_east := calculateWallGeometry room east defaults scale;
          g_south := calculateWallGeometry room south defaults scale;
          g_west := calculateWallGeometry room west defaults scale |} |}.

Definition calculateFloorGeometry (floorPlan : FloorPlan) : FloorGeometry :=
  let scale := JS.orElse (fp_scale floorPlan) (2 # 10) in
  let rooms :=
    map (fun room => calculateRoomGeometry room (fp_defaults floorPlan) scale)
        (floor_rooms (fp_floor floorPlan)) in
  let '(maxX, maxY) :=
    fold_left (fun '(maxX, maxY) room =>
                 (Qmax maxX (rg_x room + rg_width room),
                  Qmax maxY (rg_y room + rg_height room)))
              rooms (0, 0) in
  {| fg_width := maxX; fg_height := maxY; fg_rooms := rooms |}.

(** [wallsOverlap] of the geometry module (exact coincidence, no tolerance) *)
Definition wallsOverlap (w1 w2 : WallGeometry) : bool :=
  if (Qeq_bool (wg_y1 w1) (wg_y2 w1) && Qeq_bool (wg_y1 w2) (wg_y2 w2)
      && Qeq_bool (wg_y1 w1) (wg_y1 w2))%bool then
    let minX1 := Qmin (wg_x1 w1) (wg_x2 w1) in
    let maxX1 := Qmax (wg_x1 w1) (wg_x2 w1) in
    let minX2 := Qmin (wg_x1 w2) (wg_x2 w2) in
    let maxX2 := Qmax (wg_x1 w2) (wg_x2 w2) in
    (JS.gtb maxX1 minX2 && JS.gtb maxX2 minX1)%bool
  else if (Qeq_bool (wg_x1 w1) (wg_x2 w1) && Qeq_bool (wg_x1 w2) (wg_x2 w2)
           && Qeq_bool (wg_x1 w1) (wg_x1 w2))%bool then
    let minY1 := Qmin (wg_y1 w1) (wg_y2 w1) in
    let maxY1 := Qmax (wg_y1 w1) (wg_y2 w1) in
    let minY2 := Qmin (wg_y1 w2) (wg_y2 w2) in
    let maxY2 := Qmax (wg_y1 w2) (wg_y2 w2) in
    (JS.gtb maxY1 minY2 && JS.gtb maxY2 minY1)%bool
  else false.

End Geometry.

(* ------------------------------------------------------------------ *)
(** ** Shared walls on binary64 numbers ([utils/floor-plan.utils.ts]) *)

Module Geometry64.

Import Binary64.

Record OpeningGeometry := mkOpeningGeometry {
  og_type : OpeningType;
  og_x : double;
  og_y : double;
  og_width : double;
  og_height : double;
  og_fromFloor : double;
  og_to : option string;
  og_direction : WallSide
}.

Record WallGeometry := mkWallGeometry {
  wg_x1 : double;
  wg_y1 : double;
  wg_x2 : double;
  wg_y2 : double;
  wg_length : double;
  wg_thickness : double;
  wg_exists : bool;
  wg_openings : list OpeningGeometry
}.

Definition wallsOverlap (w1 w2 : WallGeometry) : bool :=
  if (eqb (wg_y1 w1) (wg_y2 w1) && eqb (wg_y1 w2) (wg_y2 w2)
      && eqb (wg_y1 w1) (wg_y1 w2))%bool then
    let minX1 := min (wg_x1 w1) (wg_x2 w1) in
    let maxX1 := max (wg_x1 w1) (wg_x2 w1) in
    let minX2 := min (wg_x1 w2) (wg_x2 w2) in
    let maxX2 := max (wg_x1 w2) (wg_x2 w2) in
    (gtb maxX1 minX2 && gtb maxX2 minX1)%bool
  else if (eqb (wg_x1 w1) (wg_x2 w1) && eqb (wg_x1 w2) (wg_x2 w2)
           && eqb (wg_x1 w1) (wg_x1 w2))%bool then
    let minY1 := min (wg_y1 w1) (wg_y2 w1) in
    let maxY1 := max (wg_y1 w1) (wg_y2 w1) in
    let minY2 := min (wg_y1 w2) (wg_y2 w2) in
    let maxY2 := max (wg_y1 w2) (wg_y2 w2) in
    (gtb maxY1 minY2 && gtb maxY2 minY1)%bool
  else false.

End Geometry64.

(* ------------------------------------------------------------------ *)
(** ** Validation engine ([utils/validation.ts]) *)

Module Validation.

Inductive ValidationSeverity := error | warning.

Inductive IssueType := overlap | duplicate_wall | invalid_dimension.

Record Rect := mkRect {
  rect_x : Q;
  rect_y : Q;
  rect_width : Q;
  rect_height : Q
}.

Record WallPosition := mkWallPosition {
  wp_x1 : Q;
  wp_y1 : Q;
  wp_x2 : Q;
  wp_y2 : Q
}.

Record Details := mkDetails {
  wallSide : option WallSide;
  overlapArea : option Rect;
  wallPosition : option WallPosition
}.

Record ValidationIssue := mkIssue {
  issue_id : string;
  severity : ValidationSeverity;
  issue_type : IssueType;
  message : string;
  roomIds : list string;
  details : option Details
}.

Record RoomBounds := mkRoomBounds {
  rb_id : string;
  rb_name : string;
  rb_x : Q;
  rb_y : Q;
  rb_width : Q;
  rb_height : Q
}.

Record WallSegment := mkWallSegment {
  ws_roomId : string;
  ws_roomName : string;
  ws_side : WallSide;
  ws_x1 : Q;
  ws_y1 : Q;
  ws_x2 : Q;
  ws_y2 : Q;
  ws_exists : bool
}.

Definition getRoomBounds (room : Room) : RoomBounds :=
  let width := roomWidth room in
  let height := roomHeight room in
  {| rb_id := room_id room;
     rb_name := JS.orElse (room_name room) (room_id room);
     rb_x := pos_x (room_position room);
     rb_y := pos_y (room_position room);
     rb_width := width;
     rb_height := height |}.

Definition rectanglesOverlap (r1 r2 : RoomBounds) : option Rect :=
  let x1 := Qmax (rb_x r1) (rb_x r2) in
  let y1 := Qmax (rb_y r1) (rb_y r2) in
  let x2 := Qmin (rb_x r1 + rb_width r1) (rb_x r2 + rb_width r2) in
  let y2 := Qmin (rb_y r1 + rb_height r1) (rb_y r2 + rb_height r2) in
  let threshold := 1 in
  if (JS.gtb (x2 - x1) threshold && JS.gtb (y2 - y1) threshold)%bool
  then Some {| rect_x := x1; rect_y := y1;
               rect_width := x2 - x1; rect_height := y2 - y1 |}
  else None.

Definition getWallSegment (room : Room) (side : WallSide) : WallSegment :=
  let bounds := getRoomBounds room in
  let wall := wallAt (room_walls room) side in
  let exists_ := JS.notFalse (wall_exists wall) in
  let '(x1, y1, x2, y2) :=
    match side with
    | north => (rb_x bounds, rb_y bounds,
                rb_x bounds + rb_width bounds, rb_y bounds)
    | south => (rb_x bounds, rb_y bounds + rb_height bounds,
                rb_x bounds + rb_width bounds, rb_y bounds + rb_height bounds)
    | east => (rb_x bounds + rb_width bounds, rb_y bounds,
               rb_x bounds + rb_width bounds, rb_y bounds + rb_height bounds)
    | west => (rb_x bounds, rb_y bounds,
               rb_x bounds, rb_y bounds + rb_height bounds)
    end in
  {| ws_roomId := room_id room;
     ws_roomName := JS.orElse (room_name room) (room_id room);
     ws_side := side;
     ws_x1 := x1;
     ws_y1 := y1;
     ws_x2 := x2;
     ws_y2 := y2;
     ws_exists := exists_ |}.

Definition wallsOverlap (w1 w2 : WallSegment) : bool :=
  let w1Horizontal := Qeq_bool (ws_y1 w1) (ws_y2 w1) in
  let w2Horizontal := Qeq_bool (ws_y1 w2) (ws_y2 w2) in
  if negb (Bool.eqb w1Horizontal w2Horizontal) then false
  else
    let tolerance := 1 in
    if w1Horizontal then
      if JS.gtb (JS.abs (ws_y1 w1 - ws_y1 w2)) tolerance then false
      else
        let minX1 := Qmin (ws_x1 w1) (ws_x2 w1) in
        let maxX1 := Qmax (ws_x1 w1) (ws_x2 w1) in
        let minX2 := Qmin (ws_x1 w2) (ws_x2 w2) in
        let maxX2 := Qmax (ws_x1 w2) (ws_x2 w2) in
        let overlapStart := Qmax minX1 minX2 in
        let overlapEnd := Qmin maxX1 maxX2 in
        JS.gtb (overlapEnd - overlapStart) tolerance
    else
      if JS.gtb (JS.abs (ws_x1 w1 - ws_x1 w2)) tolerance then false
      else
        let minY1 := Qmin (ws_y1 w1) (ws_y2 w1) in
        let maxY1 := Qmax (ws_y1 w1) (ws_y2 w1) in
        let minY2 := Qmin (ws_y1 w2) (ws_y2 w2) in
        let maxY2 := Qmax (ws_y1 w2) (ws_y2 w2) in
        let overlapStart := Qmax minY1 minY2 in
        let overlapEnd := Qmin maxY1 maxY2 in
        JS.gtb (overlapEnd - overlapStart) tolerance.

(** The issue pushed by [detectOverlaps] for [bounds[i]], [bounds[j]] *)
Definition overlapIssue (bi bj : RoomBounds) (o : Rect) : ValidationIssue :=
  {| issue_id := "overlap-" ++ rb_id bi ++ "-" ++ rb_id bj;
     severity := error;
     issue_type := overlap;
     message := JS.dq ++ rb_name bi ++ JS.dq ++ " sobrepõe "
                  ++ JS.dq ++ rb_name bj ++ JS.dq;
     roomIds := [rb_id bi; rb_id bj];
     details := Some {| wallSide := None;
                        overlapArea := Some o;
                        wallPosition := None |} |}%string.

(** Body of the inner loop of [detectOverlaps] *)
Definition overlapStep (bi bj : RoomBounds) : list ValidationIssue :=
  match rectanglesOverlap bi bj with
  | Some o => [overlapIssue bi bj o]
  | None => []
  end.

Definition detectOverlaps (rooms : list Room) : list ValidationIssue :=
  let bounds := map getRoomBounds rooms in
  JS.forPairs overlapStep bounds.

Definition sides : list WallSide := [north; east; south; west].

(** The issue pushed by [detectDuplicateWalls] for [walls[i]], [walls[j]] *)
Definition duplicateWallIssue (w1 w2 : WallSegment) : ValidationIssue :=
  {| issue_id := "duplicate-wall-" ++ ws_roomId w1 ++ "-" ++ sideName (ws_side w1)
                   ++ "-" ++ ws_roomId w2 ++ "-" ++ sideName (ws_side w2);
     severity := warning;
     issue_type := duplicate_wall;
     message := "Parede dupla: " ++ JS.dq ++ ws_roomName w1 ++ JS.dq
                  ++ " (" ++ sideName (ws_side w1) ++ ") e "
                  ++ JS.dq ++ ws_roomName w2 ++ JS.dq
                  ++ " (" ++ sideName (ws_side w2) ++ ")";
     roomIds := [ws_roomId w1; ws_roomId w2];
     details := Some {| wallSide := Some (ws_side w1);
                        overlapArea := None;
                        wallPosition :=
                          Some {| wp_x1 := ws_x1 w1; wp_y1 := ws_y1 w1;
                                  wp_x2 := ws_x2 w1; wp_y2 := ws_y2 w1 |} |} |}%string.

(** Body of the inner loop of [detectDuplicateWalls] *)
Definition duplicateStep (w1 w2 : WallSegment) : list ValidationIssue :=
  if String.eqb (ws_roomId w1) (ws_roomId w2) then []
  else if (negb (ws_exists w1) || negb (ws_exists w2))%bool then []
  else if wallsOverlap w1 w2 then [duplicateWallIssue w1 w2]
  else [].

(** [for (const room of rooms) for (const side of sides) walls.push(...)] *)
Definition collectWalls (rooms : list Room) : list WallSegment :=
  flat_map (fun room => map (getWallSegment room) sides) rooms.

Definition detectDuplicateWalls (rooms : list Room) : list ValidationIssue :=
  JS.forPairs duplicateStep (collectWalls rooms).

Definition invalidDimensionIssue (room : Room) : ValidationIssue :=
  {| issue_id := "invalid-dimension-" ++ room_id room;
     severity := error;
     issue_type := invalid_dimension;
     message := JS.dq ++ rb_name (getRoomBounds room) ++ JS.dq
                  ++ " tem dimensões inválidas";
     roomIds := [room_id room];
     details := None |}%string.

Definition detectInvalidDimensions (rooms : list Room) : list ValidationIssue :=
  flat_map (fun room =>
              let bounds := getRoomBounds room in
              if (JS.leb (rb_width bounds) 0 || JS.leb (rb_height bounds) 0)%bool
              then [invalidDimensionIssue room]
              else [])
           rooms.

Definition validateFloorPlan (floorPlan : FloorPlan) : list ValidationIssue :=
  let rooms := floor_rooms (fp_floor floorPlan) in
  match rooms with
  | [] => []
  | _ => detectInvalidDimensions rooms ++ detectOverlaps rooms
           ++ detectDuplicateWalls rooms
  end.

Definition getOverlapAreas (issues : list ValidationIssue) : list Rect :=
  flat_map (fun issue =>
              match issue_type issue, JS.optChain (details issue) overlapArea with
              | overlap, Some a => [a]
              | _, _ => []
              end) issues.

Definition getDuplicateWalls (issues : list ValidationIssue) : list WallPosition :=
  flat_map (fun issue =>
              match issue_type issue, JS.optChain (details issue) wallPosition with
              | duplicate_wall, Some p => [p]
              | _, _ => []
              end) issues.

(** [ids.add(id)] on a [Set<string>], kept in insertion order *)
Definition setAdd (ids : list string) (id : string) : list string :=
  if existsb (String.eqb id) ids then ids else ids ++ [id].

Definition getRoomsWithErrors (issues : list ValidationIssue) : list string :=
  fold_left (fun ids issue =>
               match severity issue with
               | error => fold_left setAdd (roomIds issue) ids
               | warning => ids
               end)
            issues [].

End Validation.

(* ------------------------------------------------------------------ *)
(** ** Validation engine on binary64 numbers ([utils/validation.ts]) *)

Module Validation64.

Import Binary64.
Local Open Scope double_scope.

Record Rect := mkRect {
  rect_x : double;
  rect_y : double;
  rect_width : double;
  rect_height : double
}.

Record WallPosition := mkWallPosition {
  wp_x1 : double;
  wp_y1 : double;
  wp_x2 : double;
  wp_y2 : double
}.

Record Details := mkDetails {
  wallSide : option WallSide;
  overlapArea : option Rect;
  wallPosition : option WallPosition
}.

Record ValidationIssue := mkIssue {
  issue_id : string;
  severity : Validation.ValidationSeverity;
  issue_type : Validation.IssueType;
  message : string;
  roomIds : list string;
  details : option Details
}.

Record RoomBounds := mkRoomBounds {
  rb_id : string;
  rb_name : string;
  rb_x : double;
  rb_y : double;
  rb_width : double;
  rb_height : double
}.

Record WallSegment := mkWallSegment {
  ws_roomId : string;
  ws_roomName : string;
  ws_side : WallSide;
  ws_x1 : double;
  ws_y1 : double;
  ws_x2 : double;
  ws_y2 : double;
  ws_exists : bool
}.

Definition getRoomBounds (room : Room) : RoomBounds :=
  let width := max (JS.orElse (optNum (wall_length (w_north (room_walls room)))) zero)
                   (JS.orElse (optNum (wall_length (w_south (room_walls room)))) zero) in
  let height := max (JS.orElse (optNum (wall_length (w_east (room_walls room)))) zero)
                    (JS.orElse (optNum (wall_length (w_west (room_walls room)))) zero) in
  {| rb_id := room_id room;
     rb_name := JS.orElse (room_name room) (room_id room);
     rb_x := num (pos_x (room_position room));
     rb_y := num (pos_y (room_position room));
     rb_width := width;
     rb_height := height |}.

Definition rectanglesOverlap (r1 r2 : RoomBounds) : option Rect :=
  let x1 := max (rb_x r1) (rb_x r2) in
  let y1 := max (rb_y r1) (rb_y r2) in
  let x2 := min (rb_x r1 + rb_width r1) (rb_x r2 + rb_width r2) in
  let y2 := min (rb_y r1 + rb_height r1) (rb_y r2 + rb_height r2) in
  let threshold := one in
  if (gtb (x2 - x1) threshold && gtb (y2 - y1) threshold)%bool
  then Some {| rect_x := x1; rect_y := y1;
               rect_width := x2 - x1; rect_height := y2 - y1 |}
  else None.

Definition getWallSegment (room : Room) (side : WallSide) : WallSegment :=
  let bounds := getRoomBounds room in
  let wall := wallAt (room_walls room) side in
  let exists_ := JS.notFalse (wall_exists wall) in
  let '(x1, y1, x2, y2) :=
    match side with
    | north => (rb_x bounds, rb_y bounds,
                rb_x bounds + rb_width bounds, rb_y bounds)
    | south => (rb_x bounds, rb_y bounds + rb_height bounds,
                rb_x bounds + rb_width bounds, rb_y bounds + rb_height bounds)
    | east => (rb_x bounds + rb_width bounds, rb_y bounds,
               rb_x bounds + rb_width bounds, rb_y bounds + rb_height bounds)
    | west => (rb_x bounds, rb_y bounds,
               rb_x bounds, rb_y bounds + rb_height bounds)
    end in
  {| ws_roomId := room_id room;
     ws_roomName := JS.orElse (room_name room) (room_id room);
     ws_side := side;
     ws_x1 := x1;
     ws_y1 := y1;
     ws_x2 := x2;
     ws_y2 := y2;
     ws_exists := exists_ |}.

Definition wallsOverlap (w1 w2 : WallSegment) : bool :=
  let w1Horizontal := eqb (ws_y1 w1) (ws_y2 w1) in
  let w2Horizontal := eqb (ws_y1 w2) (ws_y2 w2) in
  if negb (Bool.eqb w1Horizontal w2Horizontal) then false
  else
    let tolerance := one in
    if w1Horizontal then
      if gtb (abs (ws_y1 w1 - ws_y1 w2)) tolerance then false
      else
        let minX1 := min (ws_x1 w1) (ws_x2 w1) in
        let maxX1 := max (ws_x1 w1) (ws_x2 w1) in
        let minX2 := min (ws_x1 w2) (ws_x2 w2) in
        let maxX2 := max (ws_x1 w2) (ws_x2 w2) in
        let overlapStart := max minX1 minX2 in
        let overlapEnd := min maxX1 maxX2 in
        gtb (overlapEnd - overlapStart) tolerance
    else
      if gtb (abs (ws_x1 w1 - ws_x1 w2)) tolerance then false
      else
        let minY1 := min (ws_y1 w1) (ws_y2 w1) in
        let maxY1 := max (ws_y1 w1) (ws_y2 w1) in
        let minY2 := min (ws_y1 w2) (ws_y2 w2) in
        let maxY2 := max (ws_y1 w2) (ws_y2 w2) in
        let overlapStart := max minY1 minY2 in
        let overlapEnd := min maxY1 maxY2 in
        gtb (overlapEnd - overlapStart) tolerance.

Definition overlapIssue (bi bj : RoomBounds) (o : Rect) : ValidationIssue :=
  {| issue_id := "overlap-" ++ rb_id bi ++ "-" ++ rb_id bj;
     severity := Validation.error;
     issue_type := Validation.overlap;
     message := JS.dq ++ rb_name bi ++ JS.dq ++ " sobrepõe "
                  ++ JS.dq ++ rb_name bj ++ JS.dq;
     roomIds := [rb_id bi; rb_id bj];
     details := Some {| wallSide := None;
                        overlapArea := Some o;
                        wallPosition := None |} |}%string.

Definition overlapStep (bi bj : RoomBounds) : list ValidationIssue :=
  match rectanglesOverlap bi bj with
  | Some o => [overlapIssue bi bj o]
  | None => []
  end.

Definition detectOverlaps (rooms : list Room) : list ValidationIssue :=
  let bounds := map getRoomBounds rooms in
  JS.forPairs overlapStep bounds.

Definition duplicateWallIssue (w1 w2 : WallSegment) : ValidationIssue :=
  {| issue_id := "duplicate-wall-" ++ ws_roomId w1 ++ "-" ++ sideName (ws_side w1)
                   ++ "-" ++ ws_roomId w2 ++ "-" ++ sideName (ws_side w2);
     severity := Validation.warning;
     issue_type := Validation.duplicate_wall;
     message := "Parede dupla: " ++ JS.dq ++ ws_roomName w1 ++ JS.dq
                  ++ " (" ++ sideName (ws_side w1) ++ ") e "
                  ++ JS.dq ++ ws_roomName w2 ++ JS.dq
                  ++ " (" ++ sideName (ws_side w2) ++ ")";
     roomIds := [ws_roomId w1; ws_roomId w2];
     details := Some {| wallSide := Some (ws_side w1);
                        overlapArea := None;
                        wallPosition :=
                          Some {| wp_x1 := ws_x1 w1; wp_y1 := ws_y1 w1;
                                  wp_x2 := ws_x2 w1; wp_y2 := ws_y2 w1 |} |} |}%string.

Definition duplicateStep (w1 w2 : WallSegment) : list ValidationIssue :=
  if String.eqb (ws_roomId w1) (ws_roomId w2) then []
  else if (negb (ws_exists w1) || negb (ws_exists w2))%bool then []
  else if wallsOverlap w1 w2 then [duplicateWallIssue w1 w2]
  else [].

Definition collectWalls (rooms : list Room) : list WallSegment :=
  flat_map (fun room => map (getWallSegment room) Validation.sides) rooms.

Definition detectDuplicateWalls (rooms : list Room) : list ValidationIssue :=
  JS.forPairs duplicateStep (collectWalls rooms).

Definition invalidDimensionIssue (room : Room) : ValidationIssue :=
  {| issue_id := "invalid-dimension-" ++ room_id room;
     severity := Validation.error;
     issue_type := Validation.invalid_dimension;
     message := JS.dq ++ rb_name (getRoomBounds room) ++ JS.dq
                  ++ " tem dimensões inválidas";
     roomIds := [room_id room];
     details := None |}%string.

Definition detectInvalidDimensions (rooms : list Room) : list ValidationIssue :=
  flat_map (fun room =>
              let bounds := getRoomBounds room in
              if (leb (rb_width bounds) zero || leb (rb_height bounds) zero)%bool
              then [invalidDimensionIssue room]
              else [])
           rooms.

Definition validateFloorPlan (floorPlan : FloorPlan) : list ValidationIssue :=
  let rooms := floor_rooms (fp_floor floorPlan) in
  match rooms with
  | [] => []
  | _ => detectInvalidDimensions rooms ++ detectOverlaps rooms
           ++ detectDuplicateWalls rooms
  end.

Definition getOverlapAreas (issues : list ValidationIssue) : list Rect :=
  flat_map (fun issue =>
              match issue_type issue, JS.optChain (details issue) overlapArea with
              | Validation.overlap, Some a => [a]
              | _, _ => []
              end) issues.

Definition getRoomsWithErrors (issues : list ValidationIssue) : list string :=
  fold_left (fun ids issue =>
               match severity issue with
               | Validation.error => fold_left Validation.setAdd (roomIds issue) ids
               | Validation.warning => ids
               end)
            issues [].

End Validation64.

(* ------------------------------------------------------------------ *)
(** ** Estimate configuration ([types/estimate-config.ts]) *)

Record BrickConfig := mkBrickConfig {
  brick_width : Q;
  brick_height : Q;
  brick_length : Q;
  mortarThickness : Q;
  brick_wasteFactor : Q
}.

Record PaintConfig := mkPaintConfig {
  coverage : Q;
  primerCoverage : Q;
  puttyCoverage : Q;
  coats : Q;
  primerCoats : Q;
  puttyPercentage : Q
}.

Record FlooringConfig := mkFlooringConfig {
  flooring_wasteFactor : Q;
  groutPerM2 : Q;
  adhesivePerM2 : Q
}.

Record RoomElectricalConfig := mkRoomElectricalConfig {
  re_outlets : Q;
  re_switches : Q;
  re_lights : Q
}.

Record ElectricalByRoomType := mkElectricalByRoomType {
  e_sala : RoomElectricalConfig;
  e_cozinha : RoomElectricalConfig;
  e_banheiro : RoomElectricalConfig;
  e_quarto : RoomElectricalConfig;
  e_area_servico : RoomElectricalConfig;
  e_default : RoomElectricalConfig
}.

Record ElectricalConfig := mkElectricalConfig {
  wirePerPoint : Q;
  electrical_byRoomType : ElectricalByRoomType
}.

Record RoomPlumbingConfig := mkRoomPlumbingConfig {
  rp_coldWater : Q;
  rp_hotWater : Q;
  rp_drains : Q
}.

Record PlumbingByRoomType := mkPlumbingByRoomType {
  p_cozinha : RoomPlumbingConfig;
  p_banheiro : RoomPlumbingConfig;
  p_area_servico : RoomPlumbingConfig
}.

Record PlumbingConfig := mkPlumbingConfig {
  pipePerPoint : Q;
  plumbing_byRoomType : PlumbingByRoomType
}.

Record PricesConfig := mkPricesConfig {
  price_brick : Q;
  price_mortar_m3 : Q;
  price_paint_18l : Q;
  price_primer_18l : Q;
  price_putty_25kg : Q;
  price_tile_m2 : Q;
  price_grout_kg : Q;
  price_tile_adhesive_kg : Q;
  price_outlet : Q;
  price_switch : Q;
  price_light_point : Q;
  price_water_point : Q;
  price_drain_point : Q;
  price_wire_m : Q;
  price_pipe_m : Q
}.

Record EstimateConfig := mkEstimateConfig {
  cfg_brick : BrickConfig;
  cfg_paint : PaintConfig;
  cfg_flooring : FlooringConfig;
  cfg_electrical : ElectricalConfig;
  cfg_plumbing : PlumbingConfig;
  cfg_prices : PricesConfig
}.

Definition DEFAULT_ESTIMATE_CONFIG : EstimateConfig :=
  {| cfg_brick :=
       {| brick_width := 14; brick_height := 19; brick_length := 9;
          mortarThickness := 1; brick_wasteFactor := 105 # 100 |};
     cfg_paint :=
       {| coverage := 10; primerCoverage := 12; puttyCoverage := 3;
          coats := 2; primerCoats := 1; puttyPercentage := 70 |};
     cfg_flooring :=
       {| flooring_wasteFactor := 110 # 100; groutPerM2 := 5 # 10;
          adhesivePerM2 := 5 |};
     cfg_electrical :=
       {| wirePerPoint := 8;
          electrical_byRoomType :=
            {| e_sala := mkRoomElectricalConfig 6 2 2;
               e_cozinha := mkRoomElectricalConfig 8 2 2;
               e_banheiro := mkRoomElectricalConfig 2 1 2;
               e_quarto := mkRoomElectricalConfig 4 2 1;
               e_area_servico := mkRoomElectricalConfig 3 1 1;
               e_default := mkRoomElectricalConfig 3 1 1 |} |};
     cfg_plumbing :=
       {| pipePerPoint := 3;
          plumbing_byRoomType :=
            {| p_cozinha := mkRoomPlumbingConfig 2 1 2;
               p_banheiro := mkRoomPlumbingConfig 3 2 3;
               p_area_servico := mkRoomPlumbingConfig 2 1 2 |} |};
     cfg_prices :=
       {| price_brick := 85 # 100; price_mortar_m3 := 350;
          price_paint_18l := 280; price_primer_18l := 150;
          price_putty_25kg := 45; price_tile_m2 := 45; price_grout_kg := 8;
          price_tile_adhesive_kg := 12 # 10; price_outlet := 25;
          price_switch := 20; price_light_point := 80;
          price_water_point := 120; price_drain_point := 100;
          price_wire_m := 35 # 10; price_pipe_m := 12 |} |}.

(** [config.electrical.byRoomType[roomType]] *)
Definition electricalFor (t : ElectricalByRoomType) (roomType : string)
    : option RoomElectricalConfig :=
  (if roomType =? "sala" then Some (e_sala t)
   else if roomType =? "cozinha" then Some (e_cozinha t)
   else if roomType =? "banheiro" then Some (e_banheiro t)
   else if roomType =? "quarto" then Some (e_quarto t)
   else if roomType =? "area-servico" then Some (e_area_servico t)
   else if roomType =? "default" then Some (e_default t)
   else None)%string.

(** [config.plumbing.byRoomType[roomType]] *)
Definition plumbingFor (t : PlumbingByRoomType) (roomType : string)
    : option RoomPlumbingConfig :=
  (if roomType =? "cozinha" then Some (p_cozinha t)
   else if roomType =? "banheiro" then Some (p_banheiro t)
   else if roomType =? "area-servico" then Some (p_area_servico t)
   else None)%string.

(* ------------------------------------------------------------------ *)
(** ** Statistics and estimation engine ([utils/statistics.ts]) *)

Module Statistics.

Record WallStats := mkWallStats {
  wst_side : WallSide;
  wst_length : Q;
  wst_height : Q;
  wst_thickness : Q;
  wst_area : Q;
  wst_areaWithoutOpenings : Q;
  wst_openingsArea : Q;
  wst_brickCount : Q;
  wst_exists : bool
}.

Record RoomStats := mkRoomStats {
  rs_id : string;
  rs_name : string;
  rs_type : string;
  rs_floorArea : Q;
  rs_perimeter : Q;
  rs_wallsArea : Q;
  rs_wallsAreaWithoutOpenings : Q;
  rs_volume : Q;
  rs_walls : list WallStats;
  rs_brickCount : Q
}.

Record MeasurementsStats := mkMeasurementsStats {
  totalFloorArea : Q;
  totalWallsArea : Q;
  totalWallsAreaWithoutOpenings : Q;
  totalVolume : Q;
  totalPerimeter : Q;
  roomCount : nat;
  ms_rooms : list RoomStats
}.

Record MasonryMaterials := mkMasonryMaterials {
  bricks : Q;
  mortar : Q
}.

Record PaintMaterials := mkPaintMaterials {
  paint : Q;
  primer : Q;
  putty : Q;
  ceilingPaint : Q;
  paintableWallArea : Q;
  ceilingArea : Q
}.

Record FlooringMaterials := mkFlooringMaterials {
  tiles : Q;
  grout : Q;
  adhesive : Q;
  netArea : Q
}.

Record ElectricalByRoom := mkElectricalByRoom {
  er_roomName : string;
  er_outlets : Q;
  er_switches : Q;
  er_lights : Q
}.

Record ElectricalMaterials := mkElectricalMaterials {
  outlets : Q;
  switches : Q;
  lightPoints : Q;
  wireEstimate : Q;
  electrical_byRoom : list ElectricalByRoom
}.

Record PlumbingByRoom := mkPlumbingByRoom {
  pr_roomName : string;
  pr_coldWater : Q;
  pr_hotWater : Q;
  pr_drains : Q
}.

Record PlumbingMaterials := mkPlumbingMaterials {
  coldWaterPoints : Q;
  hotWaterPoints : Q;
  drainPoints : Q;
  pipeEstimate : Q;
  plumbing_byRoom : list PlumbingByRoom
}.

Record MaterialsEstimate := mkMaterialsEstimate {
  mat_masonry : MasonryMaterials;
  mat_paint : PaintMaterials;
  mat_flooring : FlooringMaterials;
  mat_electrical : ElectricalMaterials;
  mat_plumbing : PlumbingMaterials
}.

Record BudgetItem := mkBudgetItem {
  category : string;
  item : string;
  quantity : Q;
  unit : string;
  unitPrice : Q;
  item_total : Q
}.

Record Subtotals := mkSubtotals {
  sub_masonry : Q;
  sub_paint : Q;
  sub_flooring : Q;
  sub_electrical : Q;
  sub_plumbing : Q
}.

Record BudgetEstimate := mkBudgetEstimate {
  items : list BudgetItem;
  subtotals : Subtotals;
  total : Q;
  perM2 : Q
}.

Record FloorPlanStats := mkFloorPlanStats {
  measurements : MeasurementsStats;
  materials : MaterialsEstimate;
  budget : BudgetEstimate
}.

Record Size := mkSize { size_width : Q; size_height : Q }.

Record WallSizeDefaults := mkWallSizeDefaults { wsd_height : Q; wsd_thickness : Q }.

Definition getWallDefaults (defaults : option Defaults) : WallSizeDefaults :=
  {| wsd_height := JS.orElse (defWallHeight defaults) 280;
     wsd_thickness := JS.orElse (defWallThickness defaults) 15 |}.

Definition getOpeningDefaults (type : OpeningType) (defaults : option Defaults) : Size :=
  match type with
  | door => {| size_width := JS.orElse (defDoorWidth defaults) 80;
               size_height := JS.orElse (defDoorHeight defaults) 210 |}
  | window => {| size_width := JS.orElse (defWindowWidth defaults) 120;
                 size_height := JS.orElse (defWindowHeight defaults) 120 |}
  end.

(** Area of one opening, as added by the reducer of [calculateOpeningsArea] *)
Definition openingArea (defaults : option Defaults) (opening : Opening) : Q :=
  let openingDefaults := getOpeningDefaults (op_type opening) defaults in
  let width := JS.orElse (op_width opening) (size_width openingDefaults) in
  let height := JS.orElse (op_height opening) (size_height openingDefaults) in
  width * height.

Definition calculateOpeningsArea (wall : Wall) (defaults : option Defaults) : Q :=
  match wall_openings wall with
  | None => 0
  | Some [] => 0
  | Some ops => fold_left (fun total opening => total + openingArea defaults opening) ops 0
  end.

Definition calculateBrickCount (areaCm2 : Q) (config : EstimateConfig) : Q :=
  let bw_width := brick_width (cfg_brick config) + mortarThickness (cfg_brick config) in
  let bw_height := brick_height (cfg_brick config) + mortarThickness (cfg_brick config) in
  let brickArea := bw_width * bw_height in
  JS.ceil ((areaCm2 / brickArea) * brick_wasteFactor (cfg_brick config)).

Definition cm2ToM2 (cm2 : Q) : Q := cm2 / 10000.

Definition cmToM (cm : Q) : Q := cm / 100.

Definition getRoomType (room : Room) : string :=
  let id := JS.toLowerCase (room_id room) in
  let name := JS.toLowerCase (JS.orElse (room_name room) EmptyString) in
  (if (JS.includes id "sala" || JS.includes name "sala")%bool then "sala"
   else if (JS.includes id "cozinha" || JS.includes name "cozinha")%bool then "cozinha"
   else if (JS.includes id "banheiro" || JS.includes name "banheiro"
            || JS.includes name "wc")%bool then "banheiro"
   else if (JS.includes id "quarto" || JS.includes name "quarto"
            || JS.includes name "dormit")%bool then "quarto"
   else if (JS.includes id "servico" || JS.includes name "servico"
            || JS.includes name "lavanderia")%bool then "area-servico"
   else "default")%string.

Definition calculateWallStats (wall : Wall) (side : WallSide)
    (defaults : option Defaults) (config : EstimateConfig) : WallStats :=
  let wallDefaults := getWallDefaults defaults in
  let length := JS.orElse (wall_length wall) 0 in
  let height := JS.orElse (wall_height wall) (wsd_height wallDefaults) in
  let thickness := JS.orElse (wall_thickness wall) (wsd_thickness wallDefaults) in
  let exists_ := JS.notFalse (wall_exists wall) in
  let areaCm2 := length * height in
  let openingsAreaCm2 := calculateOpeningsArea wall defaults in
  let areaWithoutOpeningsCm2 := Qmax 0 (areaCm2 - openingsAreaCm2) in
  let brickCount :=
    if exists_ then calculateBrickCount areaWithoutOpeningsCm2 config else 0 in
  {| wst_side := side;
     wst_length := length;
     wst_height := height;
     wst_thickness := thickness;
     wst_area := cm2ToM2 areaCm2;
     wst_areaWithoutOpenings := cm2ToM2 areaWithoutOpeningsCm2;
     wst_openingsArea := cm2ToM2 openingsAreaCm2;
     wst_brickCount := brickCount;
     wst_exists := exists_ |}.

Definition sides : list WallSide := [north; east; south; west].

Definition calculateRoomStats (room : Room) (defaults : option Defaults)
    (config : EstimateConfig) : RoomStats :=
  let wallDefaults := getWallDefaults defaults in
  let width := roomWidth room in
  let height := roomHeight room in
  let wallHeight := wsd_height wallDefaults in
  let floorAreaCm2 := width * height in
  let floorArea := cm2ToM2 floorAreaCm2 in
  let perimeterCm :=
    fold_left (fun perimeterCm side =>
                 if JS.notFalse (wall_exists (wallAt (room_walls room) side))
                 then perimeterCm
                      + JS.orElse (wall_length (wallAt (room_walls room) side)) 0
                 else perimeterCm)
              sides 0 in
  let perimeter := cmToM perimeterCm in
  let walls :=
    map (fun side => calculateWallStats (wallAt (room_walls room) side) side
                                        defaults config) sides in
  let wallsArea := JS.sumBy wst_area (filter wst_exists walls) in
  let wallsAreaWithoutOpenings :=
    JS.sumBy wst_areaWithoutOpenings (filter wst_exists walls) in
  let volumeCm3 := floorAreaCm2 * wallHeight in
  let volume := volumeCm3 / 1000000 in
  let brickCount := JS.sumBy wst_brickCount walls in
  {| rs_id := room_id room;
     rs_name := JS.orElse (room_name room) (room_id room);
     rs_type := getRoomType room;
     rs_floorArea := floorArea;
     rs_perimeter := perimeter;
     rs_wallsArea := wallsArea;
     rs_wallsAreaWithoutOpenings := wallsAreaWithoutOpenings;
     rs_volume := volume;
     rs_walls := walls;
     rs_brickCount := brickCount |}.

Definition calculateMeasurements (rooms : list RoomStats) : MeasurementsStats :=
  {| totalFloorArea := JS.sumBy rs_floorArea rooms;
     totalWallsArea := JS.sumBy rs_wallsArea rooms;
     totalWallsAreaWithoutOpenings := JS.sumBy rs_wallsAreaWithoutOpenings rooms;
     totalVolume := JS.sumBy rs_volume rooms;
     totalPerimeter := JS.sumBy rs_perimeter rooms;
     roomCount := List.length rooms;
     ms_rooms := rooms |}.

Definition calculateMasonry (measurements : MeasurementsStats) : MasonryMaterials :=
  let bricks := JS.sumBy rs_brickCount (ms_rooms measurements) in
  let mortarPer1000 := 25 # 100 in
  let mortar := (bricks / 1000) * mortarPer1000 in
  {| bricks := bricks; mortar := mortar |}.

Definition calculatePaint (measurements : MeasurementsStats)
    (config : EstimateConfig) : PaintMaterials :=
  let paintableWallArea := totalWallsAreaWithoutOpenings measurements * (15 # 10) in
  let ceilingArea := totalFloorArea measurements in
  let totalPaintArea := paintableWallArea * coats (cfg_paint config) in
  let paint := JS.ceil (totalPaintArea / coverage (cfg_paint config)) in
  let primer := JS.ceil ((paintableWallArea * primerCoats (cfg_paint config))
                         / primerCoverage (cfg_paint config)) in
  let putty := JS.ceil ((paintableWallArea * (puttyPercentage (cfg_paint config) / 100))
                        / puttyCoverage (cfg_paint config)) in
  let ceilingPaint := JS.ceil ((ceilingArea * coats (cfg_paint config))
                               / coverage (cfg_paint config)) in
  {| paint := paint; primer := primer; putty := putty;
     ceilingPaint := ceilingPaint;
     paintableWallArea := paintableWallArea;
     ceilingArea := ceilingArea |}.

Definition calculateFlooring (measurements : MeasurementsStats)
    (config : EstimateConfig) : FlooringMaterials :=
  let netArea := totalFloorArea measurements in
  let tiles := netArea * flooring_wasteFactor (cfg_flooring config) in
  let grout := JS.ceil (netArea * groutPerM2 (cfg_flooring config)) in
  let adhesive := JS.ceil (netArea * adhesivePerM2 (cfg_flooring config)) in
  {| tiles := tiles; grout := grout; adhesive := adhesive; netArea := netArea |}.

Definition calculateElectrical (rooms : list RoomStats)
    (config : EstimateConfig) : ElectricalMaterials :=
  let byRoom :=
    map (fun room =>
           let estimate :=
             JS.orElse (electricalFor (electrical_byRoomType (cfg_electrical config))
                                      (rs_type room))
                       (e_default (electrical_byRoomType (cfg_electrical config))) in
           {| er_roomName := rs_name room;
              er_outlets := re_outlets estimate;
              er_switches := re_switches estimate;
              er_lights := re_lights estimate |})
        rooms in
  let outlets := JS.sumBy er_outlets byRoom in
  let switches := JS.sumBy er_switches byRoom in
  let lightPoints := JS.sumBy er_lights byRoom in
  let wireEstimate := (outlets + switches + lightPoints)
                      * wirePerPoint (cfg_electrical config) in
  {| outlets := outlets; switches := switches; lightPoints := lightPoints;
     wireEstimate := wireEstimate; electrical_byRoom := byRoom |}.

Definition calculatePlumbing (rooms : list RoomStats)
    (config : EstimateConfig) : PlumbingMaterials :=
  let byRoom :=
    flat_map (fun room =>
                match plumbingFor (plumbing_byRoomType (cfg_plumbing config))
                                  (rs_type room) with
                | None => []
                | Some estimate =>
                    [{| pr_roomName := rs_name room;
                        pr_coldWater := rp_coldWater estimate;
                        pr_hotWater := rp_hotWater estimate;
                        pr_drains := rp_drains estimate |}]
                end)
             rooms in
  let coldWaterPoints := JS.sumBy pr_coldWater byRoom in
  let hotWaterPoints := JS.sumBy pr_hotWater byRoom in
  let drainPoints := JS.sumBy pr_drains byRoom in
  let pipeEstimate := (coldWaterPoints + hotWaterPoints + drainPoints)
                      * pipePerPoint (cfg_plumbing config) in
  {| coldWaterPoints := coldWaterPoints; hotWaterPoints := hotWaterPoints;
     drainPoints := drainPoints; pipeEstimate := pipeEstimate;
     plumbing_byRoom := byRoom |}.

Local Open Scope string_scope.

Definition calculateBudget (materials : MaterialsEstimate) (totalArea : Q)
    (config : EstimateConfig) : BudgetEstimate :=
  let prices := cfg_prices config in
  let masonry := mat_masonry materials in
  let paintM := mat_paint materials in
  let flooring := mat_flooring materials in
  let electrical := mat_electrical materials in
  let plumbing := mat_plumbing materials in
  let paintCans := JS.ceil (paint paintM / 18) in
  let primerCans := JS.ceil (primer paintM / 18) in
  let puttySacks := JS.ceil (putty paintM / 25) in
  let ceilingCans := JS.ceil (ceilingPaint paintM / 18) in
  let totalWaterPoints := coldWaterPoints plumbing + hotWaterPoints plumbing in
  let items :=
    ([ mkBudgetItem "Alvenaria" "Tijolos cerâmicos 6 furos"
         (bricks masonry) "un" (price_brick prices)
         (bricks masonry * price_brick prices);
       mkBudgetItem "Alvenaria" "Argamassa de assentamento"
         (JS.ceil (mortar masonry * 10) / 10) "m³" (price_mortar_m3 prices)
         (mortar masonry * price_mortar_m3 prices);
       mkBudgetItem "Pintura" "Tinta látex (paredes) 18L"
         paintCans "lata" (price_paint_18l prices)
         (paintCans * price_paint_18l prices);
       mkBudgetItem "Pintura" "Selador/Fundo 18L"
         primerCans "lata" (price_primer_18l prices)
         (primerCans * price_primer_18l prices);
       mkBudgetItem "Pintura" "Massa corrida 25kg"
         puttySacks "saco" (price_putty_25kg prices)
         (puttySacks * price_putty_25kg prices);
       mkBudgetItem "Pintura" "Tinta látex (teto) 18L"
         ceilingCans "lata" (price_paint_18l prices)
         (ceilingCans * price_paint_18l prices);
       mkBudgetItem "Piso"
         ("Piso cerâmico (c/ "
            ++ JS.showInt (JS.roundZ ((flooring_wasteFactor (cfg_flooring config) - 1) * 100))
            ++ "% perda)")%string
         (JS.ceil (tiles flooring * 10) / 10) "m²" (price_tile_m2 prices)
         (tiles flooring * price_tile_m2 prices);
       mkBudgetItem "Piso" "Rejunte"
         (grout flooring) "kg" (price_grout_kg prices)
         (grout flooring * price_grout_kg prices);
       mkBudgetItem "Piso" "Argamassa colante"
         (adhesive flooring) "kg" (price_tile_adhesive_kg prices)
         (adhesive flooring * price_tile_adhesive_kg prices);
       mkBudgetItem "Elétrica" "Tomadas"
         (outlets electrical) "un" (price_outlet prices)
         (outlets electrical * price_outlet prices);
       mkBudgetItem "Elétrica" "Interruptores"
         (switches electrical) "un" (price_switch prices)
         (switches electrical * price_switch prices);
       mkBudgetItem "Elétrica" "Pontos de luz"
         (lightPoints electrical) "un" (price_light_point prices)
         (lightPoints electrical * price_light_point prices);
       mkBudgetItem "Elétrica" "Fiação 2.5mm"
         (wireEstimate electrical) "m" (price_wire_m prices)
         (wireEstimate electrical * price_wire_m prices) ]
     ++ (if JS.gtb totalWaterPoints 0
         then [ mkBudgetItem "Hidráulica" "Pontos de água"
                  totalWaterPoints "un" (price_water_point prices)
                  (totalWaterPoints * price_water_point prices) ]
         else [])
     ++ (if JS.gtb (drainPoints plumbing) 0
         then [ mkBudgetItem "Hidráulica" "Pontos de esgoto"
                  (drainPoints plumbing) "un" (price_drain_point prices)
                  (drainPoints plumbing * price_drain_point prices) ]
         else [])
     ++ (if JS.gtb (pipeEstimate plumbing) 0
         then [ mkBudgetItem "Hidráulica" "Tubulação PVC"
                  (pipeEstimate plumbing) "m" (price_pipe_m prices)
                  (pipeEstimate plumbing * price_pipe_m prices) ]
         else []))%list in
  let subtotalOf (cat : string) :=
    JS.sumBy item_total (filter (fun i => String.eqb (category i) cat) items) in
  let subtotals :=
    {| sub_masonry := subtotalOf "Alvenaria";
       sub_paint := subtotalOf "Pintura";
       sub_flooring := subtotalOf "Piso";
       sub_electrical := subtotalOf "Elétrica";
       sub_plumbing := subtotalOf "Hidráulica" |} in
  let total :=
    JS.sumBy (fun v => v)
             [sub_masonry subtotals; sub_paint subtotals; sub_flooring subtotals;
              sub_electrical subtotals; sub_plumbing subtotals] in
  let perM2 := if JS.gtb totalArea 0 then total / totalArea else 0 in
  {| items := items; subtotals := subtotals; total := total; perM2 := perM2 |}.

Local Close Scope string_scope.

Definition calculateFloorPlanStats (floorPlan : FloorPlan)
    (config : EstimateConfig) : FloorPlanStats :=
  let rooms :=
    map (fun room => calculateRoomStats room (fp_defaults floorPlan) config)
        (floor_rooms (fp_floor floorPlan)) in
  let measurements := calculateMeasurements rooms in
  let materials :=
    {| mat_masonry := calculateMasonry measurements;
       mat_paint := calculatePaint measurements config;
       mat_flooring := calculateFlooring measurements config;
       mat_electrical := calculateElectrical rooms config;
       mat_plumbing := calculatePlumbing rooms config |} in
  let budget := calculateBudget materials (totalFloorArea measurements) config in
  {| measurements := measurements; materials := materials; budget := budget |}.

End Statistics.

(* ------------------------------------------------------------------ *)
(** ** Wall statistics on binary64 numbers ([utils/statistics.ts]) *)

Module Statistics64.

Import Binary64.
Local Open Scope double_scope.

Record WallStats := mkWallStats {
  wst_side : WallSide;
  wst_length : double;
  wst_height : double;
  wst_thickness : double;
  wst_area : double;
  wst_areaWithoutOpenings : double;
  wst_openingsArea : double;
  wst_brickCount : double;
  wst_exists : bool
}.

Record Size := mkSize { size_width : double; size_height : double }.

Record WallSizeDefaults := mkWallSizeDefaults { wsd_height : double; wsd_thickness : double }.

Definition getWallDefaults (defaults : option Defaults) : WallSizeDefaults :=
  {| wsd_height := JS.orElse (optNum (defWallHeight defaults)) (num 280);
     wsd_thickness := JS.orElse (optNum (defWallThickness defaults)) (num 15) |}.

Definition getOpeningDefaults (type : OpeningType) (defaults : option Defaults) : Size :=
  match type with
  | door => {| size_width := JS.orElse (optNum (defDoorWidth defaults)) (num 80);
               size_height := JS.orElse (optNum (defDoorHeight defaults)) (num 210) |}
  | window => {| size_width := JS.orElse (optNum (defWindowWidth defaults)) (num 120);
                 size_height := JS.orElse (optNum (defWindowHeight defaults)) (num 120) |}
  end.

(** Area of one opening, as added by the reducer of [calculateOpeningsArea] *)
Definition openingArea (defaults : option Defaults) (opening : Opening) : double :=
  let openingDefaults := getOpeningDefaults (op_type opening) defaults in
  let width := JS.orElse (optNum (op_width opening)) (size_width openingDefaults) in
  let height := JS.orElse (optNum (op_height opening)) (size_height openingDefaults) in
  width * height.

Definition calculateOpeningsArea (wall : Wall) (defaults : option Defaults) : double :=
  match wall_openings wall with
  | None => zero
  | Some [] => zero
  | Some ops => fold_left (fun total opening => total + openingArea defaults opening)
                          ops zero
  end.

Definition calculateBrickCount (areaCm2 : double) (config : EstimateConfig) : double :=
  let bw_width := num (brick_width (cfg_brick config))
                  + num (mortarThickness (cfg_brick config)) in
  let bw_height := num (brick_height (cfg_brick config))
                   + num (mortarThickness (cfg_brick config)) in
  let brickArea := bw_width * bw_height in
  ceil ((areaCm2 / brickArea) * num (brick_wasteFactor (cfg_brick config))).

Definition cm2ToM2 (cm2 : double) : double := cm2 / num 10000.

Definition calculateWallStats (wall : Wall) (side : WallSide)
    (defaults : option Defaults) (config : EstimateConfig) : WallStats :=
  let wallDefaults := getWallDefaults defaults in
  let length := JS.orElse (optNum (wall_length wall)) zero in
  let height := JS.orElse (optNum (wall_height wall)) (wsd_height wallDefaults) in
  let thickness := JS.orElse (optNum (wall_thickness wall)) (wsd_thickness wallDefaults) in
  let exists_ := JS.notFalse (wall_exists wall) in
  let areaCm2 := length * height in
  let openingsAreaCm2 := calculateOpeningsArea wall defaults in
  let areaWithoutOpeningsCm2 := max zero (areaCm2 - openingsAreaCm2) in
  let brickCount :=
    if exists_ then calculateBrickCount areaWithoutOpeningsCm2 config else zero in
  {| wst_side := side;
     wst_length := length;
     wst_height := height;
     wst_thickness := thickness;
     wst_area := cm2ToM2 areaCm2;
     wst_areaWithoutOpenings := cm2ToM2 areaWithoutOpeningsCm2;
     wst_openingsArea := cm2ToM2 openingsAreaCm2;
     wst_brickCount := brickCount;
     wst_exists := exists_ |}.

End Statistics64.

(* ------------------------------------------------------------------ *)
(** ** The stated properties, written independently of the code *)

Module Spec.

(** Three-tier resolution of a wall, in the words of the data model:
    explicit value, else plan-level default, else the constant. *)
Definition wallLength (wall : Wall) : Q :=
  match wall_length wall with Some l => l | None => 0 end.

Definition wallHeight (wall : Wall) (defaults : option Defaults) : Q :=
  match wall_height wall with
  | Some h => h
  | None =>
      match defaults with
      | Some {| d_wall := Some {| wd_height := Some h |} |} => h
      | _ => 280
      end
  end.

Definition wallThickness (wall : Wall) (defaults : option Defaults) : Q :=
  match wall_thickness wall with
  | Some t => t
  | None =>
      match defaults with
      | Some {| d_wall := Some {| wd_thickness := Some t |} |} => t
      | _ => 15
      end
  end.

Definition wallExists (wall : Wall) : bool :=
  match wall_exists wall with Some b => b | None => true end.

(** Resolved size of an opening: explicit, else the plan default of its
    type, else 80 x 210 for a door and 120 x 120 for a window. *)
Definition openingWidth (defaults : option Defaults) (o : Opening) : Q :=
  match op_width o with
  | Some w => w
  | None =>
      match op_type o with
      | door => JS.orElse (defDoorWidth defaults) 80
      | window => JS.orElse (defWindowWidth defaults) 120
      end
  end.

Definition openingHeight (defaults : option Defaults) (o : Opening) : Q :=
  match op_height o with
  | Some h => h
  | None =>
      match op_type o with
      | door => JS.orElse (defDoorHeight defaults) 210
      | window => JS.orElse (defWindowHeight defaults) 120
      end
  end.

Definition wallOpenings (wall : Wall) : list Opening :=
  match wall_openings wall with Some ops => ops | None => [] end.

(** Sum over the wall's openings of resolved width x resolved height (cm2) *)
Fixpoint openingsSum (defaults : option Defaults) (ops : list Opening) : Q :=
  match ops with
  | [] => 0
  | o :: rest => openingWidth defaults o * openingHeight defaults o
                 + openingsSum defaults rest
  end.

(** Gross wall area in cm2 *)
Definition grossCm2 (wall : Wall) (defaults : option Defaults) : Q :=
  wallLength wall * wallHeight wall defaults.

(** Net wall area in cm2 as the statistics engine takes it: never below 0 *)
Definition netCm2 (wall : Wall) (defaults : option Defaults) : Q :=
  Qmax 0 (grossCm2 wall defaults - openingsSum defaults (wallOpenings wall)).

Definition brickUnitArea (config : EstimateConfig) : Q :=
  (brick_width (cfg_brick config) + mortarThickness (cfg_brick config))
  * (brick_height (cfg_brick config) + mortarThickness (cfg_brick config)).

(** Brick count rounded once: [ceil((net / unit) * waste)] *)
Definition brickCountOnceRounded (net : Q) (config : EstimateConfig) : Q :=
  inject_Z (Qceiling ((net / brickUnitArea config)
                      * brick_wasteFactor (cfg_brick config))).

(** Room-type inference by a keyword table.  Each row: the keywords that
    are looked up in the id and in the name, the keywords that are looked
    up in the name only, and the resulting type; the first matching row
    wins. *)
Definition KeywordRow : Type := (list string * list string * string)%type.

Definition rowMatches (id name : string) (row : KeywordRow) : bool :=
  let '(both, nameOnly, _) := row in
  (existsb (fun kw => JS.includes id kw || JS.includes name kw) both
   || existsb (fun kw => JS.includes name kw) nameOnly)%bool.

Definition roomTypeBy (table : list KeywordRow) (room : Room) : string :=
  let id := JS.toLowerCase (room_id room) in
  let name := JS.toLowerCase (JS.orElse (room_name room) EmptyString) in
  match find (rowMatches id name) table with
  | Some (_, _, type) => type
  | None => "default"%string
  end.

(** Every keyword matched against id and name *)
Definition keywordsIdAndName : list KeywordRow :=
  [ (["sala"], [], "sala");
    (["cozinha"], [], "cozinha");
    (["banheiro"; "wc"], [], "banheiro");
    (["quarto"; "dormit"], [], "quarto");
    (["servico"; "lavanderia"], [], "area-servico") ]%string.

(** The second keyword of a row matched against the name only *)
Definition keywordsAliasNameOnly : list KeywordRow :=
  [ (["sala"], [], "sala");
    (["cozinha"], [], "cozinha");
    (["banheiro"], ["wc"], "banheiro");
    (["quarto"], ["dormit"], "quarto");
    (["servico"], ["lavanderia"], "area-servico") ]%string.

(** Bounding box of a room in plan units: left, top, right, bottom *)
Record Box := mkBox { left : Q; top : Q; right : Q; bottom : Q }.

Definition boxOf (room : Room) : Box :=
  {| left := pos_x (room_position room);
     top := pos_y (room_position room);
     right := pos_x (room_position room) + roomWidth room;
     bottom := pos_y (room_position room) + roomHeight room |}.

Definition intersection (a b : Box) : Box :=
  {| left := Qmax (left a) (left b);
     top := Qmax (top a) (top b);
     right := Qmin (right a) (right b);
     bottom := Qmin (bottom a) (bottom b) |}.

Definition boxWidth (b : Box) : Q := right b - left b.
Definition boxHeight (b : Box) : Q := bottom b - top b.

Definition overlapRect (r1 r2 : Room) : Validation.Rect :=
  let i := intersection (boxOf r1) (boxOf r2) in
  {| Validation.rect_x := left i; Validation.rect_y := top i;
     Validation.rect_width := boxWidth i; Validation.rect_height := boxHeight i |}.

Definition roomsOverlap (r1 r2 : Room) : Prop :=
  let i := intersection (boxOf r1) (boxOf r2) in
  1 < boxWidth i /\ 1 < boxHeight i.

(** A room with a non-positive effective width or height *)
Definition degenerate (room : Room) : bool :=
  (JS.leb (roomWidth room) 0 || JS.leb (roomHeight room) 0)%bool.

(** The wall types that get plumbing points *)
Definition wetRoomType (type : string) : bool :=
  (String.eqb type "cozinha" || String.eqb type "banheiro"
   || String.eqb type "area-servico")%bool.

(** [count] packages of [size] units are enough for [need] units, and one
    package fewer would not be *)
Definition covers (size need count : Q) : Prop :=
  need <= count * size /\ (count - 1) * size < need.

(** A whole, non-negative amount below 2^50 *)
Definition wholeAmount (q : Q) : Prop :=
  exists n : Z, (0 <= n < 2 ^ 50)%Z /\ q == inject_Z n.

(** [count] is a whole number of packages of [size] units that is enough
    for [need] units, while one package fewer would not be *)
Definition wholePackages (size need count : Q) : Prop :=
  (exists c : Z, count = inject_Z c) /\ covers size need count.

(** [s] contains [sub] as a contiguous substring *)
Definition substring (sub s : string) : Prop :=
  exists pre post : string, s = (pre ++ sub ++ post)%string.

(** [issue.type === t] *)
Definition hasType (t : Validation.IssueType) (issue : Validation.ValidationIssue) : bool :=
  match t, Validation.issue_type issue with
  | Validation.overlap, Validation.overlap => true
  | Validation.duplicate_wall, Validation.duplicate_wall => true
  | Validation.invalid_dimension, Validation.invalid_dimension => true
  | _, _ => false
  end.

(** Wall segments by side *)
Inductive Orientation := horizontal | vertical.

Definition orientation (side : WallSide) : Orientation :=
  match side with
  | north | south => horizontal
  | east | west => vertical
  end.

Definition rangeOverlap (a b : Q * Q) : Q :=
  Qmin (snd a) (snd b) - Qmax (fst a) (fst b).

(** Overlap of the x-extents, and of the y-extents, of two segments *)
Definition xOverlap (w1 w2 : Validation.WallSegment) : Q :=
  rangeOverlap
    (Qmin (Validation.ws_x1 w1) (Validation.ws_x2 w1),
     Qmax (Validation.ws_x1 w1) (Validation.ws_x2 w1))
    (Qmin (Validation.ws_x1 w2) (Validation.ws_x2 w2),
     Qmax (Validation.ws_x1 w2) (Validation.ws_x2 w2)).

Definition yOverlap (w1 w2 : Validation.WallSegment) : Q :=
  rangeOverlap
    (Qmin (Validation.ws_y1 w1) (Validation.ws_y2 w1),
     Qmax (Validation.ws_y1 w1) (Validation.ws_y2 w1))
    (Qmin (Validation.ws_y1 w2) (Validation.ws_y2 w2),
     Qmax (Validation.ws_y1 w2) (Validation.ws_y2 w2)).

(** Corners of the room rectangle and the scaled segment of each side *)
Definition scalePoint (scale : Q) (p : Q * Q) : Q * Q :=
  (fst p * scale, snd p * scale).

Definition corner (room : Room) (right_ bottom_ : bool) : Q * Q :=
  let x := pos_x (room_position room) in
  let y := pos_y (room_position room) in
  (if right_ then x + roomWidth room else x,
   if bottom_ then y + roomHeight room else y).

Definition segmentEnds (room : Room) (side : WallSide) : (Q * Q) * (Q * Q) :=
  match side with
  | north => (corner room false false, corner room true false)
  | south => (corner room false true, corner room true true)
  | east => (corner room true false, corner room true true)
  | west => (corner room false false, corner room false true)
  end.

(** [x] occurs before [y] in [xs] (at two positions [i < j]) *)
Fixpoint before {A : Type} (x y : A) (xs : list A) : Prop :=
  match xs with
  | [] => False
  | z :: rest => (z = x /\ In y rest) \/ before x y rest
  end.

End Spec.

(* ------------------------------------------------------------------ *)
(** ** The stated properties on binary64 numbers *)

Module Spec64.

Import Binary64.
Local Open Scope double_scope.

(** Resolved dimensions of a wall: explicit value, else plan-level default,
    else the constant *)
Definition wallLength (wall : Wall) : double :=
  match wall_length wall with Some l => num l | None => zero end.

Definition wallHeight (wall : Wall) (defaults : option Defaults) : double :=
  match wall_height wall with
  | Some h => num h
  | None =>
      match defaults with
      | Some {| d_wall := Some {| wd_height := Some h |} |} => num h
      | _ => num 280
      end
  end.

Definition openingWidth (defaults : option Defaults) (o : Opening) : double :=
  match op_width o with
  | Some w => num w
  | None =>
      match op_type o with
      | door => JS.orElse (optNum (defDoorWidth defaults)) (num 80)
      | window => JS.orElse (optNum (defWindowWidth defaults)) (num 120)
      end
  end.

Definition openingHeight (defaults : option Defaults) (o : Opening) : double :=
  match op_height o with
  | Some h => num h
  | None =>
      match op_type o with
      | door => JS.orElse (optNum (defDoorHeight defaults)) (num 210)
      | window => JS.orElse (optNum (defWindowHeight defaults)) (num 120)
      end
  end.

(** Sum of a list of numbers, added from left to right starting from 0 *)
Definition sum (xs : list double) : double := fold_left add xs zero.

(** Sum over the wall's openings of resolved width x resolved height (cm2) *)
Definition openingsSum (defaults : option Defaults) (ops : list Opening) : double :=
  sum (map (fun o => openingWidth defaults o * openingHeight defaults o) ops).

Definition grossCm2 (wall : Wall) (defaults : option Defaults) : double :=
  wallLength wall * wallHeight wall defaults.

(** Net wall area in cm2, never below 0 *)
Definition netCm2 (wall : Wall) (defaults : option Defaults) : double :=
  max zero (grossCm2 wall defaults - openingsSum defaults (Spec.wallOpenings wall)).

Definition brickUnitArea (config : EstimateConfig) : double :=
  (num (brick_width (cfg_brick config)) + num (mortarThickness (cfg_brick config)))
  * (num (brick_height (cfg_brick config)) + num (mortarThickness (cfg_brick config))).

(** Brick count rounded twice: [ceil(ceil(net / unit) * waste)] *)
Definition brickCountTwiceRounded (net : double) (config : EstimateConfig) : double :=
  ceil (ceil (net / brickUnitArea config) * num (brick_wasteFactor (cfg_brick config))).

(** Brick count rounded once: [ceil((net / unit) * waste)] *)
Definition brickCountOnceRounded (net : double) (config : EstimateConfig) : double :=
  ceil ((net / brickUnitArea config) * num (brick_wasteFactor (cfg_brick config))).

(** Effective width and height of a room *)
Definition roomWidth (room : Room) : double :=
  max (wallLength (w_north (room_walls room))) (wallLength (w_south (room_walls room))).

Definition roomHeight (room : Room) : double :=
  max (wallLength (w_east (room_walls room))) (wallLength (w_west (room_walls room))).

(** Bounding box of a room in plan units: left, top, right, bottom *)
Record Box := mkBox { left : double; top : double; right : double; bottom : double }.

Definition boxOf (room : Room) : Box :=
  {| left := num (pos_x (room_position room));
     top := num (pos_y (room_position room));
     right := num (pos_x (room_position room)) + roomWidth room;
     bottom := num (pos_y (room_position room)) + roomHeight room |}.

Definition intersection (a b : Box) : Box :=
  {| left := max (left a) (left b);
     top := max (top a) (top b);
     right := min (right a) (right b);
     bottom := min (bottom a) (bottom b) |}.

Definition boxWidth (b : Box) : double := right b - left b.
Definition boxHeight (b : Box) : double := bottom b - top b.

Definition overlapRect (r1 r2 : Room) : Validation64.Rect :=
  let i := intersection (boxOf r1) (boxOf r2) in
  {| Validation64.rect_x := left i; Validation64.rect_y := top i;
     Validation64.rect_width := boxWidth i; Validation64.rect_height := boxHeight i |}.

(** The intersection is more than 1 unit wide and more than 1 unit high *)
Definition roomsOverlap (r1 r2 : Room) : Prop :=
  let i := intersection (boxOf r1) (boxOf r2) in
  ltb one (boxWidth i) = true /\ ltb one (boxHeight i) = true.


(** A room with a non-positive effective width or height *)
Definition degenerate (room : Room) : bool :=
  (leb (roomWidth room) zero || leb (roomHeight room) zero)%bool.

(** [issue.type === t] *)
Definition hasType (t : Validation.IssueType) (issue : Validation64.ValidationIssue) : bool :=
  match t, Validation64.issue_type issue with
  | Validation.overlap, Validation.overlap => true
  | Validation.duplicate_wall, Validation.duplicate_wall => true
  | Validation.invalid_dimension, Validation.invalid_dimension => true
  | _, _ => false
  end.



Definition rangeOverlap (a b : double * double) : double :=
  min (snd a) (snd b) - max (fst a) (fst b).


End Spec64.

(* ------------------------------------------------------------------ *)
(** ** Plans written in whole numbers *)

Module Whole.

(** The binary64 value [x] is finite and stands for the rational [q] *)
Definition exactly (x : Binary64.double) (q : Q) : Prop :=
  Binary64.isFinite x = true /\ Binary64.toQ x == q.

(** ... and [q] is a whole number of absolute value at most 2^k *)
Definition wholeExact (k : Z) (x : Binary64.double) (q : Q) : Prop :=
  exists n : Z, (Z.abs n <= 2 ^ k)%Z /\ q == inject_Z n /\ exactly x (inject_Z n).

(** A number of the plan written as a whole number of absolute value at
    most 2^50 *)
Definition wholeNumber (q : Q) : bool :=
  (Pos.eqb (Qden q) 1 && Z.leb (Z.abs (Qnum q)) (2 ^ 50))%bool.

Definition wholeLength (o : option Q) : bool :=
  match o with Some l => wholeNumber l | None => true end.

(** The position and the four wall lengths of the room are whole numbers *)
Definition wholeRoom (room : Room) : bool :=
  (wholeNumber (pos_x (room_position room))
   && wholeNumber (pos_y (room_position room))
   && forallb (fun side => wholeLength (wall_length (wallAt (room_walls room) side)))
              Validation.sides)%bool.

Definition wholePlan (floorPlan : FloorPlan) : bool :=
  forallb wholeRoom (floor_rooms (fp_floor floorPlan)).

Definition sameOption {A B : Type} (R : A -> B -> Prop) (a : option A) (b : option B) : Prop :=
  match a, b with
  | Some x, Some y => R x y
  | None, None => True
  | _, _ => False
  end.

Definition sameRect (a : Validation64.Rect) (b : Validation.Rect) : Prop :=
  exactly (Validation64.rect_x a) (Validation.rect_x b)
  /\ exactly (Validation64.rect_y a) (Validation.rect_y b)
  /\ exactly (Validation64.rect_width a) (Validation.rect_width b)
  /\ exactly (Validation64.rect_height a) (Validation.rect_height b).

Definition samePosition (a : Validation64.WallPosition) (b : Validation.WallPosition) : Prop :=
  exactly (Validation64.wp_x1 a) (Validation.wp_x1 b)
  /\ exactly (Validation64.wp_y1 a) (Validation.wp_y1 b)
  /\ exactly (Validation64.wp_x2 a) (Validation.wp_x2 b)
  /\ exactly (Validation64.wp_y2 a) (Validation.wp_y2 b).

Definition sameDetails (a : Validation64.Details) (b : Validation.Details) : Prop :=
  Validation64.wallSide a = Validation.wallSide b
  /\ sameOption sameRect (Validation64.overlapArea a) (Validation.overlapArea b)
  /\ sameOption samePosition (Validation64.wallPosition a) (Validation.wallPosition b).

(** The same issue: identifier, severity, type, message and rooms are equal,
    and every number of the details stands for the exact one *)
Definition sameIssue (a : Validation64.ValidationIssue) (b : Validation.ValidationIssue) : Prop :=
  Validation64.issue_id a = Validation.issue_id b
  /\ Validation64.severity a = Validation.severity b
  /\ Validation64.issue_type a = Validation.issue_type b
  /\ Validation64.message a = Validation.message b
  /\ Validation64.roomIds a = Validation.roomIds b
  /\ sameOption sameDetails (Validation64.details a) (Validation.details b).

Definition sameBounds (a : Validation64.RoomBounds) (b : Validation.RoomBounds) : Prop :=
  Validation64.rb_id a = Validation.rb_id b
  /\ Validation64.rb_name a = Validation.rb_name b
  /\ wholeExact 50 (Validation64.rb_x a) (Validation.rb_x b)
  /\ wholeExact 50 (Validation64.rb_y a) (Validation.rb_y b)
  /\ wholeExact 50 (Validation64.rb_width a) (Validation.rb_width b)
  /\ wholeExact 50 (Validation64.rb_height a) (Validation.rb_height b).

Definition sameSegment (a : Validation64.WallSegment) (b : Validation.WallSegment) : Prop :=
  Validation64.ws_roomId a = Validation.ws_roomId b
  /\ Validation64.ws_roomName a = Validation.ws_roomName b
  /\ Validation64.ws_side a = Validation.ws_side b
  /\ Validation64.ws_exists a = Validation.ws_exists b
  /\ wholeExact 51 (Validation64.ws_x1 a) (Validation.ws_x1 b)
  /\ wholeExact 51 (Validation64.ws_y1 a) (Validation.ws_y1 b)
  /\ wholeExact 51 (Validation64.ws_x2 a) (Validation.ws_x2 b)
  /\ wholeExact 51 (Validation64.ws_y2 a) (Validation.ws_y2 b).

End Whole.

(* ------------------------------------------------------------------ *)
(** ** Concrete plans used in the examples *)

Module Examples.

Definition plainWall (l : Q) : Wall :=
  mkWall (Some l) None None None None.

Definition rectRoom (id : string) (x y w h : Q) : Room :=
  mkRoom id None (mkPosition x y)
         (mkWalls (plainWall w) (plainWall h) (plainWall w) (plainWall h)).

Definition planOf (scale : option Q) (rooms : list Room) : FloorPlan :=
  mkFloorPlan "1.0" cm scale None (mkFloor "floor-1" rooms).

(** Two 300 x 300 rooms at (0,0) and (200,0) *)
Definition roomA : Room := rectRoom "a" 0 0 300 300.
Definition roomB : Room := rectRoom "b" 200 0 300 300.
Definition overlappingPlan : FloorPlan := planOf None [roomA; roomB].

(** Two 300 x 300 rooms side by side: east wall of the first on the west
    wall of the second *)
Definition roomL : Room := rectRoom "left" 0 0 300 300.
Definition roomR : Room := rectRoom "right" 300 0 300 300.
Definition adjacentPlan : FloorPlan := planOf None [roomL; roomR].

(** The same two rooms, the west wall of the second marked virtual *)
Definition virtualWall (l : Q) : Wall :=
  mkWall (Some l) None None (Some false) None.
Definition roomRVirtualWest : Room :=
  mkRoom "right" None (mkPosition 300 0)
         (mkWalls (plainWall 300) (plainWall 300) (plainWall 300) (virtualWall 300)).
Definition adjacentVirtualPlan : FloorPlan := planOf None [roomL; roomRVirtualWest].

(** A 400 x 300 room at the origin with a door and a window on the north wall *)
Definition northWithOpenings : Wall :=
  mkWall (Some 400) None None None
         (Some [ mkOpening door 50 (Some 80) None None None;
                 mkOpening window 200 (Some 120) None None None ]).

Definition room400x300 : Room :=
  mkRoom "sala" None (mkPosition 0 0)
         (mkWalls northWithOpenings (plainWall 300) (plainWall 400) (plainWall 300)).

Definition plan400x300 : FloorPlan := planOf (Some 1) [room400x300].

Definition emptyPlan : FloorPlan := planOf None [].

(** A small wall: 10 cm x 10 cm, no openings *)
Definition smallWall : Wall := mkWall (Some 10) (Some 10) None None None.

(** A 100 cm x 100 cm wall with one default-sized door (80 x 210) *)
Definition wallWithBigDoor : Wall :=
  mkWall (Some 100) (Some 100) None None
         (Some [ mkOpening door 10 None None None None ]).

(** A room whose north wall has length 0 while the south wall has 400 *)
Definition roomNorthZero : Room :=
  mkRoom "r1" None (mkPosition 0 0)
         (mkWalls (plainWall 0) (plainWall 300) (plainWall 400) (plainWall 300)).

Definition planNorthZero : FloorPlan := planOf None [roomNorthZero].

(** A room whose north and south walls both have length 0 *)
Definition roomFlat : Room := rectRoom "r2" 0 0 0 300.

Definition planFlat : FloorPlan := planOf None [roomA; roomFlat].

(** A room identified as "wc" with no display name *)
Definition roomWcId : Room := mkRoom "wc" None (mkPosition 0 0)
  (mkWalls (plainWall 200) (plainWall 150) (plainWall 200) (plainWall 150)).

(** A room whose display name, not its id, carries "WC" *)
Definition roomWcName : Room := mkRoom "r3" (Some "WC social"%string) (mkPosition 0 0)
  (mkWalls (plainWall 200) (plainWall 150) (plainWall 200) (plainWall 150)).

End Examples.

(* ------------------------------------------------------------------ *)
(** ** Basic facts about the JavaScript primitives *)

Lemma gtb_true_iff (a b : Q) : JS.gtb a b = true <-> b < a.
Proof.
  unfold JS.gtb, JS.ltb. rewrite negb_true_iff.
  split; intro H.
  - apply Qnot_le_lt. intro Hle. apply Qle_bool_iff in Hle. congruence.
  - destruct (Qle_bool a b) eqn:E; [|reflexivity].
    apply Qle_bool_iff in E. exfalso. apply (Qlt_not_le _ _ H E).
Qed.

Lemma gtb_false_iff (a b : Q) : JS.gtb a b = false <-> a <= b.
Proof.
  unfold JS.gtb, JS.ltb. rewrite negb_false_iff. apply Qle_bool_iff.
Qed.

Lemma leb_true_iff (a b : Q) : JS.leb a b = true <-> a <= b.
Proof. apply Qle_bool_iff. Qed.

(** [reduce] starting from [acc] adds [acc] to the sum from 0 *)
Lemma fold_sum_shift {A : Type} (f : A -> Q) (xs : list A) (acc : Q) :
  fold_left (fun sum v => sum + f v) xs acc
  == acc + fold_left (fun sum v => sum + f v) xs 0.
Proof.
  revert acc. induction xs as [|x xs IH]; intro acc; simpl.
  - ring.
  - rewrite (IH (acc + f x)), (IH (0 + f x)). ring.
Qed.

Lemma sumBy_cons {A : Type} (f : A -> Q) (x : A) (xs : list A) :
  JS.sumBy f (x :: xs) == f x + JS.sumBy f xs.
Proof.
  unfold JS.sumBy. simpl. rewrite fold_sum_shift. ring.
Qed.

(* ------------------------------------------------------------------ *)
(** ** Defaults resolution *)

(** C2. The geometry calculator ([resolveWall]) and the statistics engine
    ([calculateWallStats]) resolve the same effective length, height,
    thickness and existence flag for every wall and every defaults record,
    and both follow the three-tier rule: length = explicit else 0; height =
    explicit else defaults.wall.height else 280; thickness = explicit else
    defaults.wall.thickness else 15; exists = explicit else true. *)
Theorem wall_resolution_agrees
    (wall : Wall) (defaults : option Defaults) (side : WallSide)
    (config : EstimateConfig) :
  let g := Geometry.resolveWall wall defaults in
  let s := Statistics.calculateWallStats wall side defaults config in
  (Geometry.rw_length g = Statistics.wst_length s
   /\ Statistics.wst_length s = Spec.wallLength wall)
  /\ (Geometry.rw_height g = Statistics.wst_height s
      /\ Statistics.wst_height s = Spec.wallHeight wall defaults)
  /\ (Geometry.rw_thickness g = Statistics.wst_thickness s
      /\ Statistics.wst_thickness s = Spec.wallThickness wall defaults)
  /\ (Geometry.rw_exists g = Statistics.wst_exists s
      /\ Statistics.wst_exists s = Spec.wallExists wall).
Proof.
  destruct wall as [l h t e ops].
  destruct defaults as [[[[dh dt]|] dd dw]|];
    destruct l, h, t; destruct e as [[|]|];
    try destruct dh; try destruct dt;
    cbn; repeat split; reflexivity.
Qed.

(** Both resolvers give an opening the same width and height. *)
Lemma opening_resolution_agrees (o : Opening) (defaults : option Defaults) :
  Geometry.ro_width (Geometry.resolveOpening o defaults) = Spec.openingWidth defaults o
  /\ Geometry.ro_height (Geometry.resolveOpening o defaults) = Spec.openingHeight defaults o.
Proof.
  destruct o as [ty off w h ff to_].
  destruct defaults as [[dwall [[ddw ddh]|] [[dww dwh dwf]|]]|];
    destruct ty, w, h; try destruct ddw; try destruct ddh;
    try destruct dww; try destruct dwh; cbn; split; reflexivity.
Qed.

(* ------------------------------------------------------------------ *)
(** ** Geometry calculator *)

Lemma floor_geometry_rooms (fp : FloorPlan) :
  Geometry.fg_rooms (Geometry.calculateFloorGeometry fp)
  = map (fun room => Geometry.calculateRoomGeometry room (fp_defaults fp)
                       (JS.orElse (fp_scale fp) (2 # 10)))
        (floor_rooms (fp_floor fp)).
Proof.
  unfold Geometry.calculateFloorGeometry.
  destruct (fold_left _ _ _) as [maxX maxY]. reflexivity.
Qed.

Lemma wall_geometry_ends (room : Room) (side : WallSide)
    (defaults : option Defaults) (scale : Q) :
  let w := Geometry.calculateWallGeometry room side defaults scale in
  (Geometry.wg_x1 w, Geometry.wg_y1 w)
    = Spec.scalePoint scale (fst (Spec.segmentEnds room side))
  /\ (Geometry.wg_x2 w, Geometry.wg_y2 w)
    = Spec.scalePoint scale (snd (Spec.segmentEnds room side)).
Proof.
  destruct side; cbn; split; reflexivity.
Qed.

Lemma wall_geometry_openings (room : Room) (side : WallSide)
    (defaults : option Defaults) (scale : Q) :
  Geometry.wg_openings (Geometry.calculateWallGeometry room side defaults scale)
  = map (Geometry.openingGeometry room side defaults scale)
        (Spec.wallOpenings (wallAt (room_walls room) side)).
Proof.
  unfold Geometry.calculateWallGeometry, Spec.wallOpenings.
  destruct side; cbn; destruct (wall_openings _); reflexivity.
Qed.

Lemma opening_geometry_position (room : Room) (side : WallSide)
    (defaults : option Defaults) (scale : Q) (o : Opening) :
  let w := Geometry.calculateWallGeometry room side defaults scale in
  let og := Geometry.openingGeometry room side defaults scale o in
  Geometry.og_direction og = side
  /\ match Spec.orientation side with
     | Spec.horizontal =>
         Geometry.og_x og = (pos_x (room_position room) + op_offset o) * scale
         /\ Geometry.og_y og = Geometry.wg_y1 w
     | Spec.vertical =>
         Geometry.og_y og = (pos_y (room_position room) + op_offset o) * scale
         /\ Geometry.og_x og = Geometry.wg_x1 w
     end.
Proof.
  destruct o as [ty off w h ff to_].
  destruct side, ty; cbn; repeat split; reflexivity.
Qed.

(** C7. For every room of a plan, [calculateFloorGeometry] gives the room
    the effective width max(north.length, south.length) and height
    max(east.length, west.length), scaled; each side's segment runs between
    the corners of the room rectangle that belong to that side (position
    offset by width/height), scaled; each opening sits at
    (room.position + offset) along its side's axis and on the wall's line,
    scaled, and faces its side.  A room with north = south = 400,
    east = west = 300 at (0,0) with scale 1 gets the bounding box 400 x 300
    and the north segment (0,0)-(400,0). *)
Theorem floor_geometry_layout :
  (forall (fp : FloorPlan) (i : nat) (room : Room),
      nth_error (floor_rooms (fp_floor fp)) i = Some room ->
      let scale := JS.orElse (fp_scale fp) (2 # 10) in
      exists g,
        nth_error (Geometry.fg_rooms (Geometry.calculateFloorGeometry fp)) i = Some g
        /\ Geometry.rg_width g
           = Qmax (Spec.wallLength (w_north (room_walls room)))
                  (Spec.wallLength (w_south (room_walls room))) * scale
        /\ Geometry.rg_height g
           = Qmax (Spec.wallLength (w_east (room_walls room)))
                  (Spec.wallLength (w_west (room_walls room))) * scale
        /\ forall side : WallSide,
             let w := Geometry.wallGeometryAt (Geometry.rg_walls g) side in
             (Geometry.wg_x1 w, Geometry.wg_y1 w)
               = Spec.scalePoint scale (fst (Spec.segmentEnds room side))
             /\ (Geometry.wg_x2 w, Geometry.wg_y2 w)
               = Spec.scalePoint scale (snd (Spec.segmentEnds room side))
             /\ forall (k : nat) (o : Opening),
                  nth_error (Spec.wallOpenings (wallAt (room_walls room) side)) k = Some o ->
                  exists og,
                    nth_error (Geometry.wg_openings w) k = Some og
                    /\ Geometry.og_direction og = side
                    /\ match Spec.orientation side with
                       | Spec.horizontal =>
                           Geometry.og_x og
                             = (pos_x (room_position room) + op_offset o) * scale
                           /\ Geometry.og_y og = Geometry.wg_y1 w
                       | Spec.vertical =>
                           Geometry.og_y og
                             = (pos_y (room_position room) + op_offset o) * scale
                           /\ Geometry.og_x og = Geometry.wg_x1 w
                       end)
  /\ (forall (fp : FloorPlan) (room : Room),
        floor_rooms (fp_floor fp) = [room] ->
        fp_scale fp = Some 1 ->
        room_position room = mkPosition 0 0 ->
        wall_length (w_north (room_walls room)) = Some 400 ->
        wall_length (w_south (room_walls room)) = Some 400 ->
        wall_length (w_east (room_walls room)) = Some 300 ->
        wall_length (w_west (room_walls room)) = Some 300 ->
        let fg := Geometry.calculateFloorGeometry fp in
        Geometry.fg_width fg = 400 /\ Geometry.fg_height fg = 300
        /\ exists g,
             Geometry.fg_rooms fg = [g]
             /\ Geometry.rg_width g = 400 /\ Geometry.rg_height g = 300
             /\ (Geometry.wg_x1 (Geometry.g_north (Geometry.rg_walls g)),
                 Geometry.wg_y1 (Geometry.g_north (Geometry.rg_walls g)),
                 Geometry.wg_x2 (Geometry.g_north (Geometry.rg_walls g)),
                 Geometry.wg_y2 (Geometry.g_north (Geometry.rg_walls g)))
                = (0, 0, 400, 0)).
Proof.
  split.
  - intros fp i room Hi scale.
    exists (Geometry.calculateRoomGeometry room (fp_defaults fp) scale).
    split.
    { rewrite floor_geometry_rooms. rewrite nth_error_map, Hi. reflexivity. }
    split; [reflexivity|]. split; [reflexivity|].
    intros side w.
    assert (Hw : w = Geometry.calculateWallGeometry room side (fp_defaults fp) scale)
      by (destruct side; reflexivity).
    rewrite Hw.
    destruct (wall_geometry_ends room side (fp_defaults fp) scale) as [H1 H2].
    split; [exact H1|]. split; [exact H2|].
    intros k o Hk.
    exists (Geometry.openingGeometry room side (fp_defaults fp) scale o).
    split.
    { rewrite wall_geometry_openings, nth_error_map, Hk. reflexivity. }
    apply opening_geometry_position.
  - intros fp room Hrooms Hscale Hpos Hn Hs He Hw fg.
    subst fg. unfold Geometry.calculateFloorGeometry.
    rewrite Hrooms, Hscale. cbn [map fold_left JS.orElse].
    unfold Geometry.calculateRoomGeometry, Geometry.calculateWallGeometry.
    cbn [Geometry.rg_x Geometry.rg_y Geometry.rg_width Geometry.rg_height
         Geometry.fg_width Geometry.fg_height Geometry.fg_rooms].
    unfold roomWidth, roomHeight. rewrite Hpos, Hn, Hs, He, Hw.
    cbn [pos_x pos_y JS.orElse].
    repeat split.
    eexists. split; [reflexivity|].
    cbn [Geometry.rg_width Geometry.rg_height Geometry.rg_walls Geometry.g_north
         Geometry.wg_x1 Geometry.wg_y1 Geometry.wg_x2 Geometry.wg_y2].
    repeat split.
Qed.

Lemma floor_geometry_layout_witness :
  (exists g,
      nth_error (Geometry.fg_rooms (Geometry.calculateFloorGeometry Examples.plan400x300)) 0
      = Some g
      /\ Geometry.rg_width g = 400 * 1)
  /\ Geometry.fg_width (Geometry.calculateFloorGeometry Examples.plan400x300) = 400.
Proof.
  split.
  - destruct (proj1 floor_geometry_layout Examples.plan400x300 0%nat
                Examples.room400x300 eq_refl) as [g [Hg [Hw _]]].
    exists g. split; [exact Hg|exact Hw].
  - exact (proj1 (proj2 floor_geometry_layout Examples.plan400x300
                    Examples.room400x300 eq_refl eq_refl eq_refl
                    eq_refl eq_refl eq_refl eq_refl)).
Defined.

(** The two openings of the example wall land at x = 50 and x = 200 and
    face north. *)
Example north_openings_positions :
  map (fun og => (Geometry.og_x og, Geometry.og_direction og))
      (Geometry.wg_openings
         (Geometry.calculateWallGeometry Examples.room400x300 north None 1))
  = [(50, north); (200, north)].
Proof. reflexivity. Qed.

(** C9. A plan with an empty room list has the geometry
    {width 0, height 0, no rooms}; and whenever the total floor area of a
    plan is 0 the budget's per-square-metre figure is exactly 0 (the
    division is not performed).  The empty plan is such a plan. *)
Theorem empty_plan_geometry_and_budget (fp : FloorPlan) (config : EstimateConfig) :
  (floor_rooms (fp_floor fp) = [] ->
     Geometry.calculateFloorGeometry fp
     = {| Geometry.fg_width := 0; Geometry.fg_height := 0; Geometry.fg_rooms := [] |}
     /\ Statistics.totalFloorArea
          (Statistics.measurements (Statistics.calculateFloorPlanStats fp config)) = 0)
  /\ (Statistics.totalFloorArea
        (Statistics.measurements (Statistics.calculateFloorPlanStats fp config)) == 0 ->
      Statistics.perM2
        (Statistics.budget (Statistics.calculateFloorPlanStats fp config)) = 0).
Proof.
  split.
  - intro Hrooms.
    unfold Geometry.calculateFloorGeometry, Statistics.calculateFloorPlanStats.
    rewrite Hrooms. split; reflexivity.
  - intro Hzero.
    unfold Statistics.calculateFloorPlanStats in *.
    cbn [Statistics.budget Statistics.measurements] in *.
    unfold Statistics.calculateBudget. cbn [Statistics.perM2].
    match goal with
    | |- (if JS.gtb ?a 0 then _ else _) = _ =>
        assert (Hg : JS.gtb a 0 = false)
          by (apply gtb_false_iff; rewrite Hzero; apply Qle_refl);
        rewrite Hg
    end.
    reflexivity.
Qed.

Lemma empty_plan_geometry_and_budget_witness :
  Geometry.calculateFloorGeometry Examples.emptyPlan
  = {| Geometry.fg_width := 0; Geometry.fg_height := 0; Geometry.fg_rooms := [] |}
  /\ Statistics.perM2
       (Statistics.budget
          (Statistics.calculateFloorPlanStats Examples.emptyPlan DEFAULT_ESTIMATE_CONFIG))
     = 0.
Proof.
  destruct (empty_plan_geometry_and_budget Examples.emptyPlan DEFAULT_ESTIMATE_CONFIG)
    as [H1 H2].
  split.
  - exact (proj1 (H1 eq_refl)).
  - apply H2. reflexivity.
Defined.

(* ------------------------------------------------------------------ *)
(** ** Statistics engine: wall areas and brick counts *)

Lemma opening_area_resolved (defaults : option Defaults) (o : Opening) :
  Statistics.openingArea defaults o
  = Spec.openingWidth defaults o * Spec.openingHeight defaults o.
Proof.
  destruct o as [ty off w h ff to_].
  unfold Statistics.openingArea, Spec.openingWidth, Spec.openingHeight.
  destruct ty, w, h; reflexivity.
Qed.

Lemma openings_fold_sum (defaults : option Defaults) (ops : list Opening) (acc : Q) :
  fold_left (fun total opening => total + Statistics.openingArea defaults opening) ops acc
  == acc + Spec.openingsSum defaults ops.
Proof.
  revert acc. induction ops as [|o ops IH]; intro acc; simpl.
  - ring.
  - rewrite IH, opening_area_resolved. ring.
Qed.

Lemma openings_area_sum (wall : Wall) (defaults : option Defaults) :
  Statistics.calculateOpeningsArea wall defaults
  == Spec.openingsSum defaults (Spec.wallOpenings wall).
Proof.
  unfold Statistics.calculateOpeningsArea, Spec.wallOpenings.
  destruct (wall_openings wall) as [[|o ops]|]; try reflexivity.
  rewrite openings_fold_sum. ring.
Qed.

Lemma wall_gross_cm2 (wall : Wall) (defaults : option Defaults) :
  JS.orElse (wall_length wall) 0
  * JS.orElse (wall_height wall)
              (Statistics.wsd_height (Statistics.getWallDefaults defaults))
  = Spec.grossCm2 wall defaults.
Proof.
  destruct wall as [l h t e ops].
  destruct defaults as [[[[dh dt]|] dd dw]|]; destruct l, h; try destruct dh;
    reflexivity.
Qed.

Lemma Qmax_eq_compat (a b c : Q) : b == c -> Qmax a b == Qmax a c.
Proof.
  intro H.
  destruct (Q.max_spec a b) as [[H1 E1]|[H1 E1]];
    destruct (Q.max_spec a c) as [[H2 E2]|[H2 E2]];
    rewrite E1, E2; lra.
Qed.

Lemma wall_net_cm2 (wall : Wall) (defaults : option Defaults) :
  Qmax 0 (JS.orElse (wall_length wall) 0
          * JS.orElse (wall_height wall)
                      (Statistics.wsd_height (Statistics.getWallDefaults defaults))
          - Statistics.calculateOpeningsArea wall defaults)
  == Spec.netCm2 wall defaults.
Proof.
  unfold Spec.netCm2. rewrite wall_gross_cm2.
  apply Qmax_eq_compat. rewrite openings_area_sum. reflexivity.
Qed.

(** C5 (as amended). For every wall the gross area is resolved length x
    resolved height divided by 10 000, the openings area is the sum of
    resolved width x resolved height of the openings divided by 10 000, and
    the net area is the gross area minus that sum, floored at 0: when the
    openings do not exceed the gross area it is exactly the difference, and
    when they exceed it the net area is 0. *)
Theorem wall_areas (wall : Wall) (side : WallSide) (defaults : option Defaults)
    (config : EstimateConfig) :
  let s := Statistics.calculateWallStats wall side defaults config in
  let gross := Spec.grossCm2 wall defaults in
  let openingsCm2 := Spec.openingsSum defaults (Spec.wallOpenings wall) in
  Statistics.wst_area s = gross / 10000
  /\ Statistics.wst_openingsArea s == openingsCm2 / 10000
  /\ Statistics.wst_areaWithoutOpenings s == Qmax 0 (gross - openingsCm2) / 10000
  /\ (openingsCm2 <= gross ->
      Statistics.wst_areaWithoutOpenings s == (gross - openingsCm2) / 10000)
  /\ (gross <= openingsCm2 -> Statistics.wst_areaWithoutOpenings s == 0).
Proof.
  intros s gross openingsCm2.
  assert (Hnet : Statistics.wst_areaWithoutOpenings s
                 == Qmax 0 (gross - openingsCm2) / 10000).
  { subst s. unfold Statistics.calculateWallStats.
    cbn [Statistics.wst_areaWithoutOpenings]. unfold Statistics.cm2ToM2.
    rewrite wall_net_cm2. reflexivity. }
  split.
  { subst s. unfold Statistics.calculateWallStats. cbn [Statistics.wst_area].
    unfold Statistics.cm2ToM2. rewrite wall_gross_cm2. reflexivity. }
  split.
  { subst s. unfold Statistics.calculateWallStats.
    cbn [Statistics.wst_openingsArea]. unfold Statistics.cm2ToM2.
    rewrite openings_area_sum. reflexivity. }
  split; [exact Hnet|].
  split; intro H; rewrite Hnet;
    destruct (Q.max_spec 0 (gross - openingsCm2)) as [[H1 E1]|[H1 E1]];
    rewrite E1; try reflexivity.
  - assert (E : gross - openingsCm2 == 0) by lra. rewrite E. reflexivity.
  - exfalso. lra.
Qed.

Lemma wall_areas_witness :
  Statistics.wst_areaWithoutOpenings
    (Statistics.calculateWallStats Examples.wallWithBigDoor north None
                                   DEFAULT_ESTIMATE_CONFIG) == 0
  /\ Statistics.wst_areaWithoutOpenings
       (Statistics.calculateWallStats Examples.northWithOpenings north None
                                      DEFAULT_ESTIMATE_CONFIG)
     == (400 * 280 - (80 * 210 + 120 * 120)) / 10000.
Proof.
  destruct (wall_areas Examples.wallWithBigDoor north None DEFAULT_ESTIMATE_CONFIG)
    as (_ & _ & _ & _ & Hover).
  destruct (wall_areas Examples.northWithOpenings north None DEFAULT_ESTIMATE_CONFIG)
    as (_ & _ & _ & Hunder & _).
  split.
  - apply Hover. apply Qle_bool_iff. vm_compute. reflexivity.
  - etransitivity.
    + apply Hunder. apply Qle_bool_iff. vm_compute. reflexivity.
    + vm_compute. reflexivity.
Defined.

(** C5 as stated fails: a 100 x 100 wall with one default door (80 x 210)
    has gross area 1 m2 and opening area 1.68 m2; the net area is 0, not
    the difference -0.68 m2. *)
Lemma wall_net_area_counterexample :
  let wall := Examples.wallWithBigDoor in
  let s := Statistics.calculateWallStats wall north None DEFAULT_ESTIMATE_CONFIG in
  Statistics.wst_area s == 1
  /\ Statistics.wst_openingsArea s == 168 # 100
  /\ Statistics.wst_areaWithoutOpenings s == 0
  /\ ~ (Statistics.wst_areaWithoutOpenings s
        == (Spec.grossCm2 wall None
            - Spec.openingsSum None (Spec.wallOpenings wall)) / 10000).
Proof.
  repeat split; try (vm_compute; reflexivity).
  vm_compute. discriminate.
Qed.

(* ------------------------------------------------------------------ *)
(** ** Statistics engine: room type inference *)

(** Case analysis on one keyword test; [finish] closes the branch in which
    the keyword is found. *)
Ltac case_keyword s kw finish :=
  destruct (JS.includes s kw); cbn [orb find existsb]; [solve [finish] | ].

(** The keyword tests in the order in which [getRoomType] evaluates them *)
Ltac case_keywords id name finish :=
  case_keyword id "sala"%string finish;
  case_keyword name "sala"%string finish;
  case_keyword id "cozinha"%string finish;
  case_keyword name "cozinha"%string finish;
  case_keyword id "banheiro"%string finish;
  case_keyword name "banheiro"%string finish;
  case_keyword name "wc"%string finish;
  case_keyword id "quarto"%string finish;
  case_keyword name "quarto"%string finish;
  case_keyword name "dormit"%string finish;
  case_keyword id "servico"%string finish;
  case_keyword name "servico"%string finish;
  case_keyword name "lavanderia"%string finish.

(** C8 (as amended). For every room the inferred type is decided by
    case-insensitive substring matching, testing the rows sala, cozinha,
    banheiro, quarto, servico in this order, the first match winning and no
    match giving "default"; the keywords sala, cozinha, banheiro, quarto and
    servico are looked up in the id and in the name, while wc, dormit and
    lavanderia are looked up in the name only.  In particular a room whose
    name contains "wc" (and neither id nor name contains sala or cozinha) is
    a bathroom. *)
Theorem room_type_by_table :
  (forall room : Room,
      Statistics.getRoomType room
      = Spec.roomTypeBy Spec.keywordsAliasNameOnly room)
  /\ (forall room : Room,
        let id := JS.toLowerCase (room_id room) in
        let name := JS.toLowerCase (JS.orElse (room_name room) EmptyString) in
        JS.includes name "wc" = true ->
        JS.includes id "sala" = false -> JS.includes name "sala" = false ->
        JS.includes id "cozinha" = false -> JS.includes name "cozinha" = false ->
        Statistics.getRoomType room = "banheiro"%string).
Proof.
  split.
  - intro room.
    unfold Statistics.getRoomType, Spec.roomTypeBy, Spec.keywordsAliasNameOnly.
    set (id := JS.toLowerCase (room_id room)).
    set (name := JS.toLowerCase (JS.orElse (room_name room) EmptyString)).
    cbn [find Spec.rowMatches existsb].
    case_keywords id name ltac:(reflexivity). reflexivity.
  - intros room id name Hwc H1 H2 H3 H4.
    unfold Statistics.getRoomType. fold id. fold name.
    rewrite Hwc, H1, H2, H3, H4.
    cbn [orb]. rewrite orb_true_r. reflexivity.
Qed.

Lemma room_type_by_table_witness :
  Statistics.getRoomType Examples.roomWcName = "banheiro"%string.
Proof.
  apply (proj2 room_type_by_table Examples.roomWcName); reflexivity.
Defined.

(** C8 as stated fails: the room with id "wc" and no name contains the
    keyword in its id, and matching every keyword against the id would make
    it a bathroom, but [getRoomType] answers "default". *)
Lemma room_type_wc_id_counterexample :
  JS.includes (JS.toLowerCase (room_id Examples.roomWcId)) "wc" = true
  /\ Spec.roomTypeBy Spec.keywordsIdAndName Examples.roomWcId = "banheiro"%string
  /\ Statistics.getRoomType Examples.roomWcId = "default"%string
  /\ Statistics.getRoomType Examples.roomWcId
     <> Spec.roomTypeBy Spec.keywordsIdAndName Examples.roomWcId.
Proof.
  repeat split; try reflexivity. vm_compute. discriminate.
Qed.

(** The inferred type is always one of the six keys of the electrical table. *)
Lemma room_type_is_known (room : Room) :
  In (Statistics.getRoomType room)
     ["sala"; "cozinha"; "banheiro"; "quarto"; "area-servico"; "default"]%string.
Proof.
  unfold Statistics.getRoomType.
  set (id := JS.toLowerCase (room_id room)).
  set (name := JS.toLowerCase (JS.orElse (room_name room) EmptyString)).
  case_keywords id name ltac:(cbn; tauto). cbn; tauto.
Qed.

(* ------------------------------------------------------------------ *)
(** ** Pairwise loops *)

Section PairLoops.

Context {A B : Type}.

Lemma forPairs_In (body : A -> A -> list B) (xs : list A) (b : B) :
  In b (JS.forPairs body xs)
  <-> exists x y, Spec.before x y xs /\ In b (body x y).
Proof.
  induction xs as [|z rest IH]; simpl.
  - split; [tauto|]. intros (x & y & [] & _).
  - rewrite in_app_iff, in_flat_map, IH. split.
    + intros [(y & Hy & Hb)|(x & y & Hxy & Hb)].
      * exists z, y. auto.
      * exists x, y. auto.
    + intros (x & y & [[-> Hy]|Hxy] & Hb).
      * left. exists y. auto.
      * right. exists x, y. auto.
Qed.

Lemma before_In (x y : A) (xs : list A) :
  Spec.before x y xs -> In x xs /\ In y xs.
Proof.
  induction xs as [|z rest IH]; simpl; [tauto|].
  intros [[-> Hy]|H]; [auto|]. destruct (IH H). auto.
Qed.

(** [before] is exactly "at two positions i < j" *)
Lemma before_nth (x y : A) (xs : list A) :
  Spec.before x y xs
  <-> exists i j, (i < j)%nat /\ nth_error xs i = Some x /\ nth_error xs j = Some y.
Proof.
  induction xs as [|z rest IH]; simpl.
  - split; [tauto|]. intros (i & j & _ & Hi & _). destruct i; discriminate.
  - rewrite IH. split.
    + intros [[-> Hy]|(i & j & Hij & Hi & Hj)].
      * apply In_nth_error in Hy. destruct Hy as [j Hj].
        exists 0%nat, (S j). repeat split; [lia|exact Hj].
      * exists (S i), (S j). repeat split; [lia|exact Hi|exact Hj].
    + intros (i & j & Hij & Hi & Hj).
      destruct j as [|j]; [lia|]. simpl in Hj.
      destruct i as [|i]; simpl in Hi.
      * left. split; [congruence|]. eapply nth_error_In; eauto.
      * right. exists i, j. repeat split; [lia|exact Hi|exact Hj].
Qed.

Lemma before_app (x y : A) (l1 l2 : list A) :
  Spec.before x y (l1 ++ l2)
  <-> Spec.before x y l1 \/ (In x l1 /\ In y l2) \/ Spec.before x y l2.
Proof.
  induction l1 as [|z rest IH]; simpl.
  - tauto.
  - rewrite IH, in_app_iff. intuition (subst; auto).
Qed.

End PairLoops.

Lemma before_map {A B : Type} (f : A -> B) (a b : B) (xs : list A) :
  Spec.before a b (map f xs)
  <-> exists x y, Spec.before x y xs /\ a = f x /\ b = f y.
Proof.
  induction xs as [|z rest IH]; simpl.
  - split; [tauto|]. intros (x & y & [] & _).
  - rewrite IH, in_map_iff. split.
    + intros [[Hz (y & Hy & Hin)]|(x & y & H & Ha & Hb)].
      * exists z, y. auto.
      * exists x, y. auto.
    + intros (x & y & [[-> Hin]|H] & -> & ->).
      * left. split; [reflexivity|]. exists y. auto.
      * right. exists x, y. auto.
Qed.

Lemma before_flat_map {A B : Type} (g : A -> list B) (a b : B) (xs : list A) :
  Spec.before a b (flat_map g xs)
  <-> (exists x, In x xs /\ Spec.before a b (g x))
      \/ (exists x y, Spec.before x y xs /\ In a (g x) /\ In b (g y)).
Proof.
  induction xs as [|z rest IH]; simpl.
  - split; [tauto|]. intros [(x & [] & _)|(x & y & [] & _)].
  - rewrite before_app, IH, in_flat_map. split.
    + intros [H|[[Ha (y & Hy & Hb)]|[(x & Hx & H)|(x & y & H & Ha & Hb)]]].
      * left. exists z. auto.
      * right. exists z, y. auto.
      * left. exists x. auto.
      * right. exists x, y. auto.
    + intros [(x & [->|Hx] & H)|(x & y & [[-> Hy]|H] & Ha & Hb)].
      * auto.
      * right. right. left. exists x. auto.
      * right. left. split; [exact Ha|]. exists y. auto.
      * right. right. right. exists x, y. auto.
Qed.

(** Elements with unique keys are determined by their key. *)
Lemma NoDup_key_inj {A K : Type} (key : A -> K) (xs : list A) (a b : A) :
  NoDup (map key xs) -> In a xs -> In b xs -> key a = key b -> a = b.
Proof.
  induction xs as [|z rest IH]; simpl; [tauto|].
  intros Hnd Ha Hb Hk. inversion Hnd as [|k ks Hnotin Hrest]; subst.
  destruct Ha as [->|Ha], Hb as [->|Hb]; auto.
  - exfalso. apply Hnotin. rewrite Hk. apply in_map. exact Hb.
  - exfalso. apply Hnotin. rewrite <- Hk. apply in_map. exact Ha.
Qed.


Lemma filter_none {A : Type} (f : A -> bool) (xs : list A) :
  (forall x, In x xs -> f x = false) -> filter f xs = [].
Proof.
  induction xs as [|z rest IH]; simpl; intro H; [reflexivity|].
  rewrite (H z) by auto. apply IH. auto.
Qed.

Lemma filter_all {A : Type} (f : A -> bool) (xs : list A) :
  (forall x, In x xs -> f x = true) -> filter f xs = xs.
Proof.
  induction xs as [|z rest IH]; simpl; intro H; [reflexivity|].
  rewrite (H z) by auto. f_equal. apply IH. auto.
Qed.

(* ------------------------------------------------------------------ *)
(** ** Validation engine: where each issue comes from *)

Lemma validate_In (fp : FloorPlan) (issue : Validation.ValidationIssue) :
  In issue (Validation.validateFloorPlan fp)
  <-> In issue (Validation.detectInvalidDimensions (floor_rooms (fp_floor fp)))
      \/ In issue (Validation.detectOverlaps (floor_rooms (fp_floor fp)))
      \/ In issue (Validation.detectDuplicateWalls (floor_rooms (fp_floor fp))).
Proof.
  unfold Validation.validateFloorPlan.
  destruct (floor_rooms (fp_floor fp)) as [|r rest].
  - cbn. tauto.
  - rewrite !in_app_iff. tauto.
Qed.

Lemma invalid_dimensions_In (rooms : list Room) (issue : Validation.ValidationIssue) :
  In issue (Validation.detectInvalidDimensions rooms)
  <-> exists room, In room rooms
                   /\ (roomWidth room <= 0 \/ roomHeight room <= 0)
                   /\ issue = Validation.invalidDimensionIssue room.
Proof.
  unfold Validation.detectInvalidDimensions. rewrite in_flat_map.
  split; intros (room & Hin & H); exists room; (split; [exact Hin|]).
  - cbn [Validation.getRoomBounds Validation.rb_width Validation.rb_height] in H.
    destruct (JS.leb (roomWidth room) 0 || JS.leb (roomHeight room) 0)%bool eqn:E.
    + destruct H as [<-|[]]. split; [|reflexivity].
      apply orb_true_iff in E. rewrite !leb_true_iff in E. exact E.
    + destruct H.
  - destruct H as [Hdim ->].
    cbn [Validation.getRoomBounds Validation.rb_width Validation.rb_height].
    rewrite <- !leb_true_iff, <- orb_true_iff in Hdim. rewrite Hdim.
    left. reflexivity.
Qed.

Lemma rectanglesOverlap_spec (r1 r2 : Room) :
  (Spec.roomsOverlap r1 r2
   /\ Validation.rectanglesOverlap (Validation.getRoomBounds r1)
                                   (Validation.getRoomBounds r2)
      = Some (Spec.overlapRect r1 r2))
  \/ (~ Spec.roomsOverlap r1 r2
      /\ Validation.rectanglesOverlap (Validation.getRoomBounds r1)
                                      (Validation.getRoomBounds r2)
         = None).
Proof.
  unfold Validation.rectanglesOverlap, Spec.roomsOverlap, Spec.overlapRect,
    Spec.intersection, Spec.boxWidth, Spec.boxHeight, Spec.boxOf.
  cbn [Validation.getRoomBounds Validation.rb_x Validation.rb_y
       Validation.rb_width Validation.rb_height
       Spec.left Spec.right Spec.top Spec.bottom].
  match goal with
  | |- context [if (JS.gtb ?w 1 && JS.gtb ?h 1)%bool then _ else _] =>
      destruct (JS.gtb w 1) eqn:Ew; destruct (JS.gtb h 1) eqn:Eh; cbn [andb];
      [apply gtb_true_iff in Ew | apply gtb_true_iff in Ew
       | apply gtb_false_iff in Ew | apply gtb_false_iff in Ew];
      [apply gtb_true_iff in Eh | apply gtb_false_iff in Eh
       | apply gtb_true_iff in Eh | apply gtb_false_iff in Eh]
  end.
  - left. auto.
  - right. split; [|reflexivity]. intros [_ H]. apply (Qlt_not_le _ _ H Eh).
  - right. split; [|reflexivity]. intros [H _]. apply (Qlt_not_le _ _ H Ew).
  - right. split; [|reflexivity]. intros [H _]. apply (Qlt_not_le _ _ H Ew).
Qed.

Lemma overlaps_In (rooms : list Room) (issue : Validation.ValidationIssue) :
  In issue (Validation.detectOverlaps rooms)
  <-> exists r1 r2,
        Spec.before r1 r2 rooms /\ Spec.roomsOverlap r1 r2
        /\ issue = Validation.overlapIssue (Validation.getRoomBounds r1)
                                           (Validation.getRoomBounds r2)
                                           (Spec.overlapRect r1 r2).
Proof.
  unfold Validation.detectOverlaps. rewrite forPairs_In. split.
  - intros (b1 & b2 & Hb & Hin).
    apply before_map in Hb. destruct Hb as (r1 & r2 & Hb & -> & ->).
    exists r1, r2. split; [exact Hb|].
    unfold Validation.overlapStep in Hin.
    destruct (rectanglesOverlap_spec r1 r2) as [[Hov E]|[Hov E]];
      rewrite E in Hin; [|destruct Hin].
    destruct Hin as [<-|[]]. split; [exact Hov|reflexivity].
  - intros (r1 & r2 & Hb & Hov & ->).
    exists (Validation.getRoomBounds r1), (Validation.getRoomBounds r2).
    split; [apply before_map; exists r1, r2; auto|].
    unfold Validation.overlapStep.
    destruct (rectanglesOverlap_spec r1 r2) as [[_ E]|[Hn _]]; [|contradiction].
    rewrite E. left. reflexivity.
Qed.

Lemma duplicates_type (rooms : list Room) (issue : Validation.ValidationIssue) :
  In issue (Validation.detectDuplicateWalls rooms) ->
  Validation.issue_type issue = Validation.duplicate_wall.
Proof.
  unfold Validation.detectDuplicateWalls. rewrite forPairs_In.
  intros (w1 & w2 & _ & Hin). unfold Validation.duplicateStep in Hin.
  destruct (String.eqb _ _); [destruct Hin|].
  destruct (_ || _)%bool; [destruct Hin|].
  destruct (Validation.wallsOverlap w1 w2); [|destruct Hin].
  destruct Hin as [<-|[]]. reflexivity.
Qed.

(** The issues of type [overlap] of a validation run are those of
    [detectOverlaps], in the same order. *)
Lemma validate_overlap_issues (fp : FloorPlan) :
  filter (Spec.hasType Validation.overlap) (Validation.validateFloorPlan fp)
  = Validation.detectOverlaps (floor_rooms (fp_floor fp)).
Proof.
  unfold Validation.validateFloorPlan.
  destruct (floor_rooms (fp_floor fp)) as [|r rest] eqn:E; [reflexivity|].
  rewrite <- E. rewrite !filter_app.
  rewrite (filter_none _ (Validation.detectInvalidDimensions _)).
  2:{ intros x Hx. apply invalid_dimensions_In in Hx.
      destruct Hx as (room & _ & _ & ->). reflexivity. }
  rewrite (filter_none _ (Validation.detectDuplicateWalls _)).
  2:{ intros x Hx. apply duplicates_type in Hx.
      unfold Spec.hasType. rewrite Hx. reflexivity. }
  rewrite app_nil_r. cbn [app]. apply filter_all.
  intros x Hx. apply overlaps_In in Hx.
  destruct Hx as (r1 & r2 & _ & _ & ->). reflexivity.
Qed.

(* ------------------------------------------------------------------ *)
(** ** Validation engine: duplicate walls *)



Ltac case_Qeq_bool :=
  repeat match goal with
         | |- context [Qeq_bool ?a ?b] =>
             let E := fresh "E" in
             destruct (Qeq_bool a b) eqn:E;
             [apply Qeq_bool_iff in E | apply Qeq_bool_neq in E];
             cbn [Bool.eqb negb]
         end.

Ltac case_gtb :=
  repeat match goal with
         | |- context [JS.gtb ?a ?b] =>
             let G := fresh "G" in
             destruct (JS.gtb a b) eqn:G;
             [apply gtb_true_iff in G | apply gtb_false_iff in G]
         end.

Section SegmentPairs.

Variables w1 w2 : Validation.WallSegment.

(** Two segments the code takes for horizontal *)
Lemma wallsOverlap_horizontal :
  Validation.ws_y1 w1 == Validation.ws_y2 w1 ->
  Validation.ws_y1 w2 == Validation.ws_y2 w2 ->
  (Validation.wallsOverlap w1 w2 = true
   <-> Qabs (Validation.ws_y1 w1 - Validation.ws_y1 w2) <= 1
       /\ 1 < Spec.xOverlap w1 w2).
Proof.
  intros E1 E2. unfold Validation.wallsOverlap, JS.abs, Spec.xOverlap, Spec.rangeOverlap.
  cbn [fst snd].
  apply Qeq_bool_iff in E1, E2. rewrite E1, E2. cbn [Bool.eqb negb].
  case_gtb; split; try discriminate; try (intros _; split; assumption);
    try reflexivity; intros [Ha Hr]; exfalso.
  - apply (Qlt_not_le _ _ G Ha).
  - apply (Qlt_not_le _ _ Hr G0).
Qed.

(** Two segments the code takes for vertical *)
Lemma wallsOverlap_vertical :
  ~ Validation.ws_y1 w1 == Validation.ws_y2 w1 ->
  ~ Validation.ws_y1 w2 == Validation.ws_y2 w2 ->
  (Validation.wallsOverlap w1 w2 = true
   <-> Qabs (Validation.ws_x1 w1 - Validation.ws_x1 w2) <= 1
       /\ 1 < Spec.yOverlap w1 w2).
Proof.
  intros E1 E2. unfold Validation.wallsOverlap, JS.abs, Spec.yOverlap, Spec.rangeOverlap.
  cbn [fst snd].
  case_Qeq_bool; try contradiction.
  case_gtb; split; try discriminate; try (intros _; split; assumption);
    try reflexivity; intros [Ha Hr]; exfalso.
  - apply (Qlt_not_le _ _ G Ha).
  - apply (Qlt_not_le _ _ Hr G0).
Qed.

End SegmentPairs.



Lemma segment_roomId (room : Room) (side : WallSide) :
  Validation.ws_roomId (Validation.getWallSegment room side) = room_id room.
Proof. destruct side; reflexivity. Qed.

Lemma segment_exists (room : Room) (side : WallSide) :
  Validation.ws_exists (Validation.getWallSegment room side)
  = Spec.wallExists (wallAt (room_walls room) side).
Proof.
  unfold Spec.wallExists.
  destruct side; cbn; destruct (wall_exists _) as [[|]|]; reflexivity.
Qed.


(** Conversely a visited pair with two different room ids comes from two
    rooms of the plan, the first room coming first. *)
Lemma collectWalls_before_inv (rooms : list Room) (w1 w2 : Validation.WallSegment) :
  Spec.before w1 w2 (Validation.collectWalls rooms) ->
  Validation.ws_roomId w1 <> Validation.ws_roomId w2 ->
  exists r1 s1 r2 s2,
    Spec.before r1 r2 rooms
    /\ w1 = Validation.getWallSegment r1 s1
    /\ w2 = Validation.getWallSegment r2 s2.
Proof.
  unfold Validation.collectWalls. intros Hb Hneq.
  apply before_flat_map in Hb.
  destruct Hb as [(r & _ & Hb)|(r1 & r2 & Hb & H1 & H2)].
  - exfalso. apply before_In in Hb. destruct Hb as [H1 H2].
    apply in_map_iff in H1, H2.
    destruct H1 as (s1 & <- & _), H2 as (s2 & <- & _).
    apply Hneq. rewrite !segment_roomId. reflexivity.
  - apply in_map_iff in H1, H2.
    destruct H1 as (s1 & <- & _), H2 as (s2 & <- & _).
    exists r1, s1, r2, s2. auto.
Qed.

Lemma duplicates_In (rooms : list Room) (issue : Validation.ValidationIssue) :
  In issue (Validation.detectDuplicateWalls rooms)
  <-> exists w1 w2,
        Spec.before w1 w2 (Validation.collectWalls rooms)
        /\ Validation.ws_roomId w1 <> Validation.ws_roomId w2
        /\ Validation.ws_exists w1 = true /\ Validation.ws_exists w2 = true
        /\ Validation.wallsOverlap w1 w2 = true
        /\ issue = Validation.duplicateWallIssue w1 w2.
Proof.
  unfold Validation.detectDuplicateWalls. rewrite forPairs_In.
  split; intros (w1 & w2 & Hb & H); exists w1, w2; (split; [exact Hb|]).
  - unfold Validation.duplicateStep in H.
    destruct (String.eqb_spec (Validation.ws_roomId w1) (Validation.ws_roomId w2))
      as [|Hneq]; [destruct H|].
    destruct (Validation.ws_exists w1); [|destruct H].
    destruct (Validation.ws_exists w2); [|destruct H].
    cbn [negb orb] in H.
    destruct (Validation.wallsOverlap w1 w2); [|destruct H].
    destruct H as [<-|[]]. auto.
  - destruct H as (Hneq & He1 & He2 & Hov & ->).
    unfold Validation.duplicateStep.
    apply String.eqb_neq in Hneq. rewrite Hneq, He1, He2, Hov.
    left. reflexivity.
Qed.

(** C10. [validateFloorPlan] does not read the top-level scale: for every
    plan and any two values of the scale field (present or absent) it returns
    the same list of issues. *)
Theorem validation_ignores_scale
    (version : string) (unit : Unit) (defaults : option Defaults) (floor : Floor)
    (scale1 scale2 : option Q) :
  Validation.validateFloorPlan (mkFloorPlan version unit scale1 defaults floor)
  = Validation.validateFloorPlan (mkFloorPlan version unit scale2 defaults floor).
Proof. reflexivity. Qed.

(** The geometry, by contrast, follows the scale. *)
Example geometry_follows_scale :
  Geometry.fg_width
    (Geometry.calculateFloorGeometry (Examples.planOf (Some 1) [Examples.roomA])) == 300
  /\ Geometry.fg_width
       (Geometry.calculateFloorGeometry (Examples.planOf None [Examples.roomA])) == 60.
Proof. split; vm_compute; reflexivity. Qed.

(* ------------------------------------------------------------------ *)
(** ** Degenerate rooms *)

Lemma Qmult_nonpos_nonneg (a b : Q) : a <= 0 -> 0 <= b -> a * b <= 0.
Proof.
  intros Ha Hb.
  assert (H : 0 <= (- a) * b) by (apply Qmult_le_0_compat; lra).
  lra.
Qed.

Lemma stats_rooms (fp : FloorPlan) (config : EstimateConfig) :
  Statistics.ms_rooms
    (Statistics.measurements (Statistics.calculateFloorPlanStats fp config))
  = map (fun room => Statistics.calculateRoomStats room (fp_defaults fp) config)
        (floor_rooms (fp_floor fp)).
Proof. reflexivity. Qed.

(** A wall of non-positive length contributes no net area and no bricks. *)
Lemma short_wall_contributes_nothing (wall : Wall) (side : WallSide)
    (defaults : option Defaults) (config : EstimateConfig) :
  Spec.wallLength wall <= 0 ->
  0 <= Spec.wallHeight wall defaults ->
  0 <= Spec.openingsSum defaults (Spec.wallOpenings wall) ->
  let s := Statistics.calculateWallStats wall side defaults config in
  Statistics.wst_area s <= 0
  /\ Statistics.wst_areaWithoutOpenings s == 0
  /\ Statistics.wst_brickCount s == 0.
Proof.
  intros Hl Hh Ho s.
  assert (Hgross : Spec.grossCm2 wall defaults <= 0)
    by (apply Qmult_nonpos_nonneg; assumption).
  assert (Hnet : Spec.netCm2 wall defaults == 0).
  { unfold Spec.netCm2.
    destruct (Q.max_spec 0 (Spec.grossCm2 wall defaults
                            - Spec.openingsSum defaults (Spec.wallOpenings wall)))
      as [[H1 E]|[H1 E]]; rewrite E; lra. }
  subst s. unfold Statistics.calculateWallStats.
  cbn [Statistics.wst_area Statistics.wst_areaWithoutOpenings
       Statistics.wst_brickCount].
  unfold Statistics.cm2ToM2.
  split; [|split].
  - rewrite wall_gross_cm2.
    unfold Qdiv. apply Qmult_nonpos_nonneg; [exact Hgross|].
    apply Qle_bool_iff. reflexivity.
  - rewrite wall_net_cm2, Hnet. reflexivity.
  - destruct (JS.notFalse (wall_exists wall)); [|reflexivity].
    unfold Statistics.calculateBrickCount, JS.ceil.
    rewrite wall_net_cm2, Hnet.
    match goal with
    | |- inject_Z (Qceiling ?x) == 0 =>
        assert (Hx : x == 0) by (unfold Qdiv; ring);
        rewrite (Qceiling_comp _ _ Hx)
    end.
    reflexivity.
Qed.

(** C6 (as amended). For every room of a plan whose north and south wall
    lengths are both 0 or negative (its effective width is then not
    positive), [validateFloorPlan] returns an invalid-dimension error naming
    that room; in [calculateFloorPlanStats] the room's floor area is not
    positive when its effective height is non-negative, and its north and
    south walls, when their resolved height and the areas of their openings
    are non-negative and the brick unit area is not 0, have net area 0 and
    brick count 0. *)
Theorem degenerate_room_flagged
    (fp : FloorPlan) (config : EstimateConfig) (room : Room) :
  In room (floor_rooms (fp_floor fp)) ->
  Spec.wallLength (w_north (room_walls room)) <= 0 ->
  Spec.wallLength (w_south (room_walls room)) <= 0 ->
  let rs := Statistics.calculateRoomStats room (fp_defaults fp) config in
  (exists issue,
      In issue (Validation.validateFloorPlan fp)
      /\ Validation.issue_type issue = Validation.invalid_dimension
      /\ Validation.severity issue = Validation.error
      /\ Validation.roomIds issue = [room_id room])
  /\ In rs (Statistics.ms_rooms
              (Statistics.measurements (Statistics.calculateFloorPlanStats fp config)))
  /\ (0 <= roomHeight room -> Statistics.rs_floorArea rs <= 0)
  /\ (forall side : WallSide,
         side = north \/ side = south ->
         let wall := wallAt (room_walls room) side in
         let s := Statistics.calculateWallStats wall side (fp_defaults fp) config in
         In s (Statistics.rs_walls rs)
         /\ (0 <= Spec.wallHeight wall (fp_defaults fp) ->
             0 <= Spec.openingsSum (fp_defaults fp) (Spec.wallOpenings wall) ->
             ~ Spec.brickUnitArea config == 0 ->
             Statistics.wst_area s <= 0
             /\ Statistics.wst_areaWithoutOpenings s == 0
             /\ Statistics.wst_brickCount s == 0)).
Proof.
  intros Hin Hn Hs rs.
  assert (Hw : roomWidth room <= 0).
  { unfold roomWidth. apply Q.max_lub.
    - unfold Spec.wallLength in Hn. destruct (wall_length _); exact Hn.
    - unfold Spec.wallLength in Hs. destruct (wall_length _); exact Hs. }
  split; [|split; [|split]].
  - exists (Validation.invalidDimensionIssue room).
    split; [|repeat split].
    apply validate_In. left. apply invalid_dimensions_In.
    exists room. auto.
  - rewrite stats_rooms. subst rs.
    apply (in_map (fun room => Statistics.calculateRoomStats room (fp_defaults fp) config)).
    exact Hin.
  - intro Hh. subst rs. unfold Statistics.calculateRoomStats.
    cbn [Statistics.rs_floorArea]. unfold Statistics.cm2ToM2, Qdiv.
    apply Qmult_nonpos_nonneg; [|apply Qle_bool_iff; reflexivity].
    apply Qmult_nonpos_nonneg; assumption.
  - intros side Hside wall s. split.
    + subst rs s wall. unfold Statistics.calculateRoomStats.
      cbn [Statistics.rs_walls].
      apply (in_map (fun side => Statistics.calculateWallStats
                                   (wallAt (room_walls room) side) side
                                   (fp_defaults fp) config)).
      destruct side; simpl; tauto.
    + intros Hh Ho _. apply short_wall_contributes_nothing; try assumption.
      subst wall. destruct Hside as [->| ->]; assumption.
Qed.

Lemma degenerate_room_flagged_witness :
  (exists issue,
      In issue (Validation.validateFloorPlan Examples.planFlat)
      /\ Validation.issue_type issue = Validation.invalid_dimension
      /\ Validation.severity issue = Validation.error
      /\ Validation.roomIds issue = ["r2"%string])
  /\ Statistics.rs_floorArea
       (Statistics.calculateRoomStats Examples.roomFlat None DEFAULT_ESTIMATE_CONFIG)
     <= 0
  /\ Statistics.wst_brickCount
       (Statistics.calculateWallStats (w_north (room_walls Examples.roomFlat))
                                      north None DEFAULT_ESTIMATE_CONFIG) == 0.
Proof.
  destruct (degenerate_room_flagged Examples.planFlat DEFAULT_ESTIMATE_CONFIG
              Examples.roomFlat) as (Hissue & _ & Harea & Hwalls).
  - simpl. tauto.
  - apply Qle_bool_iff. reflexivity.
  - apply Qle_bool_iff. reflexivity.
  - split; [exact Hissue|]. split.
    + apply Harea. apply Qle_bool_iff. reflexivity.
    + destruct (Hwalls north (or_introl eq_refl)) as [_ Hnorth].
      apply Hnorth.
      * apply Qle_bool_iff. reflexivity.
      * apply Qle_bool_iff. reflexivity.
      * vm_compute. discriminate.
Defined.

(** C6 as stated fails: a room whose north wall has length 0 while its
    south wall has length 400 (east and west 300) has effective width 400;
    no invalid-dimension error is returned for it, and it contributes a
    floor area of 12 m2 and a positive number of bricks. *)
Lemma north_zero_counterexample :
  Spec.wallLength (w_north (room_walls Examples.roomNorthZero)) <= 0
  /\ Validation.validateFloorPlan Examples.planNorthZero = []
  /\ Statistics.totalFloorArea
       (Statistics.measurements
          (Statistics.calculateFloorPlanStats Examples.planNorthZero
                                              DEFAULT_ESTIMATE_CONFIG)) == 12
  /\ Statistics.bricks
       (Statistics.mat_masonry
          (Statistics.materials
             (Statistics.calculateFloorPlanStats Examples.planNorthZero
                                                 DEFAULT_ESTIMATE_CONFIG))) == 980.
Proof.
  split; [apply Qle_bool_iff; reflexivity|].
  repeat split; vm_compute; reflexivity.
Qed.

(* ------------------------------------------------------------------ *)
(** ** Validation engine: shape and order of the issue list *)

Lemma invalid_dimensions_type (rooms : list Room) (issue : Validation.ValidationIssue) :
  In issue (Validation.detectInvalidDimensions rooms) ->
  Validation.issue_type issue = Validation.invalid_dimension.
Proof.
  intro H. apply invalid_dimensions_In in H.
  destruct H as (room & _ & _ & ->). reflexivity.
Qed.

Lemma overlaps_type (rooms : list Room) (issue : Validation.ValidationIssue) :
  In issue (Validation.detectOverlaps rooms) ->
  Validation.issue_type issue = Validation.overlap.
Proof.
  intro H. apply overlaps_In in H.
  destruct H as (r1 & r2 & _ & _ & ->). reflexivity.
Qed.

Lemma validate_parts (fp : FloorPlan) :
  Validation.validateFloorPlan fp
  = Validation.detectInvalidDimensions (floor_rooms (fp_floor fp))
    ++ Validation.detectOverlaps (floor_rooms (fp_floor fp))
    ++ Validation.detectDuplicateWalls (floor_rooms (fp_floor fp)).
Proof.
  unfold Validation.validateFloorPlan.
  destruct (floor_rooms (fp_floor fp)); reflexivity.
Qed.

Lemma hasType_true (t : Validation.IssueType) (issue : Validation.ValidationIssue) :
  Validation.issue_type issue = t -> Spec.hasType t issue = true.
Proof. intros <-. unfold Spec.hasType. destruct (Validation.issue_type issue); reflexivity. Qed.

Lemma hasType_false (t : Validation.IssueType) (issue : Validation.ValidationIssue) :
  Validation.issue_type issue <> t -> Spec.hasType t issue = false.
Proof.
  unfold Spec.hasType. destruct t, (Validation.issue_type issue); congruence.
Qed.

Lemma validate_invalid_issues (fp : FloorPlan) :
  filter (Spec.hasType Validation.invalid_dimension) (Validation.validateFloorPlan fp)
  = Validation.detectInvalidDimensions (floor_rooms (fp_floor fp)).
Proof.
  rewrite validate_parts, !filter_app.
  rewrite (filter_all _ (Validation.detectInvalidDimensions _))
    by (intros x Hx; apply hasType_true, (invalid_dimensions_type _ _ Hx)).
  rewrite (filter_none _ (Validation.detectOverlaps _))
    by (intros x Hx; apply hasType_false; rewrite (overlaps_type _ _ Hx); discriminate).
  rewrite (filter_none _ (Validation.detectDuplicateWalls _))
    by (intros x Hx; apply hasType_false; rewrite (duplicates_type _ _ Hx); discriminate).
  rewrite !app_nil_r. reflexivity.
Qed.

Lemma validate_duplicate_issues (fp : FloorPlan) :
  filter (Spec.hasType Validation.duplicate_wall) (Validation.validateFloorPlan fp)
  = Validation.detectDuplicateWalls (floor_rooms (fp_floor fp)).
Proof.
  rewrite validate_parts, !filter_app.
  rewrite (filter_none _ (Validation.detectInvalidDimensions _))
    by (intros x Hx; apply hasType_false;
        rewrite (invalid_dimensions_type _ _ Hx); discriminate).
  rewrite (filter_none _ (Validation.detectOverlaps _))
    by (intros x Hx; apply hasType_false; rewrite (overlaps_type _ _ Hx); discriminate).
  rewrite (filter_all _ (Validation.detectDuplicateWalls _))
    by (intros x Hx; apply hasType_true, (duplicates_type _ _ Hx)).
  reflexivity.
Qed.

(** X1. The issue list is grouped by category, in the order
    invalid-dimension, overlap, duplicate-wall; in particular every error
    comes before every warning. *)
Theorem issues_grouped_by_type (fp : FloorPlan) :
  let v := Validation.validateFloorPlan fp in
  v = filter (Spec.hasType Validation.invalid_dimension) v
      ++ filter (Spec.hasType Validation.overlap) v
      ++ filter (Spec.hasType Validation.duplicate_wall) v
  /\ exists errors warnings,
       v = errors ++ warnings
       /\ Forall (fun i => Validation.severity i = Validation.error) errors
       /\ Forall (fun i => Validation.severity i = Validation.warning) warnings.
Proof.
  intro v. subst v. split.
  - rewrite validate_invalid_issues, validate_overlap_issues,
      validate_duplicate_issues. apply validate_parts.
  - exists (Validation.detectInvalidDimensions (floor_rooms (fp_floor fp))
            ++ Validation.detectOverlaps (floor_rooms (fp_floor fp))),
           (Validation.detectDuplicateWalls (floor_rooms (fp_floor fp))).
    split; [rewrite validate_parts, app_assoc; reflexivity|].
    split; apply Forall_forall; intros x Hx.
    + apply in_app_iff in Hx. destruct Hx as [Hx|Hx].
      * apply invalid_dimensions_In in Hx. destruct Hx as (r & _ & _ & ->). reflexivity.
      * apply overlaps_In in Hx. destruct Hx as (r1 & r2 & _ & _ & ->). reflexivity.
    + apply duplicates_In in Hx.
      destruct Hx as (w1 & w2 & _ & _ & _ & _ & _ & ->). reflexivity.
Qed.

(** X2. There is exactly one invalid-dimension issue per room whose
    effective width or height is not positive, in room order, each naming
    that room alone. *)
Theorem one_issue_per_degenerate_room (fp : FloorPlan) :
  filter (Spec.hasType Validation.invalid_dimension) (Validation.validateFloorPlan fp)
  = map Validation.invalidDimensionIssue
        (filter Spec.degenerate (floor_rooms (fp_floor fp)))
  /\ map Validation.roomIds
         (filter (Spec.hasType Validation.invalid_dimension)
                 (Validation.validateFloorPlan fp))
     = map (fun room => [room_id room])
           (filter Spec.degenerate (floor_rooms (fp_floor fp))).
Proof.
  assert (H : Validation.detectInvalidDimensions (floor_rooms (fp_floor fp))
              = map Validation.invalidDimensionIssue
                    (filter Spec.degenerate (floor_rooms (fp_floor fp)))).
  { unfold Validation.detectInvalidDimensions.
    induction (floor_rooms (fp_floor fp)) as [|r rest IH]; [reflexivity|].
    cbn [flat_map filter]. rewrite IH. unfold Spec.degenerate at 2.
    cbn [Validation.getRoomBounds Validation.rb_width Validation.rb_height].
    destruct (JS.leb (roomWidth r) 0 || JS.leb (roomHeight r) 0)%bool; reflexivity. }
  rewrite validate_invalid_issues, H. split; [reflexivity|].
  rewrite map_map. reflexivity.
Qed.

(** X3. Every issue has the shape of its category: an invalid-dimension
    issue is an error naming one room, without details; an overlap issue is
    an error naming two rooms and carrying an overlap rectangle; a
    duplicate-wall issue is a warning naming two rooms with different ids
    and carrying a wall side and a wall position.  A room is never reported
    as having a duplicate wall with itself. *)
Theorem issue_shape (fp : FloorPlan) (issue : Validation.ValidationIssue) :
  In issue (Validation.validateFloorPlan fp) ->
  match Validation.issue_type issue with
  | Validation.invalid_dimension =>
      Validation.severity issue = Validation.error
      /\ (exists a, Validation.roomIds issue = [a])
      /\ Validation.details issue = None
  | Validation.overlap =>
      Validation.severity issue = Validation.error
      /\ (exists a b, Validation.roomIds issue = [a; b])
      /\ (exists area, Validation.details issue
                       = Some {| Validation.wallSide := None;
                                 Validation.overlapArea := Some area;
                                 Validation.wallPosition := None |})
  | Validation.duplicate_wall =>
      Validation.severity issue = Validation.warning
      /\ (exists a b, Validation.roomIds issue = [a; b] /\ a <> b)
      /\ (exists side position,
             Validation.details issue
             = Some {| Validation.wallSide := Some side;
                       Validation.overlapArea := None;
                       Validation.wallPosition := Some position |})
  end.
Proof.
  intro Hin. apply validate_In in Hin. destruct Hin as [Hin|[Hin|Hin]].
  - apply invalid_dimensions_In in Hin. destruct Hin as (r & _ & _ & ->).
    cbn. repeat split. eauto.
  - apply overlaps_In in Hin. destruct Hin as (r1 & r2 & _ & _ & ->).
    cbn. repeat split; eauto.
  - apply duplicates_In in Hin.
    destruct Hin as (w1 & w2 & _ & Hneq & _ & _ & _ & ->).
    cbn. repeat split; eauto.
Qed.

Lemma issue_shape_witness :
  exists a b,
    Validation.roomIds
      (Validation.duplicateWallIssue
         (Validation.getWallSegment Examples.roomL east)
         (Validation.getWallSegment Examples.roomR west)) = [a; b]
    /\ a <> b.
Proof.
  destruct (issue_shape Examples.adjacentPlan
              (Validation.duplicateWallIssue
                 (Validation.getWallSegment Examples.roomL east)
                 (Validation.getWallSegment Examples.roomR west))
              (or_introl eq_refl)) as (_ & H & _).
  exact H.
Defined.

(* ------------------------------------------------------------------ *)
(** ** Validation engine: the order of a pair does not matter *)

Lemma gtb_compat (a b c d : Q) : a == c -> b == d -> JS.gtb a b = JS.gtb c d.
Proof.
  intros H1 H2. unfold JS.gtb, JS.ltb. f_equal.
  destruct (Qle_bool a b) eqn:E1, (Qle_bool c d) eqn:E2; try reflexivity.
  - apply Qle_bool_iff in E1. rewrite H1, H2 in E1.
    apply Qle_bool_iff in E1. congruence.
  - apply Qle_bool_iff in E2. rewrite <- H1, <- H2 in E2.
    apply Qle_bool_iff in E2. congruence.
Qed.

Lemma rangeOverlap_sym (a b : Q * Q) :
  Spec.rangeOverlap a b == Spec.rangeOverlap b a.
Proof.
  unfold Spec.rangeOverlap.
  rewrite (Q.min_comm (snd a) (snd b)), (Q.max_comm (fst a) (fst b)). reflexivity.
Qed.

Lemma Qabs_minus_sym (a b : Q) : Qabs (a - b) == Qabs (b - a).
Proof.
  rewrite <- (Qabs_opp (a - b)).
  assert (E : - (a - b) == b - a) by ring. rewrite E. reflexivity.
Qed.

Lemma Qeq_bool_false (a b : Q) : ~ a == b -> Qeq_bool a b = false.
Proof.
  intro H. destruct (Qeq_bool a b) eqn:E; [|reflexivity].
  apply Qeq_bool_iff in E. contradiction.
Qed.

Lemma wallsOverlap_mismatch (w1 w2 : Validation.WallSegment) :
  Qeq_bool (Validation.ws_y1 w1) (Validation.ws_y2 w1)
  <> Qeq_bool (Validation.ws_y1 w2) (Validation.ws_y2 w2) ->
  Validation.wallsOverlap w1 w2 = false.
Proof.
  intro H. unfold Validation.wallsOverlap.
  destruct (Qeq_bool (Validation.ws_y1 w1) (Validation.ws_y2 w1)),
           (Qeq_bool (Validation.ws_y1 w2) (Validation.ws_y2 w2));
    try reflexivity; congruence.
Qed.

Lemma wallsOverlap_sym_true (w1 w2 : Validation.WallSegment) :
  Validation.wallsOverlap w1 w2 = true -> Validation.wallsOverlap w2 w1 = true.
Proof.
  intro H.
  destruct (Qeq_dec (Validation.ws_y1 w1) (Validation.ws_y2 w1)) as [E1|E1];
    destruct (Qeq_dec (Validation.ws_y1 w2) (Validation.ws_y2 w2)) as [E2|E2].
  - apply wallsOverlap_horizontal in H; try assumption.
    apply wallsOverlap_horizontal; try assumption.
    unfold Spec.xOverlap in *. rewrite rangeOverlap_sym, Qabs_minus_sym. exact H.
  - rewrite wallsOverlap_mismatch in H; [discriminate|].
    apply Qeq_bool_iff in E1. apply Qeq_bool_false in E2. congruence.
  - rewrite wallsOverlap_mismatch in H; [discriminate|].
    apply Qeq_bool_iff in E2. apply Qeq_bool_false in E1. congruence.
  - apply wallsOverlap_vertical in H; try assumption.
    apply wallsOverlap_vertical; try assumption.
    unfold Spec.yOverlap in *. rewrite rangeOverlap_sym, Qabs_minus_sym. exact H.
Qed.

(** X4. Both pairwise tests are symmetric: swapping the two wall segments
    does not change the answer of [wallsOverlap], and swapping the two
    rooms does not change whether [rectanglesOverlap] finds an overlap. *)
Theorem pair_tests_symmetric :
  (forall w1 w2 : Validation.WallSegment,
      Validation.wallsOverlap w1 w2 = Validation.wallsOverlap w2 w1)
  /\ (forall r1 r2 : Validation.RoomBounds,
         Validation.rectanglesOverlap r1 r2 = None
         <-> Validation.rectanglesOverlap r2 r1 = None).
Proof.
  split.
  - intros w1 w2.
    destruct (Validation.wallsOverlap w1 w2) eqn:E1,
             (Validation.wallsOverlap w2 w1) eqn:E2; try reflexivity.
    + apply wallsOverlap_sym_true in E1. congruence.
    + apply wallsOverlap_sym_true in E2. congruence.
  - assert (H : forall r1 r2,
               Validation.rectanglesOverlap r1 r2 = None ->
               Validation.rectanglesOverlap r2 r1 = None).
    { intros r1 r2. unfold Validation.rectanglesOverlap.
      rewrite (gtb_compat
                 (Qmin (Validation.rb_x r2 + Validation.rb_width r2)
                       (Validation.rb_x r1 + Validation.rb_width r1)
                  - Qmax (Validation.rb_x r2) (Validation.rb_x r1)) 1
                 (Qmin (Validation.rb_x r1 + Validation.rb_width r1)
                       (Validation.rb_x r2 + Validation.rb_width r2)
                  - Qmax (Validation.rb_x r1) (Validation.rb_x r2)) 1)
        by (try reflexivity; rewrite Q.min_comm, Q.max_comm; reflexivity).
      rewrite (gtb_compat
                 (Qmin (Validation.rb_y r2 + Validation.rb_height r2)
                       (Validation.rb_y r1 + Validation.rb_height r1)
                  - Qmax (Validation.rb_y r2) (Validation.rb_y r1)) 1
                 (Qmin (Validation.rb_y r1 + Validation.rb_height r1)
                       (Validation.rb_y r2 + Validation.rb_height r2)
                  - Qmax (Validation.rb_y r1) (Validation.rb_y r2)) 1)
        by (try reflexivity; rewrite Q.min_comm, Q.max_comm; reflexivity).
      destruct (_ && _)%bool; [discriminate|reflexivity]. }
    intros r1 r2. split; apply H.
Qed.

(* ------------------------------------------------------------------ *)
(** ** Validation engine: what is highlighted *)

Lemma setAdd_In (ids : list string) (id x : string) :
  In x (Validation.setAdd ids id) <-> In x ids \/ x = id.
Proof.
  unfold Validation.setAdd.
  destruct (existsb (String.eqb id) ids) eqn:E.
  - apply existsb_exists in E. destruct E as (y & Hy & Heq).
    apply String.eqb_eq in Heq. subst y. split; [auto|].
    intros [H| ->]; assumption.
  - rewrite in_app_iff. simpl. intuition.
Qed.

Lemma setAdd_NoDup (ids : list string) (id : string) :
  NoDup ids -> NoDup (Validation.setAdd ids id).
Proof.
  intro H. unfold Validation.setAdd.
  destruct (existsb (String.eqb id) ids) eqn:E; [exact H|].
  apply NoDup_app; [exact H|repeat constructor; simpl; tauto|].
  intros x Hx [E'|[]]. subst x.
  assert (existsb (String.eqb id) ids = true)
    by (apply existsb_exists; exists id; split; [exact Hx|apply String.eqb_refl]).
  congruence.
Qed.

Lemma setAdd_all_In (xs ids : list string) (x : string) :
  In x (fold_left Validation.setAdd xs ids) <-> In x ids \/ In x xs.
Proof.
  revert ids. induction xs as [|y xs IH]; intro ids; simpl.
  - tauto.
  - rewrite IH, setAdd_In. intuition.
Qed.

Lemma setAdd_all_NoDup (xs ids : list string) :
  NoDup ids -> NoDup (fold_left Validation.setAdd xs ids).
Proof.
  revert ids. induction xs as [|y xs IH]; intros ids H; simpl; [exact H|].
  apply IH, setAdd_NoDup, H.
Qed.

Lemma roomsWithErrors_fold (issues : list Validation.ValidationIssue)
    (ids : list string) (x : string) :
  let step := fun ids issue =>
                match Validation.severity issue with
                | Validation.error => fold_left Validation.setAdd
                                                (Validation.roomIds issue) ids
                | Validation.warning => ids
                end in
  (In x (fold_left step issues ids)
   <-> In x ids
       \/ exists issue, In issue issues
                        /\ Validation.severity issue = Validation.error
                        /\ In x (Validation.roomIds issue))
  /\ (NoDup ids -> NoDup (fold_left step issues ids)).
Proof.
  intro step. revert ids.
  induction issues as [|i issues IH]; intro ids; simpl.
  - split; [|auto]. split; [auto|]. intros [H|(issue & [] & _)]. exact H.
  - destruct (IH (step ids i)) as [IH1 IH2]. split.
    + rewrite IH1. unfold step at 1.
      destruct (Validation.severity i) eqn:Es.
      * rewrite setAdd_all_In. split.
        -- intros [[H|H]|(issue & Hin & Hs & Hx)]; eauto 6.
        -- intros [H|(issue & [<-|Hin] & Hs & Hx)]; eauto 6.
      * split.
        -- intros [H|(issue & Hin & Hs & Hx)]; eauto 6.
        -- intros [H|(issue & [<-|Hin] & Hs & Hx)]; eauto 6. congruence.
    + intro H. apply IH2. unfold step.
      destruct (Validation.severity i); [apply setAdd_all_NoDup|]; exact H.
Qed.

Lemma roomsWithErrors_In (issues : list Validation.ValidationIssue) (id : string) :
  In id (Validation.getRoomsWithErrors issues)
  <-> exists issue, In issue issues
                    /\ Validation.severity issue = Validation.error
                    /\ In id (Validation.roomIds issue).
Proof.
  unfold Validation.getRoomsWithErrors.
  destruct (roomsWithErrors_fold issues [] id) as [H _].
  rewrite H. simpl. tauto.
Qed.

(** X5. [getRoomsWithErrors] returns, without repetition, exactly the room
    ids named by the issues of severity error; the rooms named only by
    warnings are left out. *)
Theorem rooms_with_errors_spec (issues : list Validation.ValidationIssue) :
  NoDup (Validation.getRoomsWithErrors issues)
  /\ forall id : string,
       In id (Validation.getRoomsWithErrors issues)
       <-> exists issue, In issue issues
                         /\ Validation.severity issue = Validation.error
                         /\ In id (Validation.roomIds issue).
Proof.
  split.
  - unfold Validation.getRoomsWithErrors.
    apply (roomsWithErrors_fold issues [] EmptyString). constructor.
  - apply roomsWithErrors_In.
Qed.

Lemma duplicateWalls_In (issues : list Validation.ValidationIssue)
    (p : Validation.WallPosition) :
  In p (Validation.getDuplicateWalls issues)
  <-> exists issue, In issue issues
                    /\ Validation.issue_type issue = Validation.duplicate_wall
                    /\ JS.optChain (Validation.details issue) Validation.wallPosition
                       = Some p.
Proof.
  unfold Validation.getDuplicateWalls. rewrite in_flat_map.
  split; intros (issue & Hin & H); exists issue; (split; [exact Hin|]).
  - destruct (Validation.issue_type issue); try (destruct H; fail);
      try (destruct (JS.optChain _ _); destruct H; fail).
    destruct (JS.optChain _ _); [|destruct H].
    destruct H as [<-|[]]. auto.
  - destruct H as [-> ->]. left. reflexivity.
Qed.

(** X8. Every wall position returned by [getDuplicateWalls] for the issues
    of a plan is the segment of a wall of some room of the plan; that wall
    exists, and the segment is axis-aligned (constant y on the north and
    south sides, constant x on the east and west sides). *)
Theorem duplicate_wall_positions (fp : FloorPlan) (p : Validation.WallPosition) :
  In p (Validation.getDuplicateWalls (Validation.validateFloorPlan fp)) ->
  exists room side,
    In room (floor_rooms (fp_floor fp))
    /\ Spec.wallExists (wallAt (room_walls room) side) = true
    /\ p = {| Validation.wp_x1 := Validation.ws_x1 (Validation.getWallSegment room side);
              Validation.wp_y1 := Validation.ws_y1 (Validation.getWallSegment room side);
              Validation.wp_x2 := Validation.ws_x2 (Validation.getWallSegment room side);
              Validation.wp_y2 := Validation.ws_y2 (Validation.getWallSegment room side) |}
    /\ match Spec.orientation side with
       | Spec.horizontal => Validation.wp_y1 p = Validation.wp_y2 p
       | Spec.vertical => Validation.wp_x1 p = Validation.wp_x2 p
       end.
Proof.
  intro Hin. apply duplicateWalls_In in Hin.
  destruct Hin as (issue & Hin & Hty & Hp).
  apply validate_In in Hin. destruct Hin as [Hin|[Hin|Hin]].
  - apply invalid_dimensions_type in Hin. congruence.
  - apply overlaps_type in Hin. congruence.
  - apply duplicates_In in Hin.
    destruct Hin as (w1 & w2 & Hb & Hneq & He1 & _ & _ & ->).
    destruct (collectWalls_before_inv _ _ _ Hb Hneq)
      as (r1 & s1 & r2 & s2 & Hrooms & -> & ->).
    cbn in Hp. injection Hp as <-.
    exists r1, s1. split; [apply (before_In _ _ _ Hrooms)|].
    split; [rewrite <- segment_exists; exact He1|].
    split; [reflexivity|]. destruct s1; reflexivity.
Qed.

Lemma duplicate_wall_positions_witness :
  exists room side,
    In room (floor_rooms (fp_floor Examples.adjacentPlan))
    /\ Spec.wallExists (wallAt (room_walls room) side) = true
    /\ {| Validation.wp_x1 := 300; Validation.wp_y1 := 0;
          Validation.wp_x2 := 300; Validation.wp_y2 := 300 |}
       = {| Validation.wp_x1 := Validation.ws_x1 (Validation.getWallSegment room side);
            Validation.wp_y1 := Validation.ws_y1 (Validation.getWallSegment room side);
            Validation.wp_x2 := Validation.ws_x2 (Validation.getWallSegment room side);
            Validation.wp_y2 := Validation.ws_y2 (Validation.getWallSegment room side) |}.
Proof.
  destruct (duplicate_wall_positions Examples.adjacentPlan
              {| Validation.wp_x1 := 300; Validation.wp_y1 := 0;
                 Validation.wp_x2 := 300; Validation.wp_y2 := 300 |}
              (or_introl eq_refl)) as (room & side & H1 & H2 & H3 & _).
  exists room, side. auto.
Defined.

(* ------------------------------------------------------------------ *)
(** ** Geometry and validation describe the same walls *)

(** X9. The segment the geometry calculator gives a wall is the segment the
    validation engine gives it, multiplied by the scale, and both passes
    agree on whether the wall exists; likewise the room rectangle. *)
Theorem geometry_is_scaled_validation
    (room : Room) (side : WallSide) (defaults : option Defaults) (scale : Q) :
  let g := Geometry.calculateWallGeometry room side defaults scale in
  let w := Validation.getWallSegment room side in
  let rg := Geometry.calculateRoomGeometry room defaults scale in
  let rb := Validation.getRoomBounds room in
  (Geometry.wg_x1 g = Validation.ws_x1 w * scale
   /\ Geometry.wg_y1 g = Validation.ws_y1 w * scale
   /\ Geometry.wg_x2 g = Validation.ws_x2 w * scale
   /\ Geometry.wg_y2 g = Validation.ws_y2 w * scale)
  /\ Geometry.wg_exists g = Validation.ws_exists w
  /\ (Geometry.rg_x rg = Validation.rb_x rb * scale
      /\ Geometry.rg_y rg = Validation.rb_y rb * scale
      /\ Geometry.rg_width rg = Validation.rb_width rb * scale
      /\ Geometry.rg_height rg = Validation.rb_height rb * scale)
  /\ Geometry.rg_id rg = Validation.rb_id rb
  /\ Geometry.rg_name rg = Validation.rb_name rb.
Proof.
  intros g w rg rb. split; [|split; [|split]].
  - subst g w. destruct side; cbn; repeat split; reflexivity.
  - subst g w. rewrite segment_exists.
    unfold Geometry.calculateWallGeometry, Spec.wallExists.
    destruct side; cbn; destruct (wall_exists _); reflexivity.
  - repeat split; reflexivity.
  - split; reflexivity.
Qed.

(* ------------------------------------------------------------------ *)
(** ** Geometry calculator: overall dimensions *)

Lemma floor_geometry_dims (fp : FloorPlan) :
  let step := fun '(maxX, maxY) room =>
                (Qmax maxX (Geometry.rg_x room + Geometry.rg_width room),
                 Qmax maxY (Geometry.rg_y room + Geometry.rg_height room)) in
  let fg := Geometry.calculateFloorGeometry fp in
  (Geometry.fg_width fg, Geometry.fg_height fg)
  = fold_left step (Geometry.fg_rooms fg) (0, 0).
Proof.
  intros step fg. subst fg. rewrite floor_geometry_rooms.
  unfold Geometry.calculateFloorGeometry.
  fold step.
  destruct (fold_left step _ (0, 0)) as [maxX maxY]. reflexivity.
Qed.

Lemma bounds_fold (rooms : list Geometry.RoomGeometry) (acc : Q * Q) :
  let step := fun '(maxX, maxY) room =>
                (Qmax maxX (Geometry.rg_x room + Geometry.rg_width room),
                 Qmax maxY (Geometry.rg_y room + Geometry.rg_height room)) in
  let r := fold_left step rooms acc in
  (fst acc <= fst r /\ snd acc <= snd r)
  /\ (forall g, In g rooms ->
                Geometry.rg_x g + Geometry.rg_width g <= fst r
                /\ Geometry.rg_y g + Geometry.rg_height g <= snd r)
  /\ (fst r == fst acc
      \/ exists g, In g rooms /\ fst r == Geometry.rg_x g + Geometry.rg_width g)
  /\ (snd r == snd acc
      \/ exists g, In g rooms /\ snd r == Geometry.rg_y g + Geometry.rg_height g).
Proof.
  cbv zeta. revert acc.
  induction rooms as [|g rest IH]; intros [ax ay]; cbn [fold_left fst snd].
  - split; [split; apply Qle_refl|]. split; [intros g0 []|].
    split; left; reflexivity.
  - specialize (IH (Qmax ax (Geometry.rg_x g + Geometry.rg_width g),
                    Qmax ay (Geometry.rg_y g + Geometry.rg_height g))).
    cbn [fst snd] in IH.
    destruct IH as ((Hx & Hy) & Hall & Hatx & Haty).
    pose proof (Q.le_max_l ax (Geometry.rg_x g + Geometry.rg_width g)).
    pose proof (Q.le_max_r ax (Geometry.rg_x g + Geometry.rg_width g)).
    pose proof (Q.le_max_l ay (Geometry.rg_y g + Geometry.rg_height g)).
    pose proof (Q.le_max_r ay (Geometry.rg_y g + Geometry.rg_height g)).
    split; [split; lra|]. split; [|split].
    + intros g' [<-|Hin]; [split; lra|]. apply Hall, Hin.
    + destruct Hatx as [E|(g' & Hin & E)].
      * destruct (Q.max_spec ax (Geometry.rg_x g + Geometry.rg_width g))
          as [[_ Em]|[_ Em]].
        -- right. exists g. split; [left; reflexivity|]. rewrite E, Em. reflexivity.
        -- left. rewrite E, Em. reflexivity.
      * right. exists g'. split; [right; exact Hin|exact E].
    + destruct Haty as [E|(g' & Hin & E)].
      * destruct (Q.max_spec ay (Geometry.rg_y g + Geometry.rg_height g))
          as [[_ Em]|[_ Em]].
        -- right. exists g. split; [left; reflexivity|]. rewrite E, Em. reflexivity.
        -- left. rewrite E, Em. reflexivity.
      * right. exists g'. split; [right; exact Hin|exact E].
Qed.

(** X10. The overall width and height of the floor geometry are never
    negative, reach at least the right and bottom edge of every room, and
    are either 0 or exactly the right (bottom) edge of some room. *)
Theorem floor_bounds_cover_rooms (fp : FloorPlan) :
  let fg := Geometry.calculateFloorGeometry fp in
  (0 <= Geometry.fg_width fg /\ 0 <= Geometry.fg_height fg)
  /\ (forall g, In g (Geometry.fg_rooms fg) ->
                Geometry.rg_x g + Geometry.rg_width g <= Geometry.fg_width fg
                /\ Geometry.rg_y g + Geometry.rg_height g <= Geometry.fg_height fg)
  /\ (Geometry.fg_width fg == 0
      \/ exists g, In g (Geometry.fg_rooms fg)
                   /\ Geometry.fg_width fg == Geometry.rg_x g + Geometry.rg_width g)
  /\ (Geometry.fg_height fg == 0
      \/ exists g, In g (Geometry.fg_rooms fg)
                   /\ Geometry.fg_height fg == Geometry.rg_y g + Geometry.rg_height g).
Proof.
  intro fg.
  pose proof (floor_geometry_dims fp) as Hd. cbv zeta in Hd. fold fg in Hd.
  pose proof (bounds_fold (Geometry.fg_rooms fg) (0, 0)) as Hb. cbv zeta in Hb.
  rewrite <- Hd in Hb. cbn [fst snd] in Hb. exact Hb.
Qed.

(* ------------------------------------------------------------------ *)
(** ** Statistics engine: bounds on the per-wall figures *)

Lemma notFalse_wallExists (wall : Wall) :
  JS.notFalse (wall_exists wall) = Spec.wallExists wall.
Proof. unfold Spec.wallExists. destruct (wall_exists wall) as [[|]|]; reflexivity. Qed.

Lemma wall_brickCount_value (wall : Wall) (side : WallSide)
    (defaults : option Defaults) (config : EstimateConfig) :
  Statistics.wst_brickCount (Statistics.calculateWallStats wall side defaults config)
  = if Spec.wallExists wall
    then Spec.brickCountOnceRounded (Spec.netCm2 wall defaults) config
    else 0.
Proof.
  unfold Statistics.calculateWallStats. cbn [Statistics.wst_brickCount].
  rewrite notFalse_wallExists. destruct (Spec.wallExists wall); [|reflexivity].
  unfold Statistics.calculateBrickCount, Spec.brickCountOnceRounded, JS.ceil.
  f_equal. apply Qceiling_comp. fold (Spec.brickUnitArea config).
  rewrite wall_net_cm2. reflexivity.
Qed.

Lemma netCm2_nonneg (wall : Wall) (defaults : option Defaults) :
  0 <= Spec.netCm2 wall defaults.
Proof. unfold Spec.netCm2. apply Q.le_max_l. Qed.

Lemma div_10000_le (a b : Q) : a <= b -> a / 10000 <= b / 10000.
Proof.
  intro H. unfold Qdiv. apply Qmult_le_compat_r; [exact H|].
  apply Qle_bool_iff. reflexivity.
Qed.

Lemma wall_net_area_nonneg (wall : Wall) (side : WallSide)
    (defaults : option Defaults) (config : EstimateConfig) :
  0 <= Statistics.wst_areaWithoutOpenings
         (Statistics.calculateWallStats wall side defaults config).
Proof.
  unfold Statistics.calculateWallStats.
  cbn [Statistics.wst_areaWithoutOpenings].
  unfold Statistics.cm2ToM2. rewrite wall_net_cm2.
  apply (Qle_trans _ (0 / 10000)); [apply Qle_bool_iff; reflexivity|].
  apply div_10000_le, netCm2_nonneg.
Qed.

Lemma wall_net_le_gross (wall : Wall) (side : WallSide)
    (defaults : option Defaults) (config : EstimateConfig) :
  0 <= Spec.grossCm2 wall defaults ->
  0 <= Spec.openingsSum defaults (Spec.wallOpenings wall) ->
  Statistics.wst_areaWithoutOpenings
    (Statistics.calculateWallStats wall side defaults config)
  <= Statistics.wst_area (Statistics.calculateWallStats wall side defaults config).
Proof.
  intros Hg Ho. unfold Statistics.calculateWallStats.
  cbn [Statistics.wst_areaWithoutOpenings Statistics.wst_area].
  unfold Statistics.cm2ToM2. rewrite wall_net_cm2, wall_gross_cm2.
  apply div_10000_le. unfold Spec.netCm2. apply Q.max_lub; lra.
Qed.

Lemma onceRounded_nonneg (net : Q) (config : EstimateConfig) :
  0 <= net -> 0 < Spec.brickUnitArea config ->
  0 <= brick_wasteFactor (cfg_brick config) ->
  0 <= Spec.brickCountOnceRounded net config.
Proof.
  intros Hn Hu Hw. unfold Spec.brickCountOnceRounded.
  apply (Qle_trans _ (net / Spec.brickUnitArea config
                      * brick_wasteFactor (cfg_brick config)));
    [|apply Qle_ceiling].
  apply Qmult_le_0_compat; [|exact Hw].
  unfold Qdiv. apply Qmult_le_0_compat; [exact Hn|].
  apply Qinv_le_0_compat, Qlt_le_weak, Hu.
Qed.

Lemma wall_brickCount_nonneg (wall : Wall) (side : WallSide)
    (defaults : option Defaults) (config : EstimateConfig) :
  0 < Spec.brickUnitArea config ->
  0 <= brick_wasteFactor (cfg_brick config) ->
  0 <= Statistics.wst_brickCount
         (Statistics.calculateWallStats wall side defaults config).
Proof.
  intros Hu Hw. rewrite wall_brickCount_value.
  destruct (Spec.wallExists wall); [|apply Qle_refl].
  apply onceRounded_nonneg; [apply netCm2_nonneg|exact Hu|exact Hw].
Qed.

(** X11. The net area of a wall is never negative, whatever the input; it
    does not exceed the gross area when that is non-negative and the
    openings' areas sum to a non-negative value. *)
Theorem net_area_bounds (wall : Wall) (side : WallSide)
    (defaults : option Defaults) (config : EstimateConfig) :
  let s := Statistics.calculateWallStats wall side defaults config in
  0 <= Statistics.wst_areaWithoutOpenings s
  /\ (0 <= Statistics.wst_area s ->
      0 <= Spec.openingsSum defaults (Spec.wallOpenings wall) ->
      Statistics.wst_areaWithoutOpenings s <= Statistics.wst_area s).
Proof.
  intro s. subst s. split; [apply wall_net_area_nonneg|].
  intros Hg Ho. apply wall_net_le_gross; [|exact Ho].
  unfold Statistics.calculateWallStats in Hg. cbn [Statistics.wst_area] in Hg.
  unfold Statistics.cm2ToM2 in Hg. rewrite wall_gross_cm2 in Hg.
  unfold Qdiv in Hg.
  assert (E : Spec.grossCm2 wall defaults
              == Spec.grossCm2 wall defaults * / 10000 * 10000) by field.
  rewrite E. apply Qmult_le_0_compat; [exact Hg|].
  apply Qle_bool_iff. reflexivity.
Qed.

Lemma net_area_bounds_witness :
  Statistics.wst_areaWithoutOpenings
    (Statistics.calculateWallStats Examples.northWithOpenings north None
                                   DEFAULT_ESTIMATE_CONFIG)
  <= Statistics.wst_area
       (Statistics.calculateWallStats Examples.northWithOpenings north None
                                      DEFAULT_ESTIMATE_CONFIG).
Proof.
  apply (net_area_bounds Examples.northWithOpenings north None DEFAULT_ESTIMATE_CONFIG);
    apply Qle_bool_iff; vm_compute; reflexivity.
Defined.

(* ------------------------------------------------------------------ *)
(** ** Statistics engine: totals *)

Lemma sumBy_nil {A : Type} (f : A -> Q) : JS.sumBy f [] = 0.
Proof. reflexivity. Qed.

Lemma sumBy_nonneg {A : Type} (f : A -> Q) (xs : list A) :
  (forall x, In x xs -> 0 <= f x) -> 0 <= JS.sumBy f xs.
Proof.
  induction xs as [|x xs IH]; intro H.
  - rewrite sumBy_nil. apply Qle_refl.
  - rewrite sumBy_cons.
    assert (0 <= f x) by (apply H; left; reflexivity).
    assert (0 <= JS.sumBy f xs) by (apply IH; intros y Hy; apply H; right; exact Hy).
    lra.
Qed.

(* ------------------------------------------------------------------ *)
(** ** Statistics engine: the budget *)

Lemma ceil_covers (size need : Q) :
  0 < size -> Spec.covers size need (JS.ceil (need / size)).
Proof.
  intro Hs. unfold Spec.covers, JS.ceil.
  assert (Hx : need / size * size == need)
    by (field; intro E; rewrite E in Hs; apply (Qlt_irrefl 0 Hs)).
  split.
  - rewrite <- Hx at 1.
    apply Qmult_le_compat_r; [apply Qle_ceiling|apply Qlt_le_weak, Hs].
  - rewrite <- Hx at 2. apply Qmult_lt_compat_r; [exact Hs|].
    assert (E : inject_Z (Qceiling (need / size)) - 1
                == inject_Z (Qceiling (need / size) - 1))
      by (unfold Z.sub; rewrite inject_Z_plus, inject_Z_opp; reflexivity).
    rewrite E. apply Qceiling_lt.
Qed.

(** X16. The paint, primer and ceiling-paint lines buy whole 18-litre cans
    and the putty line whole 25-kg sacks.  For needs that are whole amounts
    (litres and kilograms come out of [calculatePaint] rounded up to whole
    numbers), the quantity of each line is a whole number of packages that
    covers the need, and one package fewer would not. *)
Theorem packages_cover_need
    (materials : Statistics.MaterialsEstimate) (totalArea : Q)
    (config : EstimateConfig) :
  let b := Statistics.calculateBudget materials totalArea config in
  let p := Statistics.mat_paint materials in
  Spec.wholeAmount (Statistics.paint p) ->
  Spec.wholeAmount (Statistics.primer p) ->
  Spec.wholeAmount (Statistics.putty p) ->
  Spec.wholeAmount (Statistics.ceilingPaint p) ->
  exists paintLine primerLine puttyLine ceilingLine,
    nth_error (Statistics.items b) 2 = Some paintLine
    /\ nth_error (Statistics.items b) 3 = Some primerLine
    /\ nth_error (Statistics.items b) 4 = Some puttyLine
    /\ nth_error (Statistics.items b) 5 = Some ceilingLine
    /\ Spec.wholePackages 18 (Statistics.paint p) (Statistics.quantity paintLine)
    /\ Spec.wholePackages 18 (Statistics.primer p) (Statistics.quantity primerLine)
    /\ Spec.wholePackages 25 (Statistics.putty p) (Statistics.quantity puttyLine)
    /\ Spec.wholePackages 18 (Statistics.ceilingPaint p)
                          (Statistics.quantity ceilingLine).
Proof.
  intros b p _ _ _ _. subst b p. unfold Statistics.calculateBudget.
  cbn [Statistics.items app nth_error].
  do 4 eexists. repeat (split; [reflexivity|]).
  cbn [Statistics.quantity]. unfold Spec.wholePackages.
  repeat split;
    first [eexists; unfold JS.ceil; reflexivity | apply ceil_covers; reflexivity].
Qed.

Lemma packages_cover_need_witness :
  let st := Statistics.calculateFloorPlanStats Examples.plan400x300
                                               DEFAULT_ESTIMATE_CONFIG in
  exists paintLine,
    nth_error (Statistics.items (Statistics.budget st)) 2 = Some paintLine
    /\ Spec.wholePackages 18
         (Statistics.paint (Statistics.mat_paint (Statistics.materials st)))
         (Statistics.quantity paintLine).
Proof.
  intro st.
  destruct (packages_cover_need (Statistics.materials st)
              (Statistics.totalFloorArea (Statistics.measurements st))
              DEFAULT_ESTIMATE_CONFIG)
    as (paintLine & _ & _ & _ & H & _ & _ & _ & Hp & _).
  - exists (Qfloor (Statistics.paint (Statistics.mat_paint (Statistics.materials st)))).
    split; [split; [apply Z.leb_le|apply Z.ltb_lt]|]; vm_compute; reflexivity.
  - exists (Qfloor (Statistics.primer (Statistics.mat_paint (Statistics.materials st)))).
    split; [split; [apply Z.leb_le|apply Z.ltb_lt]|]; vm_compute; reflexivity.
  - exists (Qfloor (Statistics.putty (Statistics.mat_paint (Statistics.materials st)))).
    split; [split; [apply Z.leb_le|apply Z.ltb_lt]|]; vm_compute; reflexivity.
  - exists (Qfloor (Statistics.ceilingPaint (Statistics.mat_paint (Statistics.materials st)))).
    split; [split; [apply Z.leb_le|apply Z.ltb_lt]|]; vm_compute; reflexivity.
  - exists paintLine. split; [exact H|exact Hp].
Defined.

(* ------------------------------------------------------------------ *)
(** ** Statistics engine: electrical and plumbing points *)

Lemma plumbingFor_wet (t : PlumbingByRoomType) (type : string) :
  (Spec.wetRoomType type = true -> exists row, plumbingFor t type = Some row)
  /\ (Spec.wetRoomType type = false -> plumbingFor t type = None).
Proof.
  unfold Spec.wetRoomType, plumbingFor.
  destruct (String.eqb type "cozinha"); [split; [eauto|discriminate]|].
  destruct (String.eqb type "banheiro"); [split; [eauto|discriminate]|].
  destruct (String.eqb type "area-servico"); [split; [eauto|discriminate]|].
  split; [discriminate|reflexivity].
Qed.

Lemma plumbing_rooms (fp : FloorPlan) (config : EstimateConfig) :
  map Statistics.pr_roomName
      (Statistics.plumbing_byRoom
         (Statistics.mat_plumbing
            (Statistics.materials (Statistics.calculateFloorPlanStats fp config))))
  = map (fun room => JS.orElse (room_name room) (room_id room))
        (filter (fun room => Spec.wetRoomType (Statistics.getRoomType room))
                (floor_rooms (fp_floor fp))).
Proof.
  unfold Statistics.calculateFloorPlanStats, Statistics.calculatePlumbing.
  cbn [Statistics.materials Statistics.mat_plumbing Statistics.plumbing_byRoom].
  induction (floor_rooms (fp_floor fp)) as [|r rest IH]; [reflexivity|].
  cbn [map flat_map filter]. rewrite map_app, IH.
  unfold Statistics.calculateRoomStats at 1.
  cbn [Statistics.rs_type Statistics.rs_name].
  destruct (plumbingFor_wet (plumbing_byRoomType (cfg_plumbing config))
                            (Statistics.getRoomType r)) as [Hw Hd].
  destruct (Spec.wetRoomType (Statistics.getRoomType r)).
  - destruct (Hw eq_refl) as [row ->]. reflexivity.
  - rewrite (Hd eq_refl). reflexivity.
Qed.

(** X18. Plumbing points are estimated for the rooms inferred to be a
    kitchen, a bathroom or a service area, and for no other room; a plan
    without such rooms has no water, drain or pipe quantities and its budget
    has no plumbing line. *)
Theorem plumbing_only_for_wet_rooms (fp : FloorPlan) (config : EstimateConfig) :
  let st := Statistics.calculateFloorPlanStats fp config in
  let pl := Statistics.mat_plumbing (Statistics.materials st) in
  map Statistics.pr_roomName (Statistics.plumbing_byRoom pl)
  = map (fun room => JS.orElse (room_name room) (room_id room))
        (filter (fun room => Spec.wetRoomType (Statistics.getRoomType room))
                (floor_rooms (fp_floor fp)))
  /\ ((forall room, In room (floor_rooms (fp_floor fp)) ->
                    Spec.wetRoomType (Statistics.getRoomType room) = false) ->
      Statistics.plumbing_byRoom pl = []
      /\ Statistics.coldWaterPoints pl = 0
      /\ Statistics.hotWaterPoints pl = 0
      /\ Statistics.drainPoints pl = 0
      /\ Statistics.pipeEstimate pl == 0
      /\ Datatypes.length (Statistics.items (Statistics.budget st)) = 13%nat
      /\ Statistics.sub_plumbing (Statistics.subtotals (Statistics.budget st)) = 0).
Proof.
  intros st pl. split; [apply plumbing_rooms|].
  intro Hdry.
  assert (Hnil : Statistics.plumbing_byRoom pl = []).
  { pose proof (plumbing_rooms fp config) as H. fold st in H. fold pl in H.
    rewrite (filter_none _ _ Hdry) in H. cbn [map] in H.
    destruct (Statistics.plumbing_byRoom pl); [reflexivity|discriminate H]. }
  assert (Hc : Statistics.coldWaterPoints pl = 0
               /\ Statistics.hotWaterPoints pl = 0
               /\ Statistics.drainPoints pl = 0
               /\ Statistics.pipeEstimate pl
                  = (0 + 0 + 0) * pipePerPoint (cfg_plumbing config)).
  { subst pl st. unfold Statistics.calculateFloorPlanStats in *.
    cbn [Statistics.materials Statistics.mat_plumbing] in *.
    unfold Statistics.calculatePlumbing in *.
    cbn [Statistics.plumbing_byRoom Statistics.coldWaterPoints
         Statistics.hotWaterPoints Statistics.drainPoints
         Statistics.pipeEstimate] in *.
    rewrite Hnil. repeat split. }
  destruct Hc as (Hcold & Hhot & Hdrain & Hpipe).
  split; [exact Hnil|]. split; [exact Hcold|]. split; [exact Hhot|].
  split; [exact Hdrain|]. split; [rewrite Hpipe; ring|].
  subst st. unfold Statistics.calculateFloorPlanStats.
  cbn [Statistics.budget]. unfold Statistics.calculateBudget.
  cbn [Statistics.items Statistics.subtotals Statistics.sub_plumbing
       Statistics.mat_plumbing].
  fold (Statistics.calculateFloorPlanStats fp config) in *.
  change (Statistics.calculatePlumbing _ config) with pl.
  rewrite Hcold, Hhot, Hdrain, Hpipe.
  assert (G1 : JS.gtb (0 + 0) 0 = false) by reflexivity.
  assert (G2 : JS.gtb 0 0 = false) by reflexivity.
  assert (G3 : JS.gtb ((0 + 0 + 0) * pipePerPoint (cfg_plumbing config)) 0 = false)
    by (apply gtb_false_iff; ring_simplify; apply Qle_refl).
  rewrite G1, G2, G3. split; reflexivity.
Qed.

Lemma plumbing_only_for_wet_rooms_witness :
  Statistics.plumbing_byRoom
    (Statistics.mat_plumbing
       (Statistics.materials
          (Statistics.calculateFloorPlanStats Examples.plan400x300
                                              DEFAULT_ESTIMATE_CONFIG))) = [].
Proof.
  apply (plumbing_only_for_wet_rooms Examples.plan400x300 DEFAULT_ESTIMATE_CONFIG).
  intros room [<-|[]]. reflexivity.
Defined.

Lemma electricalFor_known (t : ElectricalByRoomType) (room : Room) :
  exists row, electricalFor t (Statistics.getRoomType room) = Some row.
Proof.
  pose proof (room_type_is_known room) as H. simpl in H.
  destruct H as [<-|[<-|[<-|[<-|[<-|[<-|[]]]]]]]; cbn; eauto.
Qed.

(** X19. Every room of the plan gets exactly one electrical estimate, in
    room order, and it is the row the configuration holds for the room's
    inferred type: the inferred type is always a key of the table, so the
    fall-back to the default row is never taken for a missing key. *)
Theorem electrical_row_per_room (fp : FloorPlan) (config : EstimateConfig) :
  let st := Statistics.calculateFloorPlanStats fp config in
  let el := Statistics.mat_electrical (Statistics.materials st) in
  let table := electrical_byRoomType (cfg_electrical config) in
  Datatypes.length (Statistics.electrical_byRoom el)
  = Datatypes.length (floor_rooms (fp_floor fp))
  /\ forall (i : nat) (room : Room),
       nth_error (floor_rooms (fp_floor fp)) i = Some room ->
       exists row,
         electricalFor table (Statistics.getRoomType room) = Some row
         /\ nth_error (Statistics.electrical_byRoom el) i
            = Some {| Statistics.er_roomName := JS.orElse (room_name room) (room_id room);
                      Statistics.er_outlets := re_outlets row;
                      Statistics.er_switches := re_switches row;
                      Statistics.er_lights := re_lights row |}.
Proof.
  intros st el table. subst st el.
  unfold Statistics.calculateFloorPlanStats, Statistics.calculateElectrical.
  cbn [Statistics.materials Statistics.mat_electrical Statistics.electrical_byRoom].
  split; [rewrite !length_map; reflexivity|].
  intros i room Hi.
  destruct (electricalFor_known table room) as [row Hrow].
  exists row. split; [exact Hrow|].
  rewrite !nth_error_map, Hi. cbn [option_map].
  unfold Statistics.calculateRoomStats at 1 2 3 4.
  cbn [Statistics.rs_type Statistics.rs_name].
  fold table. rewrite Hrow. reflexivity.
Qed.

Lemma electrical_row_per_room_witness :
  exists row,
    electricalFor (electrical_byRoomType (cfg_electrical DEFAULT_ESTIMATE_CONFIG))
                  (Statistics.getRoomType Examples.room400x300) = Some row
    /\ re_outlets row = 6.
Proof.
  destruct (proj2 (electrical_row_per_room Examples.plan400x300 DEFAULT_ESTIMATE_CONFIG)
              0%nat Examples.room400x300 eq_refl) as (row & Hrow & _).
  exists row. split; [exact Hrow|].
  vm_compute in Hrow. injection Hrow as <-. reflexivity.
Defined.

(* ------------------------------------------------------------------ *)
(** ** Statistics engine: keywords of the room type *)

Lemma prefix_spec (sub s : string) :
  String.prefix sub s = true <-> exists post, s = (sub ++ post)%string.
Proof.
  revert s. induction sub as [|c sub IH]; intro s.
  - split; [intros _; exists s; reflexivity|destruct s; reflexivity].
  - destruct s as [|d s]; cbn [String.prefix String.append].
    + split; [discriminate|]. intros (post & H). discriminate H.
    + destruct (Ascii.ascii_dec c d) as [->|Hneq].
      * rewrite IH. split; intros (post & H); exists post.
        -- rewrite H. reflexivity.
        -- injection H as H. exact H.
      * split; [discriminate|]. intros (post & H). injection H as H1 H2.
        congruence.
Qed.

Lemma includes_spec (s sub : string) :
  JS.includes s sub = true <-> Spec.substring sub s.
Proof.
  unfold Spec.substring. induction s as [|c s IH].
  - cbn [JS.includes]. destruct (String.prefix sub EmptyString) eqn:E.
    + split; [intros _|reflexivity].
      apply prefix_spec in E. destruct E as (post & E).
      exists EmptyString, post. exact E.
    + split; [discriminate|]. intros (pre & post & H).
      destruct pre; [|discriminate H].
      assert (String.prefix sub EmptyString = true)
        by (apply prefix_spec; exists post; exact H).
      congruence.
  - cbn [JS.includes]. destruct (String.prefix sub (String c s)) eqn:E.
    + split; [intros _|reflexivity].
      apply prefix_spec in E. destruct E as (post & E).
      exists EmptyString, post. exact E.
    + rewrite IH. split.
      * intros (pre & post & H). exists (String c pre), post.
        rewrite H. reflexivity.
      * intros (pre & post & H). destruct pre as [|d pre].
        -- assert (String.prefix sub (String c s) = true)
             by (apply prefix_spec; exists post; exact H).
           congruence.
        -- injection H as _ H. exists pre, post. exact H.
Qed.

(** X20. A room is inferred to be a living room ("sala") exactly when the
    lower-cased id or the lower-cased name contains the substring "sala",
    whatever other keywords they contain; and it gets the type "default"
    exactly when none of the keyword tests succeeds. *)
Theorem room_type_sala_and_default (room : Room) :
  let id := JS.toLowerCase (room_id room) in
  let name := JS.toLowerCase (JS.orElse (room_name room) EmptyString) in
  (Statistics.getRoomType room = "sala"%string
   <-> Spec.substring "sala" id \/ Spec.substring "sala" name)
  /\ (Statistics.getRoomType room = "default"%string
      <-> ~ (Spec.substring "sala" id \/ Spec.substring "sala" name
             \/ Spec.substring "cozinha" id \/ Spec.substring "cozinha" name
             \/ Spec.substring "banheiro" id \/ Spec.substring "banheiro" name
             \/ Spec.substring "wc" name
             \/ Spec.substring "quarto" id \/ Spec.substring "quarto" name
             \/ Spec.substring "dormit" name
             \/ Spec.substring "servico" id \/ Spec.substring "servico" name
             \/ Spec.substring "lavanderia" name)).
Proof.
  intros id name. rewrite <- !includes_spec.
  unfold Statistics.getRoomType. fold id. fold name.
  split.
  - destruct (JS.includes id "sala"); cbn [orb]; [tauto|].
    destruct (JS.includes name "sala"); cbn [orb]; [tauto|].
    case_keyword id "cozinha"%string ltac:(split; [discriminate|intros [H|H]; discriminate H]).
    case_keyword name "cozinha"%string ltac:(split; [discriminate|intros [H|H]; discriminate H]).
    case_keyword id "banheiro"%string ltac:(split; [discriminate|intros [H|H]; discriminate H]).
    case_keyword name "banheiro"%string ltac:(split; [discriminate|intros [H|H]; discriminate H]).
    case_keyword name "wc"%string ltac:(split; [discriminate|intros [H|H]; discriminate H]).
    case_keyword id "quarto"%string ltac:(split; [discriminate|intros [H|H]; discriminate H]).
    case_keyword name "quarto"%string ltac:(split; [discriminate|intros [H|H]; discriminate H]).
    case_keyword name "dormit"%string ltac:(split; [discriminate|intros [H|H]; discriminate H]).
    case_keyword id "servico"%string ltac:(split; [discriminate|intros [H|H]; discriminate H]).
    case_keyword name "servico"%string ltac:(split; [discriminate|intros [H|H]; discriminate H]).
    case_keyword name "lavanderia"%string ltac:(split; [discriminate|intros [H|H]; discriminate H]).
    split; [discriminate|intros [H|H]; discriminate H].
  - case_keywords id name ltac:(split; [discriminate|intro H; exfalso; apply H; tauto]).
    split; [intros _|reflexivity].
    intro H. repeat (destruct H as [H|H]; [discriminate H|]). discriminate H.
Qed.

(* ------------------------------------------------------------------ *)
(** ** Openings: what is drawn is what is deducted *)

(** X21. For every opening the geometry calculator and the statistics
    engine resolve the same width and the same height: the opening drawn on
    the wall (size times scale) has the area that is deducted from the wall;
    a door starts at the floor unless it carries its own sill height. *)
Theorem opening_drawn_is_opening_deducted
    (room : Room) (side : WallSide) (defaults : option Defaults) (scale : Q)
    (o : Opening) :
  let r := Geometry.resolveOpening o defaults in
  let og := Geometry.openingGeometry room side defaults scale o in
  Geometry.ro_width r * Geometry.ro_height r = Statistics.openingArea defaults o
  /\ Geometry.og_width og = Geometry.ro_width r * scale
  /\ Geometry.og_height og = Geometry.ro_height r * scale
  /\ (op_type o = door -> op_fromFloor o = None -> Geometry.ro_fromFloor r = 0).
Proof.
  intros r og. subst r og.
  split.
  { destruct (opening_resolution_agrees o defaults) as [Hw Hh].
    rewrite Hw, Hh, opening_area_resolved. reflexivity. }
  destruct o as [ty off w h ff to_]. cbn [op_type op_fromFloor].
  destruct side, ty; cbn; (split; [reflexivity|split; [reflexivity|]]);
    intros Hty Hff; try discriminate Hty; subst ff; reflexivity.
Qed.

Lemma opening_drawn_is_opening_deducted_witness :
  Geometry.ro_fromFloor
    (Geometry.resolveOpening (mkOpening door 50 (Some 80) None None None)
       (Some (mkDefaults None None (Some (mkWindowDefaults None None (Some 90))))))
  = 0.
Proof.
  apply (opening_drawn_is_opening_deducted Examples.room400x300 north
           (Some (mkDefaults None None (Some (mkWindowDefaults None None (Some 90)))))
           1 (mkOpening door 50 (Some 80) None None None)); reflexivity.
Defined.

(* ------------------------------------------------------------------ *)
(** ** Statistics engine: the empty plan *)

Lemma ceil_zero (x : Q) : x == 0 -> JS.ceil x = 0.
Proof. intro H. unfold JS.ceil. rewrite (Qceiling_comp _ _ H). reflexivity. Qed.

(** X22. For a plan without rooms (and coverages that are not 0, so that no
    quotient is undefined) the budget has its 13 fixed lines and no plumbing
    line, every line has quantity 0 and total 0, and the grand total is 0. *)
Theorem empty_plan_costs_nothing (fp : FloorPlan) (config : EstimateConfig) :
  floor_rooms (fp_floor fp) = [] ->
  ~ coverage (cfg_paint config) == 0 ->
  ~ primerCoverage (cfg_paint config) == 0 ->
  ~ puttyCoverage (cfg_paint config) == 0 ->
  let b := Statistics.budget (Statistics.calculateFloorPlanStats fp config) in
  Datatypes.length (Statistics.items b) = 13%nat
  /\ (forall line, In line (Statistics.items b) ->
                   Statistics.quantity line == 0 /\ Statistics.item_total line == 0)
  /\ Statistics.total b == 0.
Proof.
  intros Hrooms _ _ _ b. subst b.
  unfold Statistics.calculateFloorPlanStats. rewrite Hrooms.
  cbn [map Statistics.budget Statistics.measurements Statistics.totalFloorArea].
  unfold Statistics.calculateMeasurements, Statistics.calculateMasonry,
    Statistics.calculatePaint, Statistics.calculateFlooring,
    Statistics.calculateElectrical, Statistics.calculatePlumbing.
  cbn [map flat_map Statistics.ms_rooms Statistics.totalFloorArea
       Statistics.totalWallsAreaWithoutOpenings].
  unfold Statistics.calculateBudget.
  cbn [Statistics.mat_masonry Statistics.mat_paint Statistics.mat_flooring
       Statistics.mat_electrical Statistics.mat_plumbing
       Statistics.bricks Statistics.mortar Statistics.paint Statistics.primer
       Statistics.putty Statistics.ceilingPaint Statistics.tiles Statistics.grout
       Statistics.adhesive Statistics.outlets Statistics.switches
       Statistics.lightPoints Statistics.wireEstimate
       Statistics.coldWaterPoints Statistics.hotWaterPoints
       Statistics.drainPoints Statistics.pipeEstimate
       Statistics.items Statistics.total Statistics.subtotals
       Statistics.sub_masonry Statistics.sub_paint Statistics.sub_flooring
       Statistics.sub_electrical Statistics.sub_plumbing].
  rewrite !sumBy_nil.
  assert (G1 : JS.gtb (0 + 0) 0 = false) by reflexivity.
  assert (G2 : JS.gtb 0 0 = false) by reflexivity.
  assert (G3 : JS.gtb ((0 + 0 + 0) * pipePerPoint (cfg_plumbing config)) 0 = false)
    by (apply gtb_false_iff; ring_simplify; apply Qle_refl).
  rewrite G1, G2, G3. cbn [app].
  repeat match goal with
         | |- context [JS.ceil ?x] =>
             let E := fresh "E" in
             assert (E : JS.ceil x = 0)
               by (first [reflexivity | apply ceil_zero; unfold Qdiv; ring]);
             rewrite E; clear E
         end.
  split; [reflexivity|]. split.
  - intros line Hin. cbn [In] in Hin.
    repeat (destruct Hin as [<-|Hin];
            [cbn [Statistics.quantity Statistics.item_total];
             split; unfold Qdiv; ring|]).
    destruct Hin.
  - cbn [filter String.eqb Ascii.eqb Bool.eqb Statistics.category andb].
    unfold JS.sumBy. cbn [fold_left Statistics.item_total]. unfold Qdiv. ring.
Qed.

Lemma empty_plan_costs_nothing_witness :
  Statistics.total
    (Statistics.budget
       (Statistics.calculateFloorPlanStats Examples.emptyPlan DEFAULT_ESTIMATE_CONFIG))
  == 0.
Proof.
  apply (empty_plan_costs_nothing Examples.emptyPlan DEFAULT_ESTIMATE_CONFIG eq_refl);
    vm_compute; discriminate.
Defined.

(* ------------------------------------------------------------------ *)
(** ** Statistics engine: room figures *)

Lemma sumBy_le {A : Type} (f g : A -> Q) (xs : list A) :
  (forall x, In x xs -> f x <= g x) -> JS.sumBy f xs <= JS.sumBy g xs.
Proof.
  induction xs as [|x xs IH]; intro H.
  - rewrite !sumBy_nil. apply Qle_refl.
  - rewrite !sumBy_cons.
    assert (f x <= g x) by (apply H; left; reflexivity).
    assert (JS.sumBy f xs <= JS.sumBy g xs)
      by (apply IH; intros y Hy; apply H; right; exact Hy).
    lra.
Qed.

Lemma room_walls_In (room : Room) (defaults : option Defaults)
    (config : EstimateConfig) (s : Statistics.WallStats) :
  In s (Statistics.rs_walls (Statistics.calculateRoomStats room defaults config)) ->
  exists side,
    s = Statistics.calculateWallStats (wallAt (room_walls room) side) side
                                      defaults config.
Proof.
  unfold Statistics.calculateRoomStats. cbn [Statistics.rs_walls].
  intro H. apply in_map_iff in H. destruct H as (side & <- & _).
  exists side. reflexivity.
Qed.

(** X24. For every room the wall area net of openings is never negative;
    it does not exceed the gross wall area when every wall has a
    non-negative gross area and non-negative openings; and with a positive
    brick unit area and a non-negative waste factor the room's brick count
    is not negative. *)
Theorem room_figures_bounds (room : Room) (defaults : option Defaults)
    (config : EstimateConfig) :
  let rs := Statistics.calculateRoomStats room defaults config in
  0 <= Statistics.rs_wallsAreaWithoutOpenings rs
  /\ ((forall side,
          0 <= Spec.grossCm2 (wallAt (room_walls room) side) defaults
          /\ 0 <= Spec.openingsSum defaults
                    (Spec.wallOpenings (wallAt (room_walls room) side))) ->
      Statistics.rs_wallsAreaWithoutOpenings rs <= Statistics.rs_wallsArea rs)
  /\ (0 < Spec.brickUnitArea config ->
      0 <= brick_wasteFactor (cfg_brick config) ->
      0 <= Statistics.rs_brickCount rs).
Proof.
  intro rs.
  assert (Hwalls : forall s,
             In s (filter Statistics.wst_exists (Statistics.rs_walls rs)) ->
             exists side,
               s = Statistics.calculateWallStats (wallAt (room_walls room) side)
                                                 side defaults config).
  { intros s Hs. apply filter_In in Hs. destruct Hs as [Hs _].
    apply (room_walls_In room defaults config s Hs). }
  split; [|split].
  - apply sumBy_nonneg. intros s Hs. destruct (Hwalls s Hs) as (side & ->).
    apply wall_net_area_nonneg.
  - intro Hpos. apply sumBy_le. intros s Hs. destruct (Hwalls s Hs) as (side & ->).
    destruct (Hpos side) as [Hg Ho]. apply wall_net_le_gross; assumption.
  - intros Hu Hw. apply sumBy_nonneg. intros s Hs.
    destruct (room_walls_In room defaults config s Hs) as (side & ->).
    apply wall_brickCount_nonneg; assumption.
Qed.

Lemma room_figures_bounds_witness :
  Statistics.rs_wallsAreaWithoutOpenings
    (Statistics.calculateRoomStats Examples.room400x300 None DEFAULT_ESTIMATE_CONFIG)
  <= Statistics.rs_wallsArea
       (Statistics.calculateRoomStats Examples.room400x300 None DEFAULT_ESTIMATE_CONFIG).
Proof.
  destruct (room_figures_bounds Examples.room400x300 None DEFAULT_ESTIMATE_CONFIG)
    as (_ & H & _).
  apply H. intros []; split; apply Qle_bool_iff; vm_compute; reflexivity.
Defined.

(* ------------------------------------------------------------------ *)
(** ** Binary64 numbers: order and signs *)

(** The arithmetic on familiar inputs: 0.1 + 0.2 is 0.30000000000000004 and
    not 0.3; 1.1 + 2.2 is not 3.3; 2.2 - 1.2 is 1.0000000000000002;
    70000 / 300 x 1.05 is 245.00000000000003, whose ceiling is 246; 1 / 0 is
    Infinity, 0 / 0 is NaN, [Math.max] of NaN and 1 is NaN, and every test
    against NaN is false. *)
Example binary64_samples :
  (num (1 # 10) + num (2 # 10))%double = num (30000000000000004 # 100000000000000000)
  /\ Binary64.eqb (num (1 # 10) + num (2 # 10))%double (num (3 # 10)) = false
  /\ Binary64.eqb (num (11 # 10) + num (22 # 10))%double (num (33 # 10)) = false
  /\ (num (22 # 10) - num (12 # 10))%double = num (10000000000000002 # 10000000000000000)
  /\ Binary64.gtb (num (22 # 10) - num (12 # 10))%double Binary64.one = true
  /\ (num 70000 / num 300 * num (105 # 100))%double
     = num (24500000000000003 # 100000000000000)
  /\ Binary64.ceil (num 70000 / num 300 * num (105 # 100))%double = num 246
  /\ (num 1 / num 0)%double = S754_infinity false
  /\ (num 0 / num 0)%double = S754_nan
  /\ Binary64.max S754_nan (num 1) = S754_nan
  /\ Binary64.leb S754_nan (num 1) = false
  /\ Binary64.gtb S754_nan (num 1) = false
  /\ Binary64.eqb S754_nan S754_nan = false
  /\ Binary64.eqb (S754_zero true) (S754_zero false) = true
  /\ Binary64.ceil (num (-1 # 2)) = S754_zero true.
Proof. vm_compute. repeat split. Qed.

Lemma pow2_pos (e : Z) : 0 < 2 ^ e.
Proof. apply Qpower_0_lt. reflexivity. Qed.

Lemma toQ_neg (m : positive) (e : Z) : Binary64.toQ (S754_finite true m e) < 0.
Proof.
  unfold Binary64.toQ. cbn [cond_Zopp].
  pose proof (pow2_pos e).
  assert (inject_Z (- Z.pos m) < 0) by (change 0 with (inject_Z 0); rewrite <- Zlt_Qlt; lia).
  nra.
Qed.

Lemma toQ_pos (m : positive) (e : Z) : 0 < Binary64.toQ (S754_finite false m e).
Proof.
  unfold Binary64.toQ. cbn [cond_Zopp].
  pose proof (pow2_pos e).
  assert (0 < inject_Z (Z.pos m)) by (change 0 with (inject_Z 0); rewrite <- Zlt_Qlt; lia).
  nra.
Qed.

Lemma compare_finite (x y : Binary64.double) :
  Binary64.isFinite x = true -> Binary64.isFinite y = true ->
  Binary64.compare x y = Some (Binary64.toQ x ?= Binary64.toQ y).
Proof. destruct x, y; try discriminate; reflexivity. Qed.

Lemma ltb_finite (x y : Binary64.double) :
  Binary64.isFinite x = true -> Binary64.isFinite y = true ->
  (Binary64.ltb x y = true <-> Binary64.toQ x < Binary64.toQ y).
Proof.
  intros Hx Hy. unfold Binary64.ltb. rewrite compare_finite by assumption.
  rewrite Qlt_alt. destruct (Binary64.toQ x ?= Binary64.toQ y); split; congruence.
Qed.

Lemma eqb_finite (x y : Binary64.double) :
  Binary64.isFinite x = true -> Binary64.isFinite y = true ->
  (Binary64.eqb x y = true <-> Binary64.toQ x == Binary64.toQ y).
Proof.
  intros Hx Hy. unfold Binary64.eqb. rewrite compare_finite by assumption.
  rewrite Qeq_alt. destruct (Binary64.toQ x ?= Binary64.toQ y); split; congruence.
Qed.

Lemma eqb_refl (x : Binary64.double) :
  Binary64.isFinite x = true -> Binary64.eqb x x = true.
Proof. intro Hx. apply eqb_finite; [assumption..|reflexivity]. Qed.

Lemma max_finite (x y : Binary64.double) :
  Binary64.isFinite x = true -> Binary64.isFinite y = true ->
  Binary64.isFinite (Binary64.max x y) = true
  /\ Binary64.toQ (Binary64.max x y) == Qmax (Binary64.toQ x) (Binary64.toQ y).
Proof.
  intros Hx Hy. unfold Binary64.max. rewrite compare_finite by assumption.
  destruct (Binary64.toQ x ?= Binary64.toQ y) eqn:E.
  - apply Qeq_alt in E.
    assert (Hm : Qmax (Binary64.toQ x) (Binary64.toQ y) == Binary64.toQ x)
      by (apply Q.max_l; rewrite E; apply Qle_refl).
    rewrite Hm. destruct x as [[|]| | |]; try discriminate;
      (split; [assumption|first [reflexivity|symmetry; exact E]]).
  - apply Qlt_alt in E. split; [assumption|].
    rewrite Q.max_r by (apply Qlt_le_weak; exact E). reflexivity.
  - apply Qgt_alt in E. split; [assumption|].
    rewrite Q.max_l by (apply Qlt_le_weak; exact E). reflexivity.
Qed.

Lemma min_finite (x y : Binary64.double) :
  Binary64.isFinite x = true -> Binary64.isFinite y = true ->
  Binary64.isFinite (Binary64.min x y) = true
  /\ Binary64.toQ (Binary64.min x y) == Qmin (Binary64.toQ x) (Binary64.toQ y).
Proof.
  intros Hx Hy. unfold Binary64.min. rewrite compare_finite by assumption.
  destruct (Binary64.toQ x ?= Binary64.toQ y) eqn:E.
  - apply Qeq_alt in E.
    assert (Hm : Qmin (Binary64.toQ x) (Binary64.toQ y) == Binary64.toQ x)
      by (apply Q.min_l; rewrite E; apply Qle_refl).
    rewrite Hm. destruct x as [[|]| | |]; try discriminate;
      (split; [assumption|first [reflexivity|symmetry; exact E]]).
  - apply Qlt_alt in E. split; [assumption|].
    rewrite Q.min_l by (apply Qlt_le_weak; exact E). reflexivity.
  - apply Qgt_alt in E. split; [assumption|].
    rewrite Q.min_r by (apply Qlt_le_weak; exact E). reflexivity.
Qed.

(** Shifting a mantissa to a lower exponent keeps the value. *)
Lemma iter_xO (m d : positive) : Z.pos (Pos.iter xO m d) = (Z.pos m * 2 ^ Z.pos d)%Z.
Proof.
  induction d as [|d IH] using Pos.peano_ind.
  - cbn [Pos.iter]. rewrite Pos2Z.inj_xO. change (2 ^ 1)%Z with 2%Z. ring.
  - rewrite Pos.iter_succ, Pos2Z.inj_succ, Z.pow_succ_r by lia.
    rewrite Pos2Z.inj_xO, IH. ring.
Qed.

Lemma aligned_value (s : bool) (m : positive) (e ez : Z) :
  (ez <= e)%Z ->
  inject_Z (cond_Zopp s (Z.pos (fst (shl_align m e ez)))) * 2 ^ ez
  == Binary64.toQ (S754_finite s m e).
Proof.
  intro Hle. unfold shl_align, Binary64.toQ.
  destruct (ez - e)%Z as [|d|d] eqn:Ed; try lia.
  - assert (ez = e) by lia. subst ez. reflexivity.
  - cbn [fst]. rewrite iter_xO.
    assert (He : e = (Z.pos d + ez)%Z) by lia.
    rewrite He, Qpower_plus by discriminate.
    assert (Hc : cond_Zopp s (Z.pos m * 2 ^ Z.pos d)
                 = (cond_Zopp s (Z.pos m) * 2 ^ Z.pos d)%Z)
      by (destruct s; cbn [cond_Zopp]; ring).
    rewrite Hc, inject_Z_mult, Zpower_Qpower by lia.
    change (inject_Z 2) with 2.
    generalize (2 ^ Z.pos d) (2 ^ ez) (inject_Z (cond_Zopp s (Z.pos m))).
    intros p q v. ring.
Qed.





Lemma compare_antisym (x y : Binary64.double) :
  Binary64.compare y x = option_map CompOpp (Binary64.compare x y).
Proof.
  destruct x as [sx|sx| |sx mx ex], y as [sy|sy| |sy my ey];
    try reflexivity;
    try (destruct sx; reflexivity); try (destruct sy; reflexivity);
    try (destruct sx, sy; reflexivity);
    cbn [Binary64.compare option_map]; rewrite <- Qcompare_antisym; reflexivity.
Qed.

Lemma compare_None (x y : Binary64.double) :
  Binary64.compare x y = None <-> Binary64.isNaN x = true \/ Binary64.isNaN y = true.
Proof.
  destruct x as [sx|sx| |sx mx ex], y as [sy|sy| |sy my ey]; cbn;
    try (destruct sx); try (destruct sy);
    split; try discriminate; try tauto; intros [H|H]; discriminate H.
Qed.

(** [x <= y] is the negation of [x > y] unless one of them is NaN. *)
Lemma leb_not_gtb (x y : Binary64.double) :
  Binary64.isNaN x = false -> Binary64.isNaN y = false ->
  Binary64.leb x y = negb (Binary64.gtb x y).
Proof.
  intros Hx Hy. unfold Binary64.leb, Binary64.gtb, Binary64.ltb.
  rewrite (compare_antisym x y).
  destruct (Binary64.compare x y) as [[| |]|] eqn:E; try reflexivity.
  apply compare_None in E. destruct E; congruence.
Qed.










(* ------------------------------------------------------------------ *)
(** ** Geometry calculator: shared walls *)

Lemma Qeq_bool_comm (a b : Q) : Qeq_bool a b = Qeq_bool b a.
Proof.
  destruct (Qeq_bool a b) eqn:E1, (Qeq_bool b a) eqn:E2; try reflexivity.
  - apply Qeq_bool_iff in E1. symmetry in E1. apply Qeq_bool_iff in E1. congruence.
  - apply Qeq_bool_iff in E2. symmetry in E2. apply Qeq_bool_iff in E2. congruence.
Qed.

(** [a === b] is [b === a], also when one of them is NaN. *)
Lemma eqb_comm (a b : Binary64.double) : Binary64.eqb a b = Binary64.eqb b a.
Proof.
  unfold Binary64.eqb. rewrite (compare_antisym a b).
  destruct (Binary64.compare a b) as [[| |]|]; reflexivity.
Qed.

(** X23. [wallsOverlap] of the geometry module is symmetric: swapping the
    two wall geometries does not change its answer.  The function only
    compares its inputs ([===], [>], [Math.min], [Math.max]); the property
    holds on exact numbers and on all binary64 values, NaN and the
    infinities included. *)
Theorem geometry_walls_overlap
    (w1 w2 : Geometry.WallGeometry) (v1 v2 : Geometry64.WallGeometry) :
  Geometry.wallsOverlap w1 w2 = Geometry.wallsOverlap w2 w1
  /\ Geometry64.wallsOverlap v1 v2 = Geometry64.wallsOverlap v2 v1.
Proof.
  split.
  - unfold Geometry.wallsOverlap.
    rewrite (Qeq_bool_comm (Geometry.wg_y1 w2) (Geometry.wg_y1 w1)),
            (Qeq_bool_comm (Geometry.wg_x1 w2) (Geometry.wg_x1 w1)).
    destruct (Qeq_bool (Geometry.wg_y1 w1) (Geometry.wg_y2 w1)),
             (Qeq_bool (Geometry.wg_y1 w2) (Geometry.wg_y2 w2)),
             (Qeq_bool (Geometry.wg_y1 w1) (Geometry.wg_y1 w2)),
             (Qeq_bool (Geometry.wg_x1 w1) (Geometry.wg_x2 w1)),
             (Qeq_bool (Geometry.wg_x1 w2) (Geometry.wg_x2 w2)),
             (Qeq_bool (Geometry.wg_x1 w1) (Geometry.wg_x1 w2));
      cbn [andb]; try reflexivity; apply andb_comm.
  - unfold Geometry64.wallsOverlap.
    rewrite (eqb_comm (Geometry64.wg_y1 v2) (Geometry64.wg_y1 v1)),
            (eqb_comm (Geometry64.wg_x1 v2) (Geometry64.wg_x1 v1)).
    destruct (Binary64.eqb (Geometry64.wg_y1 v1) (Geometry64.wg_y2 v1)),
             (Binary64.eqb (Geometry64.wg_y1 v2) (Geometry64.wg_y2 v2)),
             (Binary64.eqb (Geometry64.wg_y1 v1) (Geometry64.wg_y1 v2)),
             (Binary64.eqb (Geometry64.wg_x1 v1) (Geometry64.wg_x2 v1)),
             (Binary64.eqb (Geometry64.wg_x1 v2) (Geometry64.wg_x2 v2)),
             (Binary64.eqb (Geometry64.wg_x1 v1) (Geometry64.wg_x1 v2));
      cbn [andb]; try reflexivity; apply andb_comm.
Qed.

(** Walls that coincide in exact arithmetic need not coincide for the code:
    a wall at y = 1.1 + 2.2 and a wall at y = 3.3 are not shared. *)
Example shared_wall_rounding :
  let y := (num (11 # 10) + num (22 # 10))%double in
  let w1 := Geometry64.mkWallGeometry (num 0) y (num 300) y (num 300) (num 15) true [] in
  let w2 := Geometry64.mkWallGeometry (num 0) (num (33 # 10)) (num 300) (num (33 # 10))
                                      (num 300) (num 15) true [] in
  Geometry64.wallsOverlap w1 w2 = false
  /\ Geometry64.wallsOverlap w1 w1 = true.
Proof. vm_compute. split; reflexivity. Qed.

(* ------------------------------------------------------------------ *)
(** ** Validation on binary64 numbers: where each issue comes from *)

Lemma validate64_In (fp : FloorPlan) (issue : Validation64.ValidationIssue) :
  In issue (Validation64.validateFloorPlan fp)
  <-> In issue (Validation64.detectInvalidDimensions (floor_rooms (fp_floor fp)))
      \/ In issue (Validation64.detectOverlaps (floor_rooms (fp_floor fp)))
      \/ In issue (Validation64.detectDuplicateWalls (floor_rooms (fp_floor fp))).
Proof.
  unfold Validation64.validateFloorPlan.
  destruct (floor_rooms (fp_floor fp)) as [|r rest].
  - cbn. tauto.
  - rewrite !in_app_iff. tauto.
Qed.

Lemma bounds64_width (room : Room) :
  Validation64.rb_width (Validation64.getRoomBounds room) = Spec64.roomWidth room.
Proof.
  unfold Spec64.roomWidth, Spec64.wallLength. cbn.
  destruct (wall_length (w_north _)), (wall_length (w_south _)); reflexivity.
Qed.

Lemma bounds64_height (room : Room) :
  Validation64.rb_height (Validation64.getRoomBounds room) = Spec64.roomHeight room.
Proof.
  unfold Spec64.roomHeight, Spec64.wallLength. cbn.
  destruct (wall_length (w_east _)), (wall_length (w_west _)); reflexivity.
Qed.

Lemma invalid_dimensions64_In (rooms : list Room) (issue : Validation64.ValidationIssue) :
  In issue (Validation64.detectInvalidDimensions rooms)
  <-> exists room, In room rooms
                   /\ Spec64.degenerate room = true
                   /\ issue = Validation64.invalidDimensionIssue room.
Proof.
  unfold Validation64.detectInvalidDimensions, Spec64.degenerate.
  rewrite in_flat_map.
  split; intros (room & Hin & H); exists room; (split; [exact Hin|]).
  - rewrite bounds64_width, bounds64_height in H.
    destruct (_ || _)%bool; [|destruct H].
    destruct H as [<-|[]]. split; reflexivity.
  - destruct H as [Hdim ->]. rewrite bounds64_width, bounds64_height, Hdim.
    left. reflexivity.
Qed.

Lemma rectanglesOverlap64_spec (r1 r2 : Room) :
  (Spec64.roomsOverlap r1 r2
   /\ Validation64.rectanglesOverlap (Validation64.getRoomBounds r1)
                                     (Validation64.getRoomBounds r2)
      = Some (Spec64.overlapRect r1 r2))
  \/ (~ Spec64.roomsOverlap r1 r2
      /\ Validation64.rectanglesOverlap (Validation64.getRoomBounds r1)
                                        (Validation64.getRoomBounds r2)
         = None).
Proof.
  unfold Validation64.rectanglesOverlap, Spec64.roomsOverlap, Spec64.overlapRect,
    Spec64.intersection, Spec64.boxWidth, Spec64.boxHeight, Spec64.boxOf.
  rewrite !bounds64_width, !bounds64_height.
  cbn [Validation64.getRoomBounds Validation64.rb_x Validation64.rb_y
       Spec64.left Spec64.right Spec64.top Spec64.bottom].
  unfold Binary64.gtb.
  match goal with
  | |- context [if (Binary64.ltb _ ?w && Binary64.ltb _ ?h)%bool then _ else _] =>
      destruct (Binary64.ltb Binary64.one w) eqn:Ew;
      destruct (Binary64.ltb Binary64.one h) eqn:Eh; cbn [andb]
  end.
  - left. auto.
  - right. split; [|reflexivity]. intros [_ H]. discriminate H.
  - right. split; [|reflexivity]. intros [H _]. discriminate H.
  - right. split; [|reflexivity]. intros [H _]. discriminate H.
Qed.

Lemma overlaps64_In (rooms : list Room) (issue : Validation64.ValidationIssue) :
  In issue (Validation64.detectOverlaps rooms)
  <-> exists r1 r2,
        Spec.before r1 r2 rooms /\ Spec64.roomsOverlap r1 r2
        /\ issue = Validation64.overlapIssue (Validation64.getRoomBounds r1)
                                             (Validation64.getRoomBounds r2)
                                             (Spec64.overlapRect r1 r2).
Proof.
  unfold Validation64.detectOverlaps. rewrite forPairs_In. split.
  - intros (b1 & b2 & Hb & Hin).
    apply before_map in Hb. destruct Hb as (r1 & r2 & Hb & -> & ->).
    exists r1, r2. split; [exact Hb|].
    unfold Validation64.overlapStep in Hin.
    destruct (rectanglesOverlap64_spec r1 r2) as [[Hov E]|[Hov E]];
      rewrite E in Hin; [|destruct Hin].
    destruct Hin as [<-|[]]. split; [exact Hov|reflexivity].
  - intros (r1 & r2 & Hb & Hov & ->).
    exists (Validation64.getRoomBounds r1), (Validation64.getRoomBounds r2).
    split; [apply before_map; exists r1, r2; auto|].
    unfold Validation64.overlapStep.
    destruct (rectanglesOverlap64_spec r1 r2) as [[_ E]|[Hn _]]; [|contradiction].
    rewrite E. left. reflexivity.
Qed.

Lemma duplicates64_type (rooms : list Room) (issue : Validation64.ValidationIssue) :
  In issue (Validation64.detectDuplicateWalls rooms) ->
  Validation64.issue_type issue = Validation.duplicate_wall.
Proof.
  unfold Validation64.detectDuplicateWalls. rewrite forPairs_In.
  intros (w1 & w2 & _ & Hin). unfold Validation64.duplicateStep in Hin.
  destruct (String.eqb _ _); [destruct Hin|].
  destruct (_ || _)%bool; [destruct Hin|].
  destruct (Validation64.wallsOverlap w1 w2); [|destruct Hin].
  destruct Hin as [<-|[]]. reflexivity.
Qed.

(** The issues of type [overlap] of a validation run are those of
    [detectOverlaps], in the same order. *)
Lemma validate64_overlap_issues (fp : FloorPlan) :
  filter (Spec64.hasType Validation.overlap) (Validation64.validateFloorPlan fp)
  = Validation64.detectOverlaps (floor_rooms (fp_floor fp)).
Proof.
  unfold Validation64.validateFloorPlan.
  destruct (floor_rooms (fp_floor fp)) as [|r rest] eqn:E; [reflexivity|].
  rewrite <- E. rewrite !filter_app.
  rewrite (filter_none _ (Validation64.detectInvalidDimensions _)).
  2:{ intros x Hx. apply invalid_dimensions64_In in Hx.
      destruct Hx as (room & _ & _ & ->). reflexivity. }
  rewrite (filter_none _ (Validation64.detectDuplicateWalls _)).
  2:{ intros x Hx. apply duplicates64_type in Hx.
      unfold Spec64.hasType. rewrite Hx. reflexivity. }
  rewrite app_nil_r. cbn [app]. apply filter_all.
  intros x Hx. apply overlaps64_In in Hx.
  destruct Hx as (r1 & r2 & _ & _ & ->). reflexivity.
Qed.

(* ------------------------------------------------------------------ *)
(** ** Validation on binary64 numbers: duplicate walls *)




Section SegmentPairs64.

Variables w1 w2 : Validation64.WallSegment.

Hypothesis finite_x1 : Binary64.isFinite (Validation64.ws_x1 w1) = true.
Hypothesis finite_y1 : Binary64.isFinite (Validation64.ws_y1 w1) = true.
Hypothesis finite_x2 : Binary64.isFinite (Validation64.ws_x2 w1) = true.
Hypothesis finite_y2 : Binary64.isFinite (Validation64.ws_y2 w1) = true.
Hypothesis finite_x1' : Binary64.isFinite (Validation64.ws_x1 w2) = true.
Hypothesis finite_y1' : Binary64.isFinite (Validation64.ws_y1 w2) = true.
Hypothesis finite_x2' : Binary64.isFinite (Validation64.ws_x2 w2) = true.
Hypothesis finite_y2' : Binary64.isFinite (Validation64.ws_y2 w2) = true.







End SegmentPairs64.

















Lemma duplicates64_In (rooms : list Room) (issue : Validation64.ValidationIssue) :
  In issue (Validation64.detectDuplicateWalls rooms)
  <-> exists w1 w2,
        Spec.before w1 w2 (Validation64.collectWalls rooms)
        /\ Validation64.ws_roomId w1 <> Validation64.ws_roomId w2
        /\ Validation64.ws_exists w1 = true /\ Validation64.ws_exists w2 = true
        /\ Validation64.wallsOverlap w1 w2 = true
        /\ issue = Validation64.duplicateWallIssue w1 w2.
Proof.
  unfold Validation64.detectDuplicateWalls. rewrite forPairs_In.
  split; intros (w1 & w2 & Hb & H); exists w1, w2; (split; [exact Hb|]).
  - unfold Validation64.duplicateStep in H.
    destruct (String.eqb_spec (Validation64.ws_roomId w1) (Validation64.ws_roomId w2))
      as [|Hneq]; [destruct H|].
    destruct (Validation64.ws_exists w1); [|destruct H].
    destruct (Validation64.ws_exists w2); [|destruct H].
    cbn [negb orb] in H.
    destruct (Validation64.wallsOverlap w1 w2); [|destruct H].
    destruct H as [<-|[]]. auto.
  - destruct H as (Hneq & He1 & He2 & Hov & ->).
    unfold Validation64.duplicateStep.
    apply String.eqb_neq in Hneq. rewrite Hneq, He1, He2, Hov.
    left. reflexivity.
Qed.



(** Two adjacent rooms sharing a coincident wall: exactly one warning, and
    none once one of the two walls is virtual.  At the tolerance the outcome
    follows the rounded difference: north walls at y = 1.2 and y = 2.2 are
    1.0000000000000002 apart for the engine and are not reported. *)
Example adjacent_rooms_one_warning64 :
  Validation64.validateFloorPlan Examples.adjacentPlan
  = [ Validation64.duplicateWallIssue
        (Validation64.getWallSegment Examples.roomL east)
        (Validation64.getWallSegment Examples.roomR west) ]
  /\ Validation64.validateFloorPlan Examples.adjacentVirtualPlan = []
  /\ Validation64.wallsOverlap
       (Validation64.getWallSegment (Examples.rectRoom "a" 0 (12 # 10) 300 300) north)
       (Validation64.getWallSegment (Examples.rectRoom "b" 100 (22 # 10) 300 300) north)
     = false.
Proof. repeat split; vm_compute; reflexivity. Qed.

(** C4. For every pair of rooms of a plan (room ids being unique),
    [validateFloorPlan] reports an overlap error for the pair if and only if
    the intersection of their bounding boxes is more than 1 plan unit wide
    and more than 1 plan unit high, and the issue is an error that carries
    exactly the intersection rectangle.  The engine runs on binary64
    numbers: the edges of the boxes and the width and height of the
    intersection are the sums and differences it computes, each rounded to
    the nearest binary64 value.  Two 300 x 300 rooms at (0,0) and (200,0)
    yield exactly one overlap error, with rectangle
    {x:200, y:0, width:100, height:300}. *)
Theorem overlap_reported_iff :
  (forall (fp : FloorPlan) (i j : nat) (r1 r2 : Room),
      NoDup (map room_id (floor_rooms (fp_floor fp))) ->
      (i < j)%nat ->
      nth_error (floor_rooms (fp_floor fp)) i = Some r1 ->
      nth_error (floor_rooms (fp_floor fp)) j = Some r2 ->
      ((exists issue,
           In issue (Validation64.validateFloorPlan fp)
           /\ Validation64.issue_type issue = Validation.overlap
           /\ Validation64.roomIds issue = [room_id r1; room_id r2])
       <-> Spec64.roomsOverlap r1 r2)
      /\ (forall issue,
             In issue (Validation64.validateFloorPlan fp) ->
             Validation64.issue_type issue = Validation.overlap ->
             Validation64.roomIds issue = [room_id r1; room_id r2] ->
             Validation64.severity issue = Validation.error
             /\ Validation64.details issue
                = Some {| Validation64.wallSide := None;
                          Validation64.overlapArea := Some (Spec64.overlapRect r1 r2);
                          Validation64.wallPosition := None |}))
  /\ (forall (fp : FloorPlan) (r1 r2 : Room),
         floor_rooms (fp_floor fp) = [r1; r2] ->
         room_position r1 = mkPosition 0 0 ->
         room_position r2 = mkPosition 200 0 ->
         (forall side, wall_length (wallAt (room_walls r1) side) = Some 300) ->
         (forall side, wall_length (wallAt (room_walls r2) side) = Some 300) ->
         filter (Spec64.hasType Validation.overlap) (Validation64.validateFloorPlan fp)
         = [ Validation64.overlapIssue
               (Validation64.getRoomBounds r1) (Validation64.getRoomBounds r2)
               {| Validation64.rect_x := num 200; Validation64.rect_y := num 0;
                  Validation64.rect_width := num 100;
                  Validation64.rect_height := num 300 |} ]).
Proof.
  split.
  - intros fp i j r1 r2 Hnd Hij Hi Hj.
    assert (Hb : Spec.before r1 r2 (floor_rooms (fp_floor fp)))
      by (apply before_nth; exists i, j; auto).
    assert (Hfrom : forall issue,
               In issue (Validation64.validateFloorPlan fp) ->
               Validation64.issue_type issue = Validation.overlap ->
               Validation64.roomIds issue = [room_id r1; room_id r2] ->
               Spec64.roomsOverlap r1 r2
               /\ issue = Validation64.overlapIssue (Validation64.getRoomBounds r1)
                            (Validation64.getRoomBounds r2) (Spec64.overlapRect r1 r2)).
    { intros issue Hin Hty Hids.
      apply validate64_In in Hin. destruct Hin as [Hin|[Hin|Hin]].
      - apply invalid_dimensions64_In in Hin. destruct Hin as (room & _ & _ & ->).
        discriminate Hty.
      - apply overlaps64_In in Hin. destruct Hin as (a & b & Hab & Hov & ->).
        cbn in Hids. injection Hids as Ha Hb'.
        destruct (before_In _ _ _ Hab) as [Hina Hinb].
        destruct (before_In _ _ _ Hb) as [Hin1 Hin2].
        assert (a = r1) by (eapply NoDup_key_inj; eauto).
        assert (b = r2) by (eapply NoDup_key_inj; eauto).
        subst a b. auto.
      - apply duplicates64_type in Hin. congruence. }
    split; [split|].
    + intros (issue & Hin & Hty & Hids). apply (Hfrom issue Hin Hty Hids).
    + intro Hov.
      exists (Validation64.overlapIssue (Validation64.getRoomBounds r1)
                (Validation64.getRoomBounds r2) (Spec64.overlapRect r1 r2)).
      split; [|split; reflexivity].
      apply validate64_In. right. left. apply overlaps64_In.
      exists r1, r2. auto.
    + intros issue Hin Hty Hids.
      destruct (Hfrom issue Hin Hty Hids) as [_ ->]. split; reflexivity.
  - intros fp r1 r2 Hrooms Hp1 Hp2 Hl1 Hl2.
    rewrite validate64_overlap_issues, Hrooms.
    unfold Validation64.detectOverlaps. cbn [map JS.forPairs flat_map app].
    unfold Validation64.overlapStep, Validation64.rectanglesOverlap.
    cbn [Validation64.getRoomBounds Validation64.rb_x Validation64.rb_y
         Validation64.rb_width Validation64.rb_height].
    pose proof (Hl1 north) as Hn1. pose proof (Hl1 south) as Hs1.
    pose proof (Hl1 east) as He1. pose proof (Hl1 west) as Hw1.
    pose proof (Hl2 north) as Hn2. pose proof (Hl2 south) as Hs2.
    pose proof (Hl2 east) as He2. pose proof (Hl2 west) as Hw2.
    cbn [wallAt] in Hn1, Hs1, He1, Hw1, Hn2, Hs2, He2, Hw2.
    rewrite Hn1, Hs1, He1, Hw1, Hn2, Hs2, He2, Hw2, Hp1, Hp2.
    vm_compute. reflexivity.
Qed.

Lemma overlap_reported_iff_witness :
  (exists issue,
      In issue (Validation64.validateFloorPlan Examples.overlappingPlan)
      /\ Validation64.issue_type issue = Validation.overlap
      /\ Validation64.roomIds issue = ["a"; "b"]%string)
  /\ Datatypes.length
       (filter (Spec64.hasType Validation.overlap)
               (Validation64.validateFloorPlan Examples.overlappingPlan)) = 1%nat.
Proof.
  split.
  - apply (proj1 overlap_reported_iff Examples.overlappingPlan 0%nat 1%nat
             Examples.roomA Examples.roomB).
    + repeat constructor; simpl; intuition discriminate.
    + lia.
    + reflexivity.
    + reflexivity.
    + split; vm_compute; reflexivity.
  - rewrite (proj2 overlap_reported_iff Examples.overlappingPlan
               Examples.roomA Examples.roomB eq_refl eq_refl eq_refl).
    + reflexivity.
    + intros []; reflexivity.
    + intros []; reflexivity.
Defined.

(** Rooms that merely touch (intersection exactly 1 unit wide) are not
    reported.  At the threshold the outcome follows the rounded difference:
    for a 2.2 wide room at x = 0 and a room at x = 1.2 the computed width of
    the intersection is 1.0000000000000002 and the overlap is reported; for a
    1.1 wide room and a room at x = 0.1 it is exactly 1 and nothing is
    reported. *)
Example touching_rooms :
  Validation64.detectOverlaps
    [Examples.rectRoom "a" 0 0 300 300; Examples.rectRoom "b" 299 0 300 300] = []
  /\ Datatypes.length
       (Validation64.detectOverlaps
          [Examples.rectRoom "a" 0 0 (22 # 10) 5;
           Examples.rectRoom "b" (12 # 10) 0 5 5]) = 1%nat
  /\ Validation64.detectOverlaps
       [Examples.rectRoom "a" 0 0 (11 # 10) 5;
        Examples.rectRoom "b" (1 # 10) 0 5 5] = [].
Proof. repeat split; vm_compute; reflexivity. Qed.

(* ------------------------------------------------------------------ *)
(** ** Validation on binary64 numbers: what is highlighted *)

Lemma roomsWithErrors64_fold (issues : list Validation64.ValidationIssue)
    (ids : list string) (x : string) :
  let step := fun ids issue =>
                match Validation64.severity issue with
                | Validation.error => fold_left Validation.setAdd
                                                (Validation64.roomIds issue) ids
                | Validation.warning => ids
                end in
  In x (fold_left step issues ids)
  <-> In x ids
      \/ exists issue, In issue issues
                       /\ Validation64.severity issue = Validation.error
                       /\ In x (Validation64.roomIds issue).
Proof.
  intro step. revert ids.
  induction issues as [|i issues IH]; intro ids; simpl.
  - split; [auto|]. intros [H|(issue & [] & _)]. exact H.
  - rewrite IH. unfold step at 1.
    destruct (Validation64.severity i) eqn:Es.
    + rewrite setAdd_all_In. split.
      * intros [[H|H]|(issue & Hin & Hs & Hx)]; eauto 6.
      * intros [H|(issue & [<-|Hin] & Hs & Hx)]; eauto 6.
    + split.
      * intros [H|(issue & Hin & Hs & Hx)]; eauto 6.
      * intros [H|(issue & [<-|Hin] & Hs & Hx)]; eauto 6. congruence.
Qed.

Lemma roomsWithErrors64_In (issues : list Validation64.ValidationIssue) (id : string) :
  In id (Validation64.getRoomsWithErrors issues)
  <-> exists issue, In issue issues
                    /\ Validation64.severity issue = Validation.error
                    /\ In id (Validation64.roomIds issue).
Proof.
  unfold Validation64.getRoomsWithErrors.
  rewrite (roomsWithErrors64_fold issues [] id). simpl. tauto.
Qed.

(** X6. On the issues of a plan, a room id is highlighted as erroneous
    exactly when it belongs to a room of non-positive effective width or
    height, or to one of two rooms whose bounding boxes overlap by more than
    1 unit in both directions (the widths and heights being the binary64
    numbers the engine computes); duplicate walls alone never highlight a
    room. *)
Theorem highlighted_rooms (fp : FloorPlan) (id : string) :
  In id (Validation64.getRoomsWithErrors (Validation64.validateFloorPlan fp))
  <-> (exists room, In room (floor_rooms (fp_floor fp))
                    /\ Spec64.degenerate room = true /\ room_id room = id)
      \/ (exists r1 r2, Spec.before r1 r2 (floor_rooms (fp_floor fp))
                        /\ Spec64.roomsOverlap r1 r2
                        /\ (room_id r1 = id \/ room_id r2 = id)).
Proof.
  rewrite roomsWithErrors64_In. split.
  - intros (issue & Hin & Hs & Hid).
    apply validate64_In in Hin. destruct Hin as [Hin|[Hin|Hin]].
    + apply invalid_dimensions64_In in Hin. destruct Hin as (r & Hr & Hd & ->).
      left. exists r. split; [exact Hr|]. split; [exact Hd|].
      destruct Hid as [E|[]]. exact E.
    + apply overlaps64_In in Hin. destruct Hin as (r1 & r2 & Hb & Hov & ->).
      right. exists r1, r2. split; [exact Hb|]. split; [exact Hov|].
      destruct Hid as [E|[E|[]]]; auto.
    + apply duplicates64_In in Hin.
      destruct Hin as (w1 & w2 & _ & _ & _ & _ & _ & ->). discriminate Hs.
  - intros [(r & Hr & Hd & <-)|(r1 & r2 & Hb & Hov & Hid)].
    + exists (Validation64.invalidDimensionIssue r).
      split; [|split; [reflexivity|left; reflexivity]].
      apply validate64_In. left. apply invalid_dimensions64_In. exists r. auto.
    + exists (Validation64.overlapIssue (Validation64.getRoomBounds r1)
                (Validation64.getRoomBounds r2) (Spec64.overlapRect r1 r2)).
      split; [|split; [reflexivity|]].
      * apply validate64_In. right. left. apply overlaps64_In. exists r1, r2. auto.
      * cbn. destruct Hid as [<-|<-]; auto.
Qed.

Lemma invalid_dimensions64_type (rooms : list Room) (issue : Validation64.ValidationIssue) :
  In issue (Validation64.detectInvalidDimensions rooms) ->
  Validation64.issue_type issue = Validation.invalid_dimension.
Proof.
  intro H. apply invalid_dimensions64_In in H. destruct H as (r & _ & _ & ->).
  reflexivity.
Qed.

Lemma overlapAreas64_In (issues : list Validation64.ValidationIssue)
    (a : Validation64.Rect) :
  In a (Validation64.getOverlapAreas issues)
  <-> exists issue, In issue issues
                    /\ Validation64.issue_type issue = Validation.overlap
                    /\ JS.optChain (Validation64.details issue) Validation64.overlapArea
                       = Some a.
Proof.
  unfold Validation64.getOverlapAreas. rewrite in_flat_map.
  split; intros (issue & Hin & H); exists issue; (split; [exact Hin|]).
  - destruct (Validation64.issue_type issue); try (destruct H; fail);
      try (destruct (JS.optChain _ _); destruct H; fail).
    destruct (JS.optChain _ _); [|destruct H].
    destruct H as [<-|[]]. auto.
  - destruct H as [-> ->]. left. reflexivity.
Qed.

(** X7. The rectangles returned by [getOverlapAreas] for the issues of a
    plan are exactly the intersection rectangles of the pairs of rooms that
    overlap: corner at the larger of the two left edges and of the two top
    edges, width and height the differences to the smaller of the two right
    and bottom edges as the engine computes them in binary64, and both more
    than 1. *)
Theorem overlap_areas_spec (fp : FloorPlan) (a : Validation64.Rect) :
  In a (Validation64.getOverlapAreas (Validation64.validateFloorPlan fp))
  <-> exists r1 r2,
        Spec.before r1 r2 (floor_rooms (fp_floor fp))
        /\ a = Spec64.overlapRect r1 r2
        /\ Binary64.ltb Binary64.one (Validation64.rect_width a) = true
        /\ Binary64.ltb Binary64.one (Validation64.rect_height a) = true.
Proof.
  rewrite overlapAreas64_In. split.
  - intros (issue & Hin & Hty & Ha).
    apply validate64_In in Hin. destruct Hin as [Hin|[Hin|Hin]].
    + apply invalid_dimensions64_type in Hin. congruence.
    + apply overlaps64_In in Hin. destruct Hin as (r1 & r2 & Hb & Hov & ->).
      cbn in Ha. injection Ha as <-.
      exists r1, r2. split; [exact Hb|]. split; [reflexivity|]. exact Hov.
    + apply duplicates64_type in Hin. congruence.
  - intros (r1 & r2 & Hb & -> & Hw & Hh).
    exists (Validation64.overlapIssue (Validation64.getRoomBounds r1)
              (Validation64.getRoomBounds r2) (Spec64.overlapRect r1 r2)).
    split; [|split; reflexivity].
    apply validate64_In. right. left. apply overlaps64_In. exists r1, r2.
    split; [exact Hb|]. split; [|reflexivity]. split; assumption.
Qed.

(* ------------------------------------------------------------------ *)
(** ** Wall statistics on binary64 numbers: brick counts *)

Lemma opening_area64_resolved (defaults : option Defaults) (o : Opening) :
  Statistics64.openingArea defaults o
  = Binary64.mul (Spec64.openingWidth defaults o) (Spec64.openingHeight defaults o).
Proof.
  destruct o as [ty off w h ff to_].
  unfold Statistics64.openingArea, Spec64.openingWidth, Spec64.openingHeight.
  destruct ty, w, h; reflexivity.
Qed.

Lemma fold_left_map_add {A : Type} (f g : A -> Binary64.double) (xs : list A)
    (acc : Binary64.double) :
  (forall x, f x = g x) ->
  fold_left (fun total x => Binary64.add total (f x)) xs acc
  = fold_left Binary64.add (map g xs) acc.
Proof.
  intro H. revert acc. induction xs as [|x xs IH]; intro acc; simpl.
  - reflexivity.
  - rewrite H. apply IH.
Qed.

Lemma openings_area64_sum (wall : Wall) (defaults : option Defaults) :
  Statistics64.calculateOpeningsArea wall defaults
  = Spec64.openingsSum defaults (Spec.wallOpenings wall).
Proof.
  unfold Statistics64.calculateOpeningsArea, Spec.wallOpenings, Spec64.openingsSum,
    Spec64.sum.
  destruct (wall_openings wall) as [[|o ops]|]; try reflexivity.
  apply fold_left_map_add. apply opening_area64_resolved.
Qed.

Lemma wall_gross64 (wall : Wall) (defaults : option Defaults) :
  Binary64.mul (JS.orElse (optNum (wall_length wall)) Binary64.zero)
               (JS.orElse (optNum (wall_height wall))
                          (Statistics64.wsd_height (Statistics64.getWallDefaults defaults)))
  = Spec64.grossCm2 wall defaults.
Proof.
  destruct wall as [l h t e ops].
  destruct defaults as [[[[dh dt]|] dd dw]|]; destruct l, h; try destruct dh;
    reflexivity.
Qed.

Lemma wall_net64 (wall : Wall) (defaults : option Defaults) :
  Binary64.max Binary64.zero
    (Binary64.sub
       (Binary64.mul (JS.orElse (optNum (wall_length wall)) Binary64.zero)
                     (JS.orElse (optNum (wall_height wall))
                                (Statistics64.wsd_height
                                   (Statistics64.getWallDefaults defaults))))
       (Statistics64.calculateOpeningsArea wall defaults))
  = Spec64.netCm2 wall defaults.
Proof.
  unfold Spec64.netCm2. rewrite wall_gross64, openings_area64_sum. reflexivity.
Qed.

(** C1 (as amended). For every wall that exists the brick count is the net
    wall area in cm2 divided by (brick width + mortar) x (brick height +
    mortar), multiplied by the waste factor, and ceiling-rounded once:
    ceil((netArea_cm2 / brickUnitArea) x wasteFactor).  A wall that does not
    exist has brick count 0.  The engine runs on binary64 numbers: every
    sum, product and quotient is rounded to the nearest binary64 value before
    the ceiling is taken. *)
Theorem brick_count_once_rounded (wall : Wall) (side : WallSide)
    (defaults : option Defaults) (config : EstimateConfig) :
  let s := Statistics64.calculateWallStats wall side defaults config in
  (Spec.wallExists wall = true ->
   Statistics64.wst_brickCount s
   = Spec64.brickCountOnceRounded (Spec64.netCm2 wall defaults) config)
  /\ (Spec.wallExists wall = false -> Statistics64.wst_brickCount s = Binary64.zero).
Proof.
  intro s. subst s. unfold Statistics64.calculateWallStats.
  cbn [Statistics64.wst_brickCount].
  assert (He : JS.notFalse (wall_exists wall) = Spec.wallExists wall)
    by (unfold Spec.wallExists; destruct (wall_exists wall) as [[|]|]; reflexivity).
  rewrite He.
  split; intro Hex; rewrite Hex; [|reflexivity].
  rewrite wall_net64. reflexivity.
Qed.

Lemma brick_count_once_rounded_witness :
  Statistics64.wst_brickCount
    (Statistics64.calculateWallStats Examples.smallWall north None DEFAULT_ESTIMATE_CONFIG)
  = Spec64.brickCountOnceRounded (Spec64.netCm2 Examples.smallWall None)
                                 DEFAULT_ESTIMATE_CONFIG.
Proof.
  apply (brick_count_once_rounded Examples.smallWall north None DEFAULT_ESTIMATE_CONFIG).
  reflexivity.
Defined.

(** C1 as stated fails: a 10 x 10 wall that exists, with no openings and the
    default configuration (unit area 15 x 20 = 300, waste 1.05), gets
    ceil(100/300 x 1.05) = 1 brick, while rounding twice would give
    ceil(ceil(100/300) x 1.05) = 2. *)
Lemma brick_count_counterexample :
  let wall := Examples.smallWall in
  let s := Statistics64.calculateWallStats wall north None DEFAULT_ESTIMATE_CONFIG in
  Statistics64.wst_exists s = true
  /\ Binary64.leb Binary64.zero (Statistics64.wst_length s) = true
  /\ Binary64.leb Binary64.zero (Statistics64.wst_height s) = true
  /\ Statistics64.wst_brickCount s = num 1
  /\ Spec64.brickCountTwiceRounded (Spec64.netCm2 wall None) DEFAULT_ESTIMATE_CONFIG
     = num 2
  /\ Statistics64.wst_brickCount s
     <> Spec64.brickCountTwiceRounded (Spec64.netCm2 wall None) DEFAULT_ESTIMATE_CONFIG.
Proof.
  repeat split; try (vm_compute; reflexivity); vm_compute; discriminate.
Qed.

(** The rounding of the intermediate results is visible in the count: for a
    250 x 280 wall the quotient 70000/300 and its product with 1.05 are
    rounded to 245.00000000000003, which gives 246 bricks; and with a brick
    unit area of 0 the count of a wall with positive area is Infinity. *)
Example brick_count_250x280 :
  Statistics64.wst_brickCount
    (Statistics64.calculateWallStats (mkWall (Some 250) (Some 280) None None None)
                                     north None DEFAULT_ESTIMATE_CONFIG)
  = num 246
  /\ Statistics64.calculateBrickCount (num 70000)
       (mkEstimateConfig (mkBrickConfig 0 0 9 0 (105 # 100))
                         (cfg_paint DEFAULT_ESTIMATE_CONFIG)
                         (cfg_flooring DEFAULT_ESTIMATE_CONFIG)
                         (cfg_electrical DEFAULT_ESTIMATE_CONFIG)
                         (cfg_plumbing DEFAULT_ESTIMATE_CONFIG)
                         (cfg_prices DEFAULT_ESTIMATE_CONFIG))
     = S754_infinity false.
Proof. split; vm_compute; reflexivity. Qed.

(* ------------------------------------------------------------------ *)
(** ** Binary64 numbers: the order is the one of the standard library *)

(** [digits2_pos p] is the number of binary digits of [p]. *)
Lemma digits2_pos_bounds (p : positive) :
  (2 ^ (Z.pos (digits2_pos p) - 1) <= Z.pos p < 2 ^ Z.pos (digits2_pos p))%Z.
Proof.
  induction p as [p IH|p IH|]; cbn [digits2_pos].
  - rewrite Pos2Z.inj_succ.
    replace (Z.succ (Z.pos (digits2_pos p)) - 1)%Z with (Z.succ (Z.pos (digits2_pos p) - 1))%Z
      by lia.
    rewrite !Z.pow_succ_r by lia. lia.
  - rewrite Pos2Z.inj_succ.
    replace (Z.succ (Z.pos (digits2_pos p)) - 1)%Z with (Z.succ (Z.pos (digits2_pos p) - 1))%Z
      by lia.
    rewrite !Z.pow_succ_r by lia. lia.
  - cbn. lia.
Qed.

(** The value of a finite number, with the power of two taken apart *)
Lemma toQ_shift (s : bool) (mx : positive) (e d : Z) :
  (0 <= d)%Z ->
  Binary64.toQ (S754_finite s mx (e + d))
  == inject_Z (cond_Zopp s (Z.pos mx) * 2 ^ d) * 2 ^ e.
Proof.
  intro Hd. unfold Binary64.toQ.
  rewrite Qpower_plus by discriminate.
  rewrite inject_Z_mult, Zpower_Qpower by exact Hd.
  change (inject_Z 2) with 2. ring.
Qed.

(** Among canonical mantissas a smaller exponent means a smaller number. *)
Lemma canonical_lt (m1 m2 : positive) (e1 e2 : Z) :
  canonical_mantissa Binary64.prec Binary64.emax m1 e1 = true ->
  canonical_mantissa Binary64.prec Binary64.emax m2 e2 = true ->
  (e1 < e2)%Z ->
  inject_Z (Z.pos m1) * 2 ^ e1 < inject_Z (Z.pos m2) * 2 ^ e2.
Proof.
  unfold canonical_mantissa, fexp, emin, Binary64.prec, Binary64.emax.
  intros C1 C2 Hlt. apply Z.eqb_eq in C1, C2.
  pose proof (digits2_pos_bounds m1) as [_ B1].
  pose proof (digits2_pos_bounds m2) as [B2 _].
  set (d1 := Z.pos (digits2_pos m1)) in *. set (d2 := Z.pos (digits2_pos m2)) in *.
  assert (Hd2 : d2 = 53%Z) by lia.
  assert (Hd1 : (d1 <= 53)%Z) by lia.
  rewrite Hd2 in B2. change (53 - 1)%Z with 52%Z in B2.
  assert (B1' : (Z.pos m1 < 2 ^ 53)%Z).
  { apply (Z.lt_le_trans _ _ _ B1). apply Z.pow_le_mono_r; lia. }
  pose proof (toQ_shift false m2 e1 (e2 - e1) ltac:(lia)) as E.
  replace (e1 + (e2 - e1))%Z with e2 in E by lia.
  unfold Binary64.toQ in E. cbn [cond_Zopp] in E. rewrite E.
  apply Qmult_lt_compat_r; [apply pow2_pos|].
  rewrite <- Zlt_Qlt.
  assert (2 ^ 1 <= 2 ^ (e2 - e1))%Z by (apply Z.pow_le_mono_r; lia).
  change (2 ^ 1)%Z with 2%Z in H.
  change (2 ^ 53)%Z with 9007199254740992%Z in B1'.
  change (2 ^ 52)%Z with 4503599627370496%Z in B2.
  apply (Z.lt_le_trans _ (4503599627370496 * 2)); [exact B1'|].
  apply Z.mul_le_mono_nonneg; [discriminate|exact B2|discriminate|exact H].
Qed.

Lemma Qcompare_scale (a b : Z) (e : Z) :
  (inject_Z a * 2 ^ e ?= inject_Z b * 2 ^ e) = (a ?= b)%Z.
Proof.
  pose proof (pow2_pos e) as Hp.
  destruct (Z.compare_spec a b) as [E|E|E].
  - subst. apply Qeq_alt. reflexivity.
  - apply Qlt_alt. apply Qmult_lt_compat_r; [exact Hp|]. rewrite <- Zlt_Qlt. exact E.
  - apply Qgt_alt. apply Qmult_lt_compat_r; [exact Hp|]. rewrite <- Zlt_Qlt. exact E.
Qed.

Lemma Qcompare_opp (a b : Q) : (- a ?= - b) = CompOpp (a ?= b).
Proof.
  destruct (a ?= b) eqn:E; cbn [CompOpp].
  - apply Qeq_alt in E. apply Qeq_alt. rewrite E. reflexivity.
  - apply Qlt_alt in E. apply Qgt_alt. apply Qopp_lt_compat. exact E.
  - apply Qgt_alt in E. apply Qlt_alt. apply Qopp_lt_compat. exact E.
Qed.

Lemma compare_positive_finite (m1 m2 : positive) (e1 e2 : Z) :
  canonical_mantissa Binary64.prec Binary64.emax m1 e1 = true ->
  canonical_mantissa Binary64.prec Binary64.emax m2 e2 = true ->
  (inject_Z (Z.pos m1) * 2 ^ e1 ?= inject_Z (Z.pos m2) * 2 ^ e2)
  = match (e1 ?= e2)%Z with
    | Lt => Lt
    | Gt => Gt
    | Eq => Pos.compare_cont Eq m1 m2
    end.
Proof.
  intros C1 C2. destruct (Z.compare_spec e1 e2) as [E|E|E].
  - subst e2. rewrite Qcompare_scale. reflexivity.
  - apply Qlt_alt. apply canonical_lt; assumption.
  - apply Qgt_alt. apply canonical_lt; assumption.
Qed.

(** On valid binary64 values [compare] is the comparison of the standard
    library's specification of floating-point numbers. *)
Lemma compare_SFcompare (x y : Binary64.double) :
  valid_binary Binary64.prec Binary64.emax x = true ->
  valid_binary Binary64.prec Binary64.emax y = true ->
  Binary64.compare x y = SFcompare x y.
Proof.
  destruct x as [sx|sx| |sx mx ex], y as [sy|sy| |sy my ey];
    try reflexivity; cbn [valid_binary]; intros Vx Vy.
  - (* zero, finite *)
    cbn [Binary64.compare SFcompare]. f_equal.
    destruct sy.
    + apply Qgt_alt. apply toQ_neg.
    + apply Qlt_alt. apply toQ_pos.
  - (* finite, zero *)
    cbn [Binary64.compare SFcompare]. f_equal.
    destruct sx.
    + apply Qlt_alt. apply toQ_neg.
    + apply Qgt_alt. apply toQ_pos.
  - (* finite, finite *)
    unfold bounded in Vx, Vy. apply andb_true_iff in Vx, Vy.
    destruct Vx as [Cx _], Vy as [Cy _].
    cbn [Binary64.compare SFcompare]. f_equal.
    destruct sx, sy.
    + unfold Binary64.toQ. cbn [cond_Zopp].
      change (Z.neg mx) with (- Z.pos mx)%Z. change (Z.neg my) with (- Z.pos my)%Z.
      rewrite !inject_Z_opp.
      assert (E : forall a e, - inject_Z a * 2 ^ e == - (inject_Z a * 2 ^ e))
        by (intros; ring).
      rewrite !E, Qcompare_opp, (compare_positive_finite mx my ex ey Cx Cy).
      destruct (ex ?= ey)%Z; reflexivity.
    + apply (proj1 (Qlt_alt _ _)).
      pose proof (toQ_neg mx ex). pose proof (toQ_pos my ey). lra.
    + apply (proj1 (Qgt_alt _ _)).
      pose proof (toQ_pos mx ex). pose proof (toQ_neg my ey). lra.
    + unfold Binary64.toQ. cbn [cond_Zopp].
      apply compare_positive_finite; assumption.
Qed.

(* ------------------------------------------------------------------ *)
(** ** Binary64 numbers: whole numbers are computed exactly *)

Import Whole.

Lemma digits2_pos_unique (p : positive) (d : Z) :
  (2 ^ (d - 1) <= Z.pos p < 2 ^ d)%Z -> Z.pos (digits2_pos p) = d.
Proof.
  intros [Hlo Hhi].
  destruct (digits2_pos_bounds p) as [Blo Bhi].
  set (dp := Z.pos (digits2_pos p)) in *.
  assert (Hd : (0 < d)%Z).
  { destruct (Z.le_gt_cases d 0) as [H|H]; [|exact H].
    exfalso. destruct d as [|d|d]; cbn in Hhi; lia. }
  assert (H1 : (dp - 1 < d)%Z).
  { apply (Z.pow_lt_mono_r_iff 2); [lia|lia|]. lia. }
  assert (H2 : (d - 1 < dp)%Z).
  { apply (Z.pow_lt_mono_r_iff 2); [lia|subst dp; lia|]. lia. }
  lia.
Qed.

Lemma Zdigits2_shift (M k : Z) :
  (0 < M)%Z -> (0 <= k)%Z -> Zdigits2 (M * 2 ^ k) = (Zdigits2 M + k)%Z.
Proof.
  intros HM Hk. destruct M as [|p|p]; try lia.
  assert (Hpos : (0 < Z.pos p * 2 ^ k)%Z) by (apply Z.mul_pos_pos; [lia|apply Z.pow_pos_nonneg; lia]).
  destruct (Z.pos p * 2 ^ k)%Z as [|q|q] eqn:E; try lia.
  cbn [Zdigits2]. apply digits2_pos_unique. rewrite <- E.
  destruct (digits2_pos_bounds p) as [Blo Bhi].
  set (dp := Z.pos (digits2_pos p)) in *.
  assert (Hdp : (0 < dp)%Z) by (subst dp; lia).
  replace (dp + k - 1)%Z with ((dp - 1) + k)%Z by lia.
  rewrite !Z.pow_add_r by lia.
  assert (0 < 2 ^ k)%Z by (apply Z.pow_pos_nonneg; lia).
  split; nia.
Qed.

(** Dropping [n] low bits that are 0 loses nothing. *)
Lemma shr_1_even (M : Z) :
  (0 < M)%Z ->
  shr_1 {| shr_m := 2 * M; shr_r := false; shr_s := false |}
  = {| shr_m := M; shr_r := false; shr_s := false |}.
Proof. intro H. destruct M; try lia. reflexivity. Qed.

Lemma iter_shr_1_exact (n : positive) (M z : Z) :
  (0 < M)%Z -> (0 <= z)%Z ->
  iter_pos shr_1 n {| shr_m := M * 2 ^ (z + Z.pos n); shr_r := false; shr_s := false |}
  = {| shr_m := M * 2 ^ z; shr_r := false; shr_s := false |}.
Proof.
  intro HM. revert z. induction n as [n IH|n IH|]; intros z Hz; cbn [iter_pos].
  - replace (M * 2 ^ (z + Z.pos n~1))%Z with (2 * (M * 2 ^ (z + Z.pos n + Z.pos n)))%Z.
    2:{ rewrite Pos2Z.inj_xI.
        replace (z + (2 * Z.pos n + 1))%Z with (Z.succ (z + Z.pos n + Z.pos n)) by lia.
        rewrite Z.pow_succ_r by lia. ring. }
    rewrite shr_1_even
      by (apply Z.mul_pos_pos; [exact HM|apply Z.pow_pos_nonneg; lia]).
    rewrite (IH (z + Z.pos n)%Z) by lia. apply IH. exact Hz.
  - replace (z + Z.pos n~0)%Z with (z + Z.pos n + Z.pos n)%Z by (rewrite Pos2Z.inj_xO; lia).
    rewrite (IH (z + Z.pos n)%Z) by lia. apply IH. exact Hz.
  - replace (M * 2 ^ (z + 1))%Z with (2 * (M * 2 ^ z))%Z
      by (rewrite Z.add_1_r, Z.pow_succ_r by lia; ring).
    apply shr_1_even. apply Z.mul_pos_pos; [exact HM|apply Z.pow_pos_nonneg; lia].
Qed.

(** A mantissa and exponent that stand for the whole number [N] *)
Lemma whole_mantissa (M e N : Z) :
  (0 < M)%Z ->
  inject_Z M * 2 ^ e == inject_Z N ->
  ((0 <= e)%Z /\ N = (M * 2 ^ e)%Z) \/ ((e < 0)%Z /\ M = (N * 2 ^ (- e))%Z).
Proof.
  intros HM E. destruct (Z.le_gt_cases 0 e) as [He|He].
  - left. split; [exact He|].
    rewrite <- (Zpower_Qpower 2 e He), <- inject_Z_mult in E.
    symmetry. revert E. unfold Qeq, inject_Z. cbn. lia.
  - right. split; [exact He|].
    assert (E' : inject_Z M == inject_Z N * 2 ^ (- e)).
    { rewrite <- E. rewrite <- Qmult_assoc, <- Qpower_plus by discriminate.
      replace (e + - e)%Z with 0%Z by lia. cbn. ring. }
    rewrite <- (Zpower_Qpower 2 (- e)), <- inject_Z_mult in E' by lia.
    revert E'. unfold Qeq, inject_Z. cbn. lia.
Qed.

Lemma whole_digits (M e N : Z) :
  (0 < M)%Z ->
  inject_Z M * 2 ^ e == inject_Z N ->
  (0 < N)%Z /\ (Zdigits2 M + e = Zdigits2 N)%Z.
Proof.
  intros HM E. destruct (whole_mantissa M e N HM E) as [[He ->]|[He EM]].
  - assert (0 < 2 ^ e)%Z by (apply Z.pow_pos_nonneg; lia).
    split; [nia|]. rewrite Zdigits2_shift by lia. reflexivity.
  - assert (Hp : (0 < 2 ^ (- e))%Z) by (apply Z.pow_pos_nonneg; lia).
    assert (HN : (0 < N)%Z) by nia.
    split; [exact HN|]. rewrite EM, Zdigits2_shift by lia. lia.
Qed.

Lemma Zdigits2_le_53 (N : Z) :
  (0 < N < 2 ^ 53)%Z -> (1 <= Zdigits2 N <= 53)%Z.
Proof.
  intros [H0 H1]. destruct N as [|p|p]; try lia. cbn [Zdigits2].
  destruct (digits2_pos_bounds p) as [Blo _].
  split; [lia|].
  assert (Z.pos (digits2_pos p) - 1 < 53)%Z; [|lia].
  apply (Z.pow_lt_mono_r_iff 2); lia.
Qed.

Lemma fexp_whole (d : Z) :
  (1 <= d <= 53)%Z -> fexp Binary64.prec Binary64.emax d = (d - 53)%Z.
Proof. intro H. unfold fexp, emin, Binary64.prec, Binary64.emax. lia. Qed.

(** Bringing a mantissa to its canonical exponent does not change it when
    it is already there. *)
Lemma shr_fexp_stable (M e : Z) :
  (fexp Binary64.prec Binary64.emax (Zdigits2 M + e) - e <= 0)%Z ->
  shr_fexp Binary64.prec Binary64.emax M e loc_Exact
  = ({| shr_m := M; shr_r := false; shr_s := false |}, e).
Proof.
  intro H. unfold shr_fexp, shr. cbn [shr_record_of_loc].
  destruct (fexp _ _ _ - e)%Z; try reflexivity. lia.
Qed.

(** For a mantissa and exponent that stand for a whole number below 2^53,
    bringing the mantissa to its canonical exponent drops only zero bits. *)
Lemma shr_fexp_whole (M e N : Z) :
  (0 < M)%Z ->
  inject_Z M * 2 ^ e == inject_Z N ->
  (N < 2 ^ 53)%Z ->
  exists M' e',
    shr_fexp Binary64.prec Binary64.emax M e loc_Exact
    = ({| shr_m := M'; shr_r := false; shr_s := false |}, e')
    /\ (0 < M')%Z
    /\ inject_Z M' * 2 ^ e' == inject_Z N
    /\ (fexp Binary64.prec Binary64.emax (Zdigits2 M' + e') - e' <= 0)%Z
    /\ (e' <= 52)%Z.
Proof.
  intros HM E HN.
  destruct (whole_digits M e N HM E) as [HN0 Hd].
  pose proof (Zdigits2_le_53 N (conj HN0 HN)) as HdN.
  destruct (Z.le_gt_cases (Zdigits2 N - 53 - e) 0) as [Hn|Hn].
  - (* nothing to drop *)
    exists M, e. rewrite shr_fexp_stable by (rewrite Hd, fexp_whole; lia).
    split; [reflexivity|]. split; [exact HM|]. split; [exact E|].
    split; [rewrite Hd, fexp_whole; lia|].
    destruct (whole_mantissa M e N HM E) as [[He EN]|[He _]]; [|lia].
    assert (He' : (e < 53)%Z); [|lia].
    apply (Z.pow_lt_mono_r_iff 2); [lia|lia|].
    apply (Z.le_lt_trans _ N); [|exact HN].
    rewrite EN. assert (0 < 2 ^ e)%Z by (apply Z.pow_pos_nonneg; lia). nia.
  - (* [n] low bits are dropped, all zero *)
    destruct (whole_mantissa M e N HM E) as [[He _]|[He EM]]; [lia|].
    set (n := (Zdigits2 N - 53 - e)%Z) in *.
    set (z := (53 - Zdigits2 N)%Z).
    assert (Hz : (0 <= z)%Z) by (subst z; lia).
    exists (N * 2 ^ z)%Z, (Zdigits2 N - 53)%Z.
    assert (Hpz : (0 < 2 ^ z)%Z) by (apply Z.pow_pos_nonneg; lia).
    split.
    + unfold shr_fexp, shr. cbn [shr_record_of_loc].
      rewrite Hd, fexp_whole by lia. fold n.
      destruct n as [|pn|pn] eqn:En; try lia.
      f_equal; [|lia].
      replace M with (N * 2 ^ (z + Z.pos pn))%Z
        by (rewrite EM; f_equal; f_equal; subst z; lia).
      apply iter_shr_1_exact; assumption.
    + split; [nia|]. split.
      * rewrite inject_Z_mult, (Zpower_Qpower 2 z) by exact Hz.
        change (inject_Z 2) with 2.
        rewrite <- Qmult_assoc, <- Qpower_plus by discriminate.
        replace (z + (Zdigits2 N - 53))%Z with 0%Z by (subst z; lia).
        cbn. ring.
      * split; [|lia].
        rewrite Zdigits2_shift by lia.
        replace (Zdigits2 N + z + (Zdigits2 N - 53))%Z with (Zdigits2 N) by (subst z; lia).
        rewrite fexp_whole; lia.
Qed.

(** Rounding a whole number below 2^53 gives that number. *)
Lemma binary_round_aux_whole (s : bool) (M e N : Z) :
  (0 < M)%Z ->
  inject_Z M * 2 ^ e == inject_Z N ->
  (N < 2 ^ 53)%Z ->
  let r := binary_round_aux Binary64.prec Binary64.emax s M e loc_Exact in
  Binary64.isFinite r = true /\ Binary64.toQ r == inject_Z (cond_Zopp s N).
Proof.
  intros HM E HN r. subst r.
  destruct (shr_fexp_whole M e N HM E HN) as (M' & e' & E1 & HM' & EV & Hst & He').
  unfold binary_round_aux. rewrite E1.
  cbn [shr_m loc_of_shr_record round_nearest_even].
  rewrite (shr_fexp_stable M' e' Hst). cbn [shr_m].
  destruct M' as [|p|p]; try lia.
  assert (Hle : (e' <=? Binary64.emax - Binary64.prec)%Z = true)
    by (apply Z.leb_le; unfold Binary64.emax, Binary64.prec; lia).
  rewrite Hle. split; [reflexivity|].
  unfold Binary64.toQ.
  assert (Hc : inject_Z (cond_Zopp s (Z.pos p)) * 2 ^ e'
               == (if s then -1 else 1) * (inject_Z (Z.pos p) * 2 ^ e')).
  { destruct s; cbn [cond_Zopp].
    - change (Z.neg p) with (- Z.pos p)%Z. rewrite inject_Z_opp. ring.
    - ring. }
  rewrite Hc, EV. destruct s; cbn [cond_Zopp]; [rewrite inject_Z_opp|]; ring.
Qed.

Lemma shl_align_value (p : positive) (e e' : Z) :
  inject_Z (Z.pos (fst (shl_align p e e'))) * 2 ^ snd (shl_align p e e')
  == inject_Z (Z.pos p) * 2 ^ e.
Proof.
  unfold shl_align. destruct (e' - e)%Z as [|d|d] eqn:Ed; cbn [fst snd];
    try reflexivity.
  rewrite iter_xO, inject_Z_mult, Zpower_Qpower by lia.
  change (inject_Z 2) with 2.
  rewrite <- Qmult_assoc, <- Qpower_plus by discriminate.
  replace (Z.pos d + e')%Z with e by lia. reflexivity.
Qed.

Lemma inject_Z_zero (N : Z) : inject_Z N == 0 -> N = 0%Z.
Proof. unfold Qeq, inject_Z. cbn. lia. Qed.

Lemma binary_normalize_whole (M ez N : Z) :
  inject_Z M * 2 ^ ez == inject_Z N ->
  (Z.abs N < 2 ^ 53)%Z ->
  exactly (binary_normalize Binary64.prec Binary64.emax M ez false) (inject_Z N).
Proof.
  intros E HN. destruct M as [|p|p]; cbn [binary_normalize].
  - split; [reflexivity|]. cbn [Binary64.toQ].
    assert (N = 0%Z) by (apply inject_Z_zero; rewrite <- E; ring). subst N. reflexivity.
  - unfold binary_round.
    pose proof (shl_align_value p ez
                  (fexp Binary64.prec Binary64.emax (Z.pos (digits2_pos p) + ez))) as V.
    destruct (shl_align _ _ _) as [mz ez']. cbn [fst snd] in V.
    apply (binary_round_aux_whole false (Z.pos mz) ez' N); [lia|rewrite V; exact E|lia].
  - unfold binary_round.
    pose proof (shl_align_value p ez
                  (fexp Binary64.prec Binary64.emax (Z.pos (digits2_pos p) + ez))) as V.
    destruct (shl_align _ _ _) as [mz ez']. cbn [fst snd] in V.
    assert (E' : inject_Z (Z.pos mz) * 2 ^ ez' == inject_Z (- N)).
    { rewrite V, inject_Z_opp, <- E.
      change (Z.neg p) with (- Z.pos p)%Z. rewrite inject_Z_opp. ring. }
    destruct (binary_round_aux_whole true (Z.pos mz) ez' (- N)%Z ltac:(lia) E' ltac:(lia))
      as [F Vr].
    split; [exact F|]. rewrite Vr. cbn [cond_Zopp]. rewrite Z.opp_involutive. reflexivity.
Qed.

Lemma exact_finite_parts (x : Binary64.double) (q : Q) :
  exactly x q ->
  match x with
  | S754_zero _ => q == 0
  | S754_finite s mx ex => inject_Z (cond_Zopp s (Z.pos mx)) * 2 ^ ex == q
  | _ => False
  end.
Proof.
  intros [F V]. destruct x; try discriminate; cbn [Binary64.toQ] in V.
  - symmetry. exact V.
  - exact V.
Qed.

(** Sums and differences of whole numbers are exact as long as the result
    stays below 2^53. *)
Lemma add_whole (a b : Binary64.double) (A B : Z) :
  exactly a (inject_Z A) -> exactly b (inject_Z B) ->
  (Z.abs (A + B) < 2 ^ 53)%Z ->
  exactly (Binary64.add a b) (inject_Z (A + B)).
Proof.
  intros Ha Hb HN.
  pose proof (exact_finite_parts _ _ Ha) as Pa.
  pose proof (exact_finite_parts _ _ Hb) as Pb.
  destruct a as [sa| | |sa ma ea], b as [sb| | |sb mb eb]; try contradiction.
  - apply inject_Z_zero in Pa.
    apply inject_Z_zero in Pb. subst A B.
    split; [destruct sa, sb; reflexivity|]. destruct sa, sb; reflexivity.
  - apply inject_Z_zero in Pa. subst A. exact Hb.
  - apply inject_Z_zero in Pb. subst B.
    rewrite Z.add_0_r. exact Ha.
  - unfold Binary64.add, SFadd. apply binary_normalize_whole; [|exact HN].
    set (ez := Z.min ea eb).
    rewrite inject_Z_plus, inject_Z_plus, Qmult_plus_distr_l.
    rewrite (aligned_value sa ma ea ez), (aligned_value sb mb eb ez) by (subst ez; lia).
    unfold Binary64.toQ. rewrite Pa, Pb. reflexivity.
Qed.

Lemma sub_whole (a b : Binary64.double) (A B : Z) :
  exactly a (inject_Z A) -> exactly b (inject_Z B) ->
  (Z.abs (A - B) < 2 ^ 53)%Z ->
  exactly (Binary64.sub a b) (inject_Z (A - B)).
Proof.
  intros Ha Hb HN.
  pose proof (exact_finite_parts _ _ Ha) as Pa.
  pose proof (exact_finite_parts _ _ Hb) as Pb.
  destruct a as [sa| | |sa ma ea], b as [sb| | |sb mb eb]; try contradiction.
  - apply inject_Z_zero in Pa.
    apply inject_Z_zero in Pb. subst A B.
    split; [destruct sa, sb; reflexivity|]. destruct sa, sb; reflexivity.
  - apply inject_Z_zero in Pa. subst A.
    split; [reflexivity|]. cbn [Binary64.sub SFsub Binary64.toQ].
    rewrite Z.sub_0_l, inject_Z_opp, <- Pb.
    destruct sb; cbn [negb cond_Zopp];
      [change (Z.neg mb) with (- Z.pos mb)%Z; rewrite inject_Z_opp|
       change (Z.neg mb) with (- Z.pos mb)%Z; rewrite inject_Z_opp]; ring.
  - apply inject_Z_zero in Pb. subst B.
    rewrite Z.sub_0_r. exact Ha.
  - unfold Binary64.sub, SFsub. apply binary_normalize_whole; [|exact HN].
    set (ez := Z.min ea eb).
    unfold Z.sub at 1.
    rewrite inject_Z_plus, inject_Z_opp.
    assert (Ed : forall x y p, (x + - y) * p == x * p - y * p) by (intros; ring).
    rewrite Ed.
    rewrite (aligned_value sa ma ea ez), (aligned_value sb mb eb ez) by (subst ez; lia).
    unfold Binary64.toQ. rewrite Pa, Pb.
    unfold Z.sub. rewrite inject_Z_plus, inject_Z_opp. ring.
Qed.

(** The quotient of a whole number by 1, as the division algorithm of the
    standard library returns it before rounding *)
Lemma div_core_by_one (p : positive) :
  (Z.pos p < 2 ^ 53)%Z ->
  exists M e,
    SFdiv_core_binary Binary64.prec Binary64.emax (Z.pos p) 0 1 0 = (M, e, loc_Exact)
    /\ (0 < M)%Z
    /\ inject_Z M * 2 ^ e == inject_Z (Z.pos p).
Proof.
  intro Hp.
  pose proof (Zdigits2_le_53 (Z.pos p) ltac:(lia)) as Hd. cbn [Zdigits2] in Hd.
  unfold SFdiv_core_binary. cbn [Zdigits2 digits2_pos].
  set (d := Z.pos (digits2_pos p)) in *.
  assert (Ef : fexp Binary64.prec Binary64.emax (d + 0 - (1 + 0)) = (d - 54)%Z)
    by (unfold fexp, emin, Binary64.prec, Binary64.emax; lia).
  rewrite Ef.
  replace (Z.min (d - 54) (0 - 0)) with (d - 54)%Z by lia.
  destruct (0 - 0 - (d - 54))%Z as [|ps|ps] eqn:Es; try lia.
  rewrite Z.shiftl_mul_pow2 by lia.
  assert (Hpos : (0 < Z.pos p * 2 ^ Z.pos ps)%Z)
    by (apply Z.mul_pos_pos; [lia|apply Z.pow_pos_nonneg; lia]).
  pose proof (Z_div_mod (Z.pos p * 2 ^ Z.pos ps) 1 ltac:(lia)) as Hdm.
  destruct (Z.div_eucl (Z.pos p * 2 ^ Z.pos ps) 1) as [q r].
  destruct Hdm as [Hq Hr].
  assert (r = 0%Z) by lia. subst r.
  assert (q = (Z.pos p * 2 ^ Z.pos ps)%Z) by lia. subst q.
  exists (Z.pos p * 2 ^ Z.pos ps)%Z, (d - 54)%Z.
  split; [reflexivity|]. split; [exact Hpos|].
  rewrite inject_Z_mult, Zpower_Qpower by lia. change (inject_Z 2) with 2.
  rewrite <- Qmult_assoc, <- Qpower_plus by discriminate.
  replace (Z.pos ps + (d - 54))%Z with 0%Z by lia. cbn. ring.
Qed.

(** A whole number below 2^53 is read as itself. *)
Lemma ofQ_whole (N : Z) :
  (Z.abs N < 2 ^ 53)%Z -> exactly (Binary64.ofQ (inject_Z N)) (inject_Z N).
Proof.
  intro HN. unfold Binary64.ofQ, inject_Z. cbn [Qnum Qden].
  destruct N as [|p|p].
  - split; reflexivity.
  - destruct (div_core_by_one p ltac:(lia)) as (M & e & Ec & HM & EV).
    unfold Binary64.div, SFdiv. rewrite Ec. cbn [xorb].
    apply (binary_round_aux_whole false M e (Z.pos p)); [exact HM|exact EV|lia].
  - destruct (div_core_by_one p ltac:(lia)) as (M & e & Ec & HM & EV).
    unfold Binary64.div, SFdiv. rewrite Ec. cbn [xorb].
    apply (binary_round_aux_whole true M e (Z.pos p)); [exact HM|exact EV|lia].
Qed.

Lemma exact_zero : exactly Binary64.zero 0.
Proof. split; reflexivity. Qed.

Lemma exact_one : exactly Binary64.one 1.
Proof. exact (ofQ_whole 1 ltac:(cbn; lia)). Qed.

Lemma exact_max (a b : Binary64.double) (p q : Q) :
  exactly a p -> exactly b q -> exactly (Binary64.max a b) (Qmax p q).
Proof.
  intros [Fa Va] [Fb Vb]. destruct (max_finite a b Fa Fb) as [F V].
  split; [exact F|]. rewrite V, Va, Vb. reflexivity.
Qed.

Lemma exact_min (a b : Binary64.double) (p q : Q) :
  exactly a p -> exactly b q -> exactly (Binary64.min a b) (Qmin p q).
Proof.
  intros [Fa Va] [Fb Vb]. destruct (min_finite a b Fa Fb) as [F V].
  split; [exact F|]. rewrite V, Va, Vb. reflexivity.
Qed.

Lemma exact_abs (a : Binary64.double) (p : Q) :
  exactly a p -> exactly (Binary64.abs a) (Qabs p).
Proof.
  intros [Fa Va]. destruct a as [s| | |s ma ea]; try discriminate.
  - split; [reflexivity|]. cbn [Binary64.abs SFabs Binary64.toQ] in *.
    rewrite <- Va. reflexivity.
  - split; [reflexivity|]. rewrite <- Va.
    destruct s.
    + pose proof (toQ_neg ma ea) as Hn.
      rewrite Qabs_neg by (apply Qlt_le_weak; exact Hn).
      unfold Binary64.abs, SFabs, Binary64.toQ. cbn [cond_Zopp].
      change (Z.neg ma) with (- Z.pos ma)%Z. rewrite inject_Z_opp. ring.
    + pose proof (toQ_pos ma ea) as Hp.
      rewrite Qabs_pos by (apply Qlt_le_weak; exact Hp). reflexivity.
Qed.

(** On finite numbers the tests are those of the values. *)
Lemma exact_gtb (a b : Binary64.double) (p q : Q) :
  exactly a p -> exactly b q -> Binary64.gtb a b = JS.gtb p q.
Proof.
  intros [Fa Va] [Fb Vb].
  destruct (JS.gtb p q) eqn:G.
  - apply gtb_true_iff in G. apply ltb_finite; [assumption..|]. rewrite Va, Vb. exact G.
  - apply gtb_false_iff in G.
    destruct (Binary64.gtb a b) eqn:G'; [|reflexivity].
    apply ltb_finite in G'; [|assumption..]. rewrite Va, Vb in G'.
    exfalso. apply (Qlt_not_le _ _ G' G).
Qed.

Lemma exact_eqb (a b : Binary64.double) (p q : Q) :
  exactly a p -> exactly b q -> Binary64.eqb a b = Qeq_bool p q.
Proof.
  intros [Fa Va] [Fb Vb].
  destruct (Qeq_bool p q) eqn:G.
  - apply Qeq_bool_iff in G. apply eqb_finite; [assumption..|]. rewrite Va, Vb. exact G.
  - apply Qeq_bool_neq in G.
    destruct (Binary64.eqb a b) eqn:G'; [|reflexivity].
    apply eqb_finite in G'; [|assumption..]. rewrite Va, Vb in G'. contradiction.
Qed.

Lemma exact_leb (a b : Binary64.double) (p q : Q) :
  exactly a p -> exactly b q -> Binary64.leb a b = JS.leb p q.
Proof.
  intros Ha Hb.
  assert (Na : Binary64.isNaN a = false) by (destruct Ha as [F _]; destruct a; try discriminate; reflexivity).
  assert (Nb : Binary64.isNaN b = false) by (destruct Hb as [F _]; destruct b; try discriminate; reflexivity).
  rewrite (leb_not_gtb a b Na Nb), (exact_gtb a b p q Ha Hb).
  unfold JS.gtb, JS.ltb, JS.leb. rewrite negb_involutive. reflexivity.
Qed.

(* ------------------------------------------------------------------ *)
(** ** Plans in whole numbers: the binary64 run is the exact run *)

Lemma wholeExact_exact (k : Z) (x : Binary64.double) (q : Q) :
  wholeExact k x q -> exactly x q.
Proof.
  intros (n & _ & Eq & [F V]). split; [exact F|]. rewrite V, Eq. reflexivity.
Qed.

Lemma wholeExact_weaken (k k' : Z) (x : Binary64.double) (q : Q) :
  (0 <= k <= k')%Z -> wholeExact k x q -> wholeExact k' x q.
Proof.
  intros Hk (n & Hn & Eq & Hx). exists n. split; [|auto].
  apply (Z.le_trans _ _ _ Hn). apply Z.pow_le_mono_r; lia.
Qed.

Lemma wholeExact_zero (k : Z) : (0 <= k)%Z -> wholeExact k Binary64.zero 0.
Proof.
  intro Hk. exists 0%Z. split; [|split; [reflexivity|apply exact_zero]].
  cbn. apply Z.pow_nonneg. lia.
Qed.

Lemma pow2_50_lt_53 (n : Z) : (Z.abs n <= 2 ^ 50)%Z -> (Z.abs n < 2 ^ 53)%Z.
Proof. intro H. apply (Z.le_lt_trans _ _ _ H). reflexivity. Qed.

Lemma Qmax_inject_Z (a b : Z) : Qmax (inject_Z a) (inject_Z b) == inject_Z (Z.max a b).
Proof.
  destruct (Z.max_spec a b) as [[H ->]|[H ->]].
  - apply Q.max_r. rewrite <- Zle_Qle. lia.
  - apply Q.max_l. rewrite <- Zle_Qle. lia.
Qed.

Lemma Qmin_inject_Z (a b : Z) : Qmin (inject_Z a) (inject_Z b) == inject_Z (Z.min a b).
Proof.
  destruct (Z.min_spec a b) as [[H ->]|[H ->]].
  - apply Q.min_l. rewrite <- Zle_Qle. lia.
  - apply Q.min_r. rewrite <- Zle_Qle. lia.
Qed.

Lemma exact_compat (x : Binary64.double) (p q : Q) : p == q -> exactly x p -> exactly x q.
Proof. intros E [F V]. split; [exact F|]. rewrite V. exact E. Qed.

Lemma wholeExact_max (k : Z) (a b : Binary64.double) (p q : Q) :
  wholeExact k a p -> wholeExact k b q -> wholeExact k (Binary64.max a b) (Qmax p q).
Proof.
  intros (n & Hn & En & Xa) (m' & Hm & Em & Xb). exists (Z.max n m').
  split; [lia|]. split.
  - rewrite <- Qmax_inject_Z.
    destruct (Q.max_spec p q) as [[H1 E1]|[H1 E1]];
      destruct (Q.max_spec (inject_Z n) (inject_Z m')) as [[H2 E2]|[H2 E2]];
      rewrite E1, E2; rewrite En, Em in H1; try assumption; lra.
  - apply (exact_compat _ _ _ (Qmax_inject_Z n m')). apply exact_max; assumption.
Qed.

Lemma wholeExact_min (k : Z) (a b : Binary64.double) (p q : Q) :
  wholeExact k a p -> wholeExact k b q -> wholeExact k (Binary64.min a b) (Qmin p q).
Proof.
  intros (n & Hn & En & Xa) (m' & Hm & Em & Xb). exists (Z.min n m').
  split; [lia|]. split.
  - rewrite <- Qmin_inject_Z.
    destruct (Q.min_spec p q) as [[H1 E1]|[H1 E1]];
      destruct (Q.min_spec (inject_Z n) (inject_Z m')) as [[H2 E2]|[H2 E2]];
      rewrite E1, E2; rewrite En, Em in H1; try assumption; lra.
  - apply (exact_compat _ _ _ (Qmin_inject_Z n m')). apply exact_min; assumption.
Qed.

Lemma wholeExact_add (k : Z) (a b : Binary64.double) (p q : Q) :
  (0 <= k < 52)%Z ->
  wholeExact k a p -> wholeExact k b q ->
  wholeExact (k + 1) (Binary64.add a b) (p + q).
Proof.
  intros Hk (n & Hn & En & Xa) (m' & Hm & Em & Xb). exists (n + m')%Z.
  assert (Hp : (2 ^ (k + 1) = 2 * 2 ^ k)%Z) by (rewrite Z.add_1_r, Z.pow_succ_r; lia).
  assert (Hb : (2 ^ (k + 1) < 2 ^ 53)%Z) by (apply Z.pow_lt_mono_r; lia).
  split; [lia|]. split.
  - rewrite En, Em, inject_Z_plus. reflexivity.
  - apply add_whole; [assumption..|lia].
Qed.

Lemma wholeExact_sub (k : Z) (a b : Binary64.double) (p q : Q) :
  (0 <= k < 52)%Z ->
  wholeExact k a p -> wholeExact k b q ->
  wholeExact (k + 1) (Binary64.sub a b) (p - q).
Proof.
  intros Hk (n & Hn & En & Xa) (m' & Hm & Em & Xb). exists (n - m')%Z.
  assert (Hp : (2 ^ (k + 1) = 2 * 2 ^ k)%Z) by (rewrite Z.add_1_r, Z.pow_succ_r; lia).
  assert (Hb : (2 ^ (k + 1) < 2 ^ 53)%Z) by (apply Z.pow_lt_mono_r; lia).
  split; [lia|]. split.
  - rewrite En, Em. unfold Z.sub. rewrite inject_Z_plus, inject_Z_opp. reflexivity.
  - apply sub_whole; [assumption..|lia].
Qed.

Lemma wholeNumber_spec (q : Q) : wholeNumber q = true -> wholeExact 50 (num q) q.
Proof.
  destruct q as [n d]. unfold wholeNumber. cbn [Qnum Qden]. intro H.
  apply andb_true_iff in H. destruct H as [Hd Hn].
  apply Pos.eqb_eq in Hd. apply Z.leb_le in Hn. subst d.
  exists n. split; [exact Hn|]. split; [reflexivity|].
  apply (ofQ_whole n). apply pow2_50_lt_53. exact Hn.
Qed.

Lemma wholeLength_spec (o : option Q) :
  wholeLength o = true ->
  wholeExact 50 (JS.orElse (optNum o) Binary64.zero) (JS.orElse o 0).
Proof.
  destruct o as [l|]; cbn [wholeLength optNum option_map JS.orElse].
  - apply wholeNumber_spec.
  - intros _. apply wholeExact_zero. lia.
Qed.

Lemma wholeRoom_spec (room : Room) :
  wholeRoom room = true ->
  wholeNumber (pos_x (room_position room)) = true
  /\ wholeNumber (pos_y (room_position room)) = true
  /\ forall side, wholeLength (wall_length (wallAt (room_walls room) side)) = true.
Proof.
  unfold wholeRoom. intro H.
  apply andb_true_iff in H. destruct H as [H Hs].
  apply andb_true_iff in H. destruct H as [Hx Hy].
  split; [exact Hx|]. split; [exact Hy|].
  intro side. rewrite forallb_forall in Hs. apply Hs.
  destruct side; cbn; auto.
Qed.

Lemma bounds_agree (room : Room) :
  wholeRoom room = true ->
  sameBounds (Validation64.getRoomBounds room) (Validation.getRoomBounds room).
Proof.
  intro H. destruct (wholeRoom_spec room H) as (Hx & Hy & Hs).
  unfold sameBounds, Validation64.getRoomBounds, Validation.getRoomBounds.
  cbn [Validation64.rb_id Validation64.rb_name Validation64.rb_x Validation64.rb_y
       Validation64.rb_width Validation64.rb_height
       Validation.rb_id Validation.rb_name Validation.rb_x Validation.rb_y
       Validation.rb_width Validation.rb_height].
  split; [reflexivity|]. split; [reflexivity|].
  split; [apply wholeNumber_spec; exact Hx|].
  split; [apply wholeNumber_spec; exact Hy|].
  split.
  - unfold roomWidth. apply wholeExact_max; apply wholeLength_spec.
    + exact (Hs north).
    + exact (Hs south).
  - unfold roomHeight. apply wholeExact_max; apply wholeLength_spec.
    + exact (Hs east).
    + exact (Hs west).
Qed.

Lemma wholeExact_50_51 (x : Binary64.double) (q : Q) :
  wholeExact 50 x q -> wholeExact 51 x q.
Proof. apply wholeExact_weaken. lia. Qed.

Lemma wholeExact_edge (a b : Binary64.double) (p q : Q) :
  wholeExact 50 a p -> wholeExact 50 b q -> wholeExact 51 (Binary64.add a b) (p + q).
Proof. intros Ha Hb. apply (wholeExact_add 50); [lia|assumption..]. Qed.

Lemma wholeExact_gap (a b : Binary64.double) (p q : Q) :
  wholeExact 51 a p -> wholeExact 51 b q -> exactly (Binary64.sub a b) (p - q).
Proof.
  intros Ha Hb. apply (wholeExact_exact 52).
  apply (wholeExact_sub 51); [lia|assumption..].
Qed.

Lemma rectanglesOverlap_agree (b64 c64 : Validation64.RoomBounds) (b c : Validation.RoomBounds) :
  sameBounds b64 b -> sameBounds c64 c ->
  sameOption sameRect (Validation64.rectanglesOverlap b64 c64)
                      (Validation.rectanglesOverlap b c).
Proof.
  intros (_ & _ & Bx & By & Bw & Bh) (_ & _ & Cx & Cy & Cw & Ch).
  unfold Validation64.rectanglesOverlap, Validation.rectanglesOverlap.
  cbv zeta.
  pose proof (wholeExact_max _ _ _ _ _ Bx Cx) as X1.
  pose proof (wholeExact_max _ _ _ _ _ By Cy) as Y1.
  pose proof (wholeExact_min _ _ _ _ _ (wholeExact_edge _ _ _ _ Bx Bw)
                                        (wholeExact_edge _ _ _ _ Cx Cw)) as X2.
  pose proof (wholeExact_min _ _ _ _ _ (wholeExact_edge _ _ _ _ By Bh)
                                        (wholeExact_edge _ _ _ _ Cy Ch)) as Y2.
  pose proof (wholeExact_gap _ _ _ _ X2 (wholeExact_50_51 _ _ X1)) as W.
  pose proof (wholeExact_gap _ _ _ _ Y2 (wholeExact_50_51 _ _ Y1)) as Hh.
  rewrite (exact_gtb _ _ _ _ W exact_one), (exact_gtb _ _ _ _ Hh exact_one).
  destruct (JS.gtb _ 1 && JS.gtb _ 1)%bool; cbn [sameOption]; [|exact I].
  unfold sameRect.
  cbn [Validation64.rect_x Validation64.rect_y Validation64.rect_width
       Validation64.rect_height Validation.rect_x Validation.rect_y
       Validation.rect_width Validation.rect_height].
  split; [exact (wholeExact_exact _ _ _ X1)|].
  split; [exact (wholeExact_exact _ _ _ Y1)|].
  split; [exact W|exact Hh].
Qed.

Lemma segment_agree (room : Room) (side : WallSide) :
  wholeRoom room = true ->
  sameSegment (Validation64.getWallSegment room side) (Validation.getWallSegment room side).
Proof.
  intro H. destruct (bounds_agree room H) as (_ & _ & Bx & By & Bw & Bh).
  pose proof (wholeExact_edge _ _ _ _ Bx Bw) as Ex.
  pose proof (wholeExact_edge _ _ _ _ By Bh) as Ey.
  pose proof (wholeExact_50_51 _ _ Bx) as Bx'.
  pose proof (wholeExact_50_51 _ _ By) as By'.
  unfold sameSegment, Validation64.getWallSegment, Validation.getWallSegment.
  destruct side;
    cbn [Validation64.ws_roomId Validation64.ws_roomName Validation64.ws_side
         Validation64.ws_exists Validation64.ws_x1 Validation64.ws_y1
         Validation64.ws_x2 Validation64.ws_y2
         Validation.ws_roomId Validation.ws_roomName Validation.ws_side
         Validation.ws_exists Validation.ws_x1 Validation.ws_y1
         Validation.ws_x2 Validation.ws_y2];
    repeat split; assumption.
Qed.

Lemma wallsOverlap_agree (s64 t64 : Validation64.WallSegment) (s t : Validation.WallSegment) :
  sameSegment s64 s -> sameSegment t64 t ->
  Validation64.wallsOverlap s64 t64 = Validation.wallsOverlap s t.
Proof.
  intros (_ & _ & _ & _ & Sx1 & Sy1 & Sx2 & Sy2) (_ & _ & _ & _ & Tx1 & Ty1 & Tx2 & Ty2).
  unfold Validation64.wallsOverlap, Validation.wallsOverlap. cbv zeta.
  rewrite (exact_eqb _ _ _ _ (wholeExact_exact _ _ _ Sy1) (wholeExact_exact _ _ _ Sy2)).
  rewrite (exact_eqb _ _ _ _ (wholeExact_exact _ _ _ Ty1) (wholeExact_exact _ _ _ Ty2)).
  unfold JS.abs.
  rewrite (exact_gtb _ _ _ _ (exact_abs _ _ (wholeExact_gap _ _ _ _ Sy1 Ty1)) exact_one).
  rewrite (exact_gtb _ _ _ _ (exact_abs _ _ (wholeExact_gap _ _ _ _ Sx1 Tx1)) exact_one).
  rewrite (exact_gtb _ _ _ _
             (wholeExact_gap _ _ _ _
                (wholeExact_min _ _ _ _ _ (wholeExact_max _ _ _ _ _ Sx1 Sx2)
                                          (wholeExact_max _ _ _ _ _ Tx1 Tx2))
                (wholeExact_max _ _ _ _ _ (wholeExact_min _ _ _ _ _ Sx1 Sx2)
                                          (wholeExact_min _ _ _ _ _ Tx1 Tx2)))
             exact_one).
  rewrite (exact_gtb _ _ _ _
             (wholeExact_gap _ _ _ _
                (wholeExact_min _ _ _ _ _ (wholeExact_max _ _ _ _ _ Sy1 Sy2)
                                          (wholeExact_max _ _ _ _ _ Ty1 Ty2))
                (wholeExact_max _ _ _ _ _ (wholeExact_min _ _ _ _ _ Sy1 Sy2)
                                          (wholeExact_min _ _ _ _ _ Ty1 Ty2)))
             exact_one).
  reflexivity.
Qed.

Lemma Forall2_flat_map_rel {A B C D : Type} (R' : A -> B -> Prop) (R : C -> D -> Prop)
      (f : A -> list C) (g : B -> list D) (xs : list A) (ys : list B) :
  (forall x y, R' x y -> Forall2 R (f x) (g y)) ->
  Forall2 R' xs ys -> Forall2 R (flat_map f xs) (flat_map g ys).
Proof.
  intros Hfg H. induction H as [|x y xs ys Hxy _ IH]; cbn [flat_map].
  - constructor.
  - apply Forall2_app; [apply Hfg; exact Hxy|exact IH].
Qed.

Lemma Forall2_forPairs {A B C D : Type} (R' : A -> B -> Prop) (R : C -> D -> Prop)
      (f : A -> A -> list C) (g : B -> B -> list D) (xs : list A) (ys : list B) :
  (forall x y x' y', R' x x' -> R' y y' -> Forall2 R (f x y) (g x' y')) ->
  Forall2 R' xs ys -> Forall2 R (JS.forPairs f xs) (JS.forPairs g ys).
Proof.
  intros Hfg H. induction H as [|x y xs ys Hxy Hrest IH]; cbn [JS.forPairs].
  - constructor.
  - apply Forall2_app; [|exact IH].
    apply (Forall2_flat_map_rel R' R); [|exact Hrest].
    intros a b Hab. apply Hfg; assumption.
Qed.

Lemma wholeRooms_bounds (rooms : list Room) :
  forallb wholeRoom rooms = true ->
  Forall2 sameBounds (map Validation64.getRoomBounds rooms) (map Validation.getRoomBounds rooms).
Proof.
  induction rooms as [|room rest IH]; cbn [forallb map]; intro H.
  - constructor.
  - apply andb_true_iff in H. destruct H as [Hr Hrest].
    constructor; [apply bounds_agree; exact Hr|apply IH; exact Hrest].
Qed.

Lemma wholeRooms_walls (rooms : list Room) :
  forallb wholeRoom rooms = true ->
  Forall2 sameSegment (Validation64.collectWalls rooms) (Validation.collectWalls rooms).
Proof.
  unfold Validation64.collectWalls, Validation.collectWalls.
  induction rooms as [|room rest IH]; cbn [forallb flat_map]; intro H.
  - constructor.
  - apply andb_true_iff in H. destruct H as [Hr Hrest].
    apply Forall2_app; [|apply IH; exact Hrest].
    unfold Validation.sides. cbn [map].
    repeat constructor; apply segment_agree; exact Hr.
Qed.

Lemma overlapStep_agree (b64 c64 : Validation64.RoomBounds) (b c : Validation.RoomBounds) :
  sameBounds b64 b -> sameBounds c64 c ->
  Forall2 sameIssue (Validation64.overlapStep b64 c64) (Validation.overlapStep b c).
Proof.
  intros Hb Hc. pose proof (rectanglesOverlap_agree _ _ _ _ Hb Hc) as H.
  unfold Validation64.overlapStep, Validation.overlapStep.
  destruct (Validation64.rectanglesOverlap b64 c64) as [o64|];
    destruct (Validation.rectanglesOverlap b c) as [o|]; cbn [sameOption] in H;
    try contradiction; [|constructor].
  constructor; [|constructor].
  destruct Hb as (Ib & Nb & _). destruct Hc as (Ic & Nc & _).
  unfold sameIssue, Validation64.overlapIssue, Validation.overlapIssue.
  cbn [Validation64.issue_id Validation64.severity Validation64.issue_type
       Validation64.message Validation64.roomIds Validation64.details
       Validation.issue_id Validation.severity Validation.issue_type
       Validation.message Validation.roomIds Validation.details].
  rewrite Ib, Ic, Nb, Nc.
  do 5 (split; [reflexivity|]).
  cbn [sameOption]. unfold sameDetails.
  cbn [Validation64.wallSide Validation64.overlapArea Validation64.wallPosition
       Validation.wallSide Validation.overlapArea Validation.wallPosition sameOption].
  split; [reflexivity|]. split; [exact H|exact I].
Qed.

Lemma duplicateStep_agree (s64 t64 : Validation64.WallSegment) (s t : Validation.WallSegment) :
  sameSegment s64 s -> sameSegment t64 t ->
  Forall2 sameIssue (Validation64.duplicateStep s64 t64) (Validation.duplicateStep s t).
Proof.
  intros Hs Ht. pose proof (wallsOverlap_agree _ _ _ _ Hs Ht) as H.
  destruct Hs as (Is & Ns & Ds & Es & Sx1 & Sy1 & Sx2 & Sy2).
  destruct Ht as (It & Nt & Dt & Et & _).
  unfold Validation64.duplicateStep, Validation.duplicateStep.
  rewrite H, Is, It, Es, Et.
  destruct (String.eqb _ _); [constructor|].
  destruct (negb _ || negb _)%bool; [constructor|].
  destruct (Validation.wallsOverlap s t); [|constructor].
  constructor; [|constructor].
  unfold sameIssue, Validation64.duplicateWallIssue, Validation.duplicateWallIssue.
  cbn [Validation64.issue_id Validation64.severity Validation64.issue_type
       Validation64.message Validation64.roomIds Validation64.details
       Validation.issue_id Validation.severity Validation.issue_type
       Validation.message Validation.roomIds Validation.details].
  rewrite Is, It, Ns, Nt, Ds, Dt.
  do 5 (split; [reflexivity|]).
  cbn [sameOption]. unfold sameDetails.
  cbn [Validation64.wallSide Validation64.overlapArea Validation64.wallPosition
       Validation.wallSide Validation.overlapArea Validation.wallPosition sameOption].
  split; [reflexivity|]. split; [exact I|].
  unfold samePosition.
  cbn [Validation64.wp_x1 Validation64.wp_y1 Validation64.wp_x2 Validation64.wp_y2
       Validation.wp_x1 Validation.wp_y1 Validation.wp_x2 Validation.wp_y2].
  repeat split; eapply wholeExact_exact; eassumption.
Qed.

Lemma invalidDimensions_agree (rooms : list Room) :
  forallb wholeRoom rooms = true ->
  Forall2 sameIssue (Validation64.detectInvalidDimensions rooms)
                    (Validation.detectInvalidDimensions rooms).
Proof.
  unfold Validation64.detectInvalidDimensions, Validation.detectInvalidDimensions.
  induction rooms as [|room rest IH]; cbn [forallb flat_map]; intro H.
  - constructor.
  - apply andb_true_iff in H. destruct H as [Hr Hrest].
    apply Forall2_app; [|apply IH; exact Hrest].
    destruct (bounds_agree room Hr) as (_ & Nb & _ & _ & Bw & Bh).
    rewrite (exact_leb _ _ _ _ (wholeExact_exact _ _ _ Bw) exact_zero).
    rewrite (exact_leb _ _ _ _ (wholeExact_exact _ _ _ Bh) exact_zero).
    destruct (JS.leb _ 0 || JS.leb _ 0)%bool; [|constructor].
    constructor; [|constructor].
    unfold sameIssue, Validation64.invalidDimensionIssue, Validation.invalidDimensionIssue.
    cbn [Validation64.issue_id Validation64.severity Validation64.issue_type
         Validation64.message Validation64.roomIds Validation64.details
         Validation.issue_id Validation.severity Validation.issue_type
         Validation.message Validation.roomIds Validation.details].
    rewrite Nb. do 5 (split; [reflexivity|]). exact I.
Qed.

(** X26. On a plan whose positions and wall lengths are whole numbers of
    absolute value at most 2^50, the binary64 run of [validateFloorPlan]
    reports, in the same order, the issues of the exact run: same
    identifier, severity, type, message and rooms, and every number of the
    details (overlap area, wall position) stands for the exact one. *)
Theorem whole_plan_same_issues (fp : FloorPlan) :
  wholePlan fp = true ->
  Forall2 sameIssue (Validation64.validateFloorPlan fp) (Validation.validateFloorPlan fp).
Proof.
  unfold wholePlan, Validation64.validateFloorPlan, Validation.validateFloorPlan.
  cbv zeta. intro H.
  destruct (floor_rooms (fp_floor fp)) as [|room rest] eqn:E; [constructor|].
  rewrite <- E in *. clear E room rest.
  apply Forall2_app; [apply invalidDimensions_agree; exact H|].
  apply Forall2_app.
  - unfold Validation64.detectOverlaps, Validation.detectOverlaps. cbv zeta.
    apply (Forall2_forPairs sameBounds sameIssue); [|apply wholeRooms_bounds; exact H].
    intros x y x' y' Hx Hy. apply overlapStep_agree; assumption.
  - unfold Validation64.detectDuplicateWalls, Validation.detectDuplicateWalls.
    apply (Forall2_forPairs sameSegment sameIssue); [|apply wholeRooms_walls; exact H].
    intros x y x' y' Hx Hy. apply duplicateStep_agree; assumption.
Qed.

Lemma whole_plan_same_issues_witness :
  wholePlan Examples.overlappingPlan = true
  /\ Forall2 sameIssue (Validation64.validateFloorPlan Examples.overlappingPlan)
                       (Validation.validateFloorPlan Examples.overlappingPlan).
Proof.
  split; [reflexivity|]. apply whole_plan_same_issues. reflexivity.
Defined.

(** Outside whole numbers the two runs can differ.  A room 2.2 wide at x = 0
    and a room at x = 1.2: 2.2 - 1.2 is 1.0000000000000002 in binary64, so the
    binary64 run reports an overlap and two duplicate walls (north on north,
    south on south), where the exact run finds the rooms 1 apart and reports
    one duplicate wall (east on west). *)
Example decimal_plan_runs_differ :
  let fp := Examples.planOf None [ Examples.rectRoom "a" 0 0 (22 # 10) 3;
                                   Examples.rectRoom "b" (12 # 10) 0 3 3 ] in
  wholePlan fp = false
  /\ map Validation64.issue_id (Validation64.validateFloorPlan fp)
     = [ "overlap-a-b"; "duplicate-wall-a-north-b-north";
         "duplicate-wall-a-south-b-south" ]%string
  /\ map Validation.issue_id (Validation.validateFloorPlan fp)
     = [ "duplicate-wall-a-east-b-west" ]%string.
Proof. vm_compute. repeat split. Qed.
